(** * AgentAPI unified middleware: a shallow embedding and its properties

    The development follows the Go packages of [lib/middleware]:
    the configuration records and [ValidateConfig] (package [middleware]),
    the synchronisation hub (package [sync]), the error layer (package
    [errors]), the authenticator (package [auth]), the request validator
    (package [validation]), the session layer (package [claude]) and the
    manager that ties them together.

    Go values are modelled as follows: [string] as [string], [int],
    [int64], [time.Time] and [time.Duration] as [Z] (nanoseconds for the
    last two), maps as [gmap], pointers to clients as locations in an
    explicit heap, buffered channels as a record with their pending
    elements, capacity and closed flag, and a Go panic as the [Panicked]
    outcome of a run. *)

From Stdlib Require Import ZArith Ascii String List.
From stdpp Require Import base option gmap strings pretty list fin_maps.

Local Open Scope string_scope.

(** ** Outcome of running Go code that may panic *)

Inductive PanicKind :=
  | SendOnClosedChannel
  | CloseOfClosedChannel
  | NilPointerDereference
  | ChanSizeOutOfRange.

Inductive Run (A : Type) :=
  | Done (a : A)
  | Panicked (k : PanicKind).
Arguments Done {A} a.
Arguments Panicked {A} k.

Definition run_bind {A B} (r : Run A) (f : A -> Run B) : Run B :=
  match r with
  | Done a => f a
  | Panicked k => Panicked k
  end.

(** Go's [error]: [None] is [nil], [Some msg] carries [err.Error()]. *)
Definition error := option string.

(** ** Package strings (the functions the middleware calls)

    A Go string is a sequence of bytes; one [ascii] stands for one byte.
    [ToLower] folds the ASCII letters and leaves every other byte as it
    is. *)

Module Strings.

Definition lower_byte (c : ascii) : ascii :=
  let n := nat_of_ascii c in
  if (65 <=? n)%nat && (n <=? 90)%nat then ascii_of_nat (n + 32) else c.

Fixpoint ToLower (s : string) : string :=
  match s with
  | EmptyString => EmptyString
  | String c s' => String (lower_byte c) (ToLower s')
  end.

Definition HasPrefix (s pre : string) : bool := String.prefix pre s.

Fixpoint Contains (s substr : string) : bool :=
  HasPrefix s substr ||
  match s with
  | EmptyString => false
  | String _ s' => Contains s' substr
  end.

(** Left-to-right replacement of the non-overlapping occurrences of a
    non-empty [old]; [skip] counts the bytes of a match still to be
    dropped. *)
Fixpoint replace_from (old new : string) (skip : nat) (s : string) : string :=
  match s with
  | EmptyString => EmptyString
  | String c s' =>
      match skip with
      | S k => replace_from old new k s'
      | O =>
          if HasPrefix s old
          then new ++ replace_from old new (String.length old - 1) s'
          else String c (replace_from old new 0 s')
      end
  end.

(** With an empty [old], Go inserts [new] before every byte of an ASCII
    string and at its end. *)
Fixpoint intersperse_with (new s : string) : string :=
  match s with
  | EmptyString => new
  | String c s' => new ++ String c (intersperse_with new s')
  end.

Definition ReplaceAll (s old new : string) : string :=
  match old with
  | EmptyString => intersperse_with new s
  | _ => replace_from old new 0 s
  end.

(** [strings.SplitN(s, sep, 2)] for a one-byte separator: the text
    before the first [sep] and the text after it, or [s] alone. *)
Fixpoint cut_at (sep : ascii) (s : string) : option (string * string) :=
  match s with
  | EmptyString => None
  | String c s' =>
      if Ascii.eqb c sep then Some (EmptyString, s')
      else match cut_at sep s' with
           | Some (a, b) => Some (String c a, b)
           | None => None
           end
  end.

Definition SplitN2 (s : string) (sep : ascii) : list string :=
  match cut_at sep s with
  | Some (a, b) => [a; b]
  | None => [s]
  end.

(** [s[n:]] for [n] within the string. *)
Fixpoint drop_bytes (n : nat) (s : string) : string :=
  match n, s with
  | O, _ => s
  | S n', String _ s' => drop_bytes n' s'
  | S _, EmptyString => EmptyString
  end.

(** [strings.TrimPrefix] *)
Definition TrimPrefix (s pre : string) : string :=
  if HasPrefix s pre then drop_bytes (String.length pre) s else s.

(** [strings.HasSuffix] *)
Definition HasSuffix (s suffix : string) : bool :=
  (String.length suffix <=? String.length s)%nat
  && bool_decide (drop_bytes (String.length s - String.length suffix) s = suffix).

End Strings.

(** ** Package middleware: configuration and wire types *)

Module Middleware.

Module AuthConfig.
Record t := mk {
  Enabled : bool;
  Type_ : string;
  Secret : string;
  Expiration : Z;
  Issuer : string
}.
End AuthConfig.

Module ValidationConfig.
Record t := mk {
  Enabled : bool;
  StrictMode : bool;
  MaxRequestSize : Z;
  ValidateHeaders : bool
}.
End ValidationConfig.

Module ResponseConfig.
Record t := mk {
  Enabled : bool;
  StandardFormat : bool;
  IncludeTimestamp : bool;
  IncludeRequestID : bool;
  CompressionLevel : Z;
  CacheControl : string
}.
End ResponseConfig.

Module SyncConfig.
Record t := mk {
  Enabled : bool;
  WebSocketEnabled : bool;
  SSEEnabled : bool;
  HeartbeatInterval : Z;
  BufferSize : Z
}.
End SyncConfig.

Module ClaudeConfig.
Record t := mk {
  Enabled : bool;
  APIEndpoint : string;
  Version : string;
  MaxRetries : Z;
  TimeoutSeconds : Z;
  RateLimitRPS : Z;
  EnableStreaming : bool
}.
End ClaudeConfig.

Module ErrorConfig.
Record t := mk {
  Enabled : bool;
  DetailedErrors : bool;
  LogErrors : bool;
  IncludeStack : bool;
  SanitizeSecrets : bool
}.
End ErrorConfig.

Record MiddlewareConfig := mkConfig {
  Auth : AuthConfig.t;
  Validation : ValidationConfig.t;
  Response : ResponseConfig.t;
  Sync : SyncConfig.t;
  Claude : ClaudeConfig.t;
  Errors : ErrorConfig.t
}.

(** The dynamically typed argument of [Configure(config interface{})]. *)
Inductive AnyConfig :=
  | OfAuth (c : AuthConfig.t)
  | OfValidation (c : ValidationConfig.t)
  | OfResponse (c : ResponseConfig.t)
  | OfSync (c : SyncConfig.t)
  | OfClaude (c : ClaudeConfig.t)
  | OfErrors (c : ErrorConfig.t).

Record RequestContext := mkRequestContext {
  RequestID : string;
  UserID : string;
  AgentID : string
}.

Record ErrorInfo := mkErrorInfo {
  Code : string;
  Message : string;
  Details : string;
  Stack : string
}.

Record StandardResponse := mkStandardResponse {
  Success : bool;
  Error : option ErrorInfo;
  ResponseRequestID : string;
  Timestamp : Z
}.

Definition second : Z := 1000000000.
Definition minute : Z := 60 * second.
Definition hour : Z := 60 * minute.

(** [CreateDefaultConfig] *)
Definition CreateDefaultConfig : MiddlewareConfig :=
  {| Auth := {| AuthConfig.Enabled := true; AuthConfig.Type_ := "bearer";
                AuthConfig.Secret := "default-secret-change-me";
                AuthConfig.Expiration := 24 * hour; AuthConfig.Issuer := "agentapi" |};
     Validation := {| ValidationConfig.Enabled := true; ValidationConfig.StrictMode := false;
                      ValidationConfig.MaxRequestSize := 10 * 1024 * 1024;
                      ValidationConfig.ValidateHeaders := true |};
     Response := {| ResponseConfig.Enabled := true; ResponseConfig.StandardFormat := true;
                    ResponseConfig.IncludeTimestamp := true;
                    ResponseConfig.IncludeRequestID := true;
                    ResponseConfig.CompressionLevel := 6;
                    ResponseConfig.CacheControl := "no-cache" |};
     Sync := {| SyncConfig.Enabled := true; SyncConfig.WebSocketEnabled := true;
                SyncConfig.SSEEnabled := true; SyncConfig.HeartbeatInterval := 30 * second;
                SyncConfig.BufferSize := 1000 |};
     Claude := {| ClaudeConfig.Enabled := true;
                  ClaudeConfig.APIEndpoint := "http://localhost:8080/api/claude";
                  ClaudeConfig.Version := "1.0"; ClaudeConfig.MaxRetries := 3;
                  ClaudeConfig.TimeoutSeconds := 30; ClaudeConfig.RateLimitRPS := 10;
                  ClaudeConfig.EnableStreaming := true |};
     Errors := {| ErrorConfig.Enabled := true; ErrorConfig.DetailedErrors := false;
                  ErrorConfig.LogErrors := true; ErrorConfig.IncludeStack := false;
                  ErrorConfig.SanitizeSecrets := true |} |}.

(** [ValidateConfig] *)
Definition ValidateConfig (config : MiddlewareConfig) : error :=
  if AuthConfig.Enabled (Auth config) && bool_decide (AuthConfig.Secret (Auth config) = "")
  then Some "auth secret cannot be empty when auth is enabled"
  else if AuthConfig.Enabled (Auth config)
          && negb (bool_decide (AuthConfig.Type_ (Auth config) = "bearer"))
          && negb (bool_decide (AuthConfig.Type_ (Auth config) = "api_key"))
  then Some ("unsupported auth type: " ++ AuthConfig.Type_ (Auth config))
  else if ValidationConfig.Enabled (Validation config)
          && (ValidationConfig.MaxRequestSize (Validation config) <=? 0)%Z
  then Some "max request size must be positive"
  else if SyncConfig.Enabled (Sync config) && (SyncConfig.BufferSize (Sync config) <=? 0)%Z
  then Some "sync buffer size must be positive"
  else if SyncConfig.Enabled (Sync config)
          && (SyncConfig.HeartbeatInterval (Sync config) <=? 0)%Z
  then Some "heartbeat interval must be positive"
  else if ClaudeConfig.Enabled (Claude config)
          && bool_decide (ClaudeConfig.APIEndpoint (Claude config) = "")
  then Some "Claude API endpoint cannot be empty when Claude is enabled"
  else if ClaudeConfig.Enabled (Claude config)
          && (ClaudeConfig.TimeoutSeconds (Claude config) <=? 0)%Z
  then Some "Claude timeout must be positive"
  else None.

End Middleware.

(** ** net/http: the parts of a request and of a written response the
    middleware reads and writes *)

Module Http.

Record Request := mkRequest {
  Method : string;
  Path : string;
  Header : gmap string string;
  Query : gmap string string;
  ContentLength : Z;
  (** what [io.ReadAll(r.Body)] gives: the payload, or a read error *)
  Body : string + string;
  (** [middleware.GetRequestContext(r.Context())] *)
  Context : option Middleware.RequestContext
}.

(** [r.Header.Get(key)] *)
Definition Get (r : Request) (key : string) : string := default "" (Header r !! key).

(** [r.URL.Query().Get(key)] *)
Definition QueryGet (r : Request) (key : string) : string := default "" (Query r !! key).

Definition with_Body (r : Request) (body : string) : Request :=
  {| Method := Method r; Path := Path r; Header := Header r; Query := Query r;
     ContentLength := ContentLength r; Body := inl body; Context := Context r |}.

Record Written := mkWritten {
  StatusCode : Z;
  ContentType : string;
  Payload : Middleware.StandardResponse
}.

Definition StatusOK : Z := 200.
Definition StatusBadRequest : Z := 400.
Definition StatusUnauthorized : Z := 401.
Definition StatusForbidden : Z := 403.
Definition StatusNotFound : Z := 404.
Definition StatusMethodNotAllowed : Z := 405.
Definition StatusRequestTimeout : Z := 408.
Definition StatusConflict : Z := 409.
Definition StatusUnprocessableEntity : Z := 422.
Definition StatusTooManyRequests : Z := 429.
Definition StatusInternalServerError : Z := 500.
Definition StatusBadGateway : Z := 502.
Definition StatusServiceUnavailable : Z := 503.
Definition StatusGatewayTimeout : Z := 504.

End Http.

(** What the Go runtime supplies to a handler: the clock, the frames
    [captureStack] collects and the identifier a [generateRequestID]
    call produces. *)
Record Runtime := mkRuntime {
  now : Z;
  frames : list string;
  fresh_id : string
}.

(** ** Package errors: the error-recovery layer *)

Module Errors.

Record ErrorMiddleware := mkErrorMiddleware {
  config : Middleware.ErrorConfig.t;
  enabled : bool
}.

(** [NewErrorMiddleware] *)
Definition NewErrorMiddleware (c : Middleware.ErrorConfig.t) : ErrorMiddleware :=
  {| config := c; enabled := Middleware.ErrorConfig.Enabled c |}.

(** [Configure] *)
Definition Configure (e : ErrorMiddleware) (c : Middleware.AnyConfig) : ErrorMiddleware * error :=
  match c with
  | Middleware.OfErrors errorConfig =>
      ({| config := errorConfig; enabled := Middleware.ErrorConfig.Enabled errorConfig |}, None)
  | _ => (e, Some "invalid error config type")
  end.

Definition sensitivePatterns : list string :=
  ["password"; "token"; "key"; "secret"; "auth"; "credential"].

(** One iteration of the loop of [sanitizeMessage]. *)
Definition sanitize_step (sanitized pattern : string) : string :=
  if Strings.Contains (Strings.ToLower sanitized) pattern
  then Strings.ReplaceAll sanitized pattern "[REDACTED]"
  else sanitized.

(** [sanitizeMessage] *)
Definition sanitizeMessage (message : string) : string :=
  foldl sanitize_step message sensitivePatterns.

(** The message [logError] hands to the logger, if it logs. *)
Definition logError (e : ErrorMiddleware) (message : string) : list string :=
  if negb (Middleware.ErrorConfig.LogErrors (config e)) then []
  else if Middleware.ErrorConfig.SanitizeSecrets (config e)
       then [sanitizeMessage message]
       else [message].

Fixpoint join_lines (l : list string) : string :=
  match l with
  | [] => ""
  | [x] => x
  | x :: rest => x ++ String "010"%char (join_lines rest)
  end.

(** [writeErrorResponse] *)
Definition writeErrorResponse (e : ErrorMiddleware) (rt : Runtime) (r : Http.Request)
    (statusCode : Z) (code message : string) : Http.Written :=
  let message :=
    if Middleware.ErrorConfig.SanitizeSecrets (config e)
    then sanitizeMessage message else message in
  let stack :=
    if Middleware.ErrorConfig.DetailedErrors (config e)
       && Middleware.ErrorConfig.IncludeStack (config e)
    then join_lines (frames rt) else "" in
  let errorInfo :=
    {| Middleware.Code := code; Middleware.Message := message;
       Middleware.Details := ""; Middleware.Stack := stack |} in
  {| Http.StatusCode := statusCode;
     Http.ContentType := "application/json";
     Http.Payload :=
       {| Middleware.Success := false;
          Middleware.Error := Some errorInfo;
          Middleware.ResponseRequestID :=
            match Http.Context r with
            | Some reqCtx => Middleware.RequestID reqCtx
            | None => fresh_id rt
            end;
          Middleware.Timestamp := now rt |} |}.

(** The [switch statusCode] of [HandleError]. *)
Definition error_code (statusCode : Z) : string :=
  if (statusCode =? Http.StatusBadRequest)%Z then "BAD_REQUEST"
  else if (statusCode =? Http.StatusUnauthorized)%Z then "UNAUTHORIZED"
  else if (statusCode =? Http.StatusForbidden)%Z then "FORBIDDEN"
  else if (statusCode =? Http.StatusNotFound)%Z then "NOT_FOUND"
  else if (statusCode =? Http.StatusMethodNotAllowed)%Z then "METHOD_NOT_ALLOWED"
  else if (statusCode =? Http.StatusConflict)%Z then "CONFLICT"
  else if (statusCode =? Http.StatusTooManyRequests)%Z then "RATE_LIMITED"
  else if (statusCode =? Http.StatusInternalServerError)%Z then "INTERNAL_SERVER_ERROR"
  else if (statusCode =? Http.StatusBadGateway)%Z then "BAD_GATEWAY"
  else if (statusCode =? Http.StatusServiceUnavailable)%Z then "SERVICE_UNAVAILABLE"
  else if (statusCode =? Http.StatusGatewayTimeout)%Z then "GATEWAY_TIMEOUT"
  else "UNKNOWN_ERROR".

Record Handled := mkHandled {
  logged : list string;
  written : option Http.Written
}.

(** [HandleError] *)
Definition HandleError (e : ErrorMiddleware) (rt : Runtime) (r : Http.Request)
    (err : error) (statusCode : Z) : Handled :=
  match err with
  | None => {| logged := []; written := None |}
  | Some msg =>
      {| logged := logError e msg;
         written := Some (writeErrorResponse e rt r statusCode (error_code statusCode) msg) |}
  end.

(** What [recoverPanic] logs and writes once a panic with value
    [recovered] (already formatted) reaches it. *)
Definition recoverPanic (e : ErrorMiddleware) (rt : Runtime) (r : Http.Request)
    (recovered : string) : Handled :=
  {| logged := logError e ("Panic recovered: " ++ recovered);
     written := Some (writeErrorResponse e rt r Http.StatusInternalServerError
                        "INTERNAL_SERVER_ERROR" "Internal server error") |}.

(** The message of a written error envelope. *)
Definition message_of (w : Http.Written) : string :=
  match Middleware.Error (Http.Payload w) with
  | Some info => Middleware.Message info
  | None => ""
  end.

Definition code_of (w : Http.Written) : string :=
  match Middleware.Error (Http.Payload w) with
  | Some info => Middleware.Code info
  | None => ""
  end.

(** *** The error-aware response writer

    A handler drives its [http.ResponseWriter] by a sequence of calls. *)
Inductive WriterCall :=
  | CallWriteHeader (statusCode : Z)
  | CallWrite (data : string).

(** The fields of [ErrorResponseWriter] that change; [request] and
    [errorHandler] are fixed when [Handler] creates it. *)
Module ErrorResponseWriter.
Record t := mk {
  statusCode : Z;
  written : bool
}.
End ErrorResponseWriter.

(** An [ErrorResponseWriter] with what it has done so far: the calls it
    passed to the writer it wraps and the lines it logged, both in
    order. *)
Record Wrapped := mkWrapped {
  writer : ErrorResponseWriter.t;
  passed : list WriterCall;
  lines : list string
}.

(** [handleErrorStatus] *)
Definition handleErrorStatus (e : ErrorMiddleware) (statusCode : Z) : list string :=
  if negb (Middleware.ErrorConfig.LogErrors (config e)) then []
  else logError e ("HTTP " ++ pretty statusCode ++ " error").

(** [WriteHeader] *)
Definition WriteHeader (e : ErrorMiddleware) (ew : Wrapped) (statusCode : Z) : Wrapped :=
  let log :=
    if (400 <=? statusCode)%Z && negb (ErrorResponseWriter.written (writer ew))
    then handleErrorStatus e statusCode else [] in
  {| writer := {| ErrorResponseWriter.statusCode := statusCode;
                  ErrorResponseWriter.written := true |};
     passed := passed ew ++ [CallWriteHeader statusCode];
     lines := lines ew ++ log |}.

(** [Write] *)
Definition Write (ew : Wrapped) (data : string) : Wrapped :=
  {| writer :=
       {| ErrorResponseWriter.statusCode :=
            if (ErrorResponseWriter.statusCode (writer ew) =? 0)%Z then Http.StatusOK
            else ErrorResponseWriter.statusCode (writer ew);
          ErrorResponseWriter.written := ErrorResponseWriter.written (writer ew) |};
     passed := passed ew ++ [CallWrite data];
     lines := lines ew |}.

Definition call (e : ErrorMiddleware) (ew : Wrapped) (c : WriterCall) : Wrapped :=
  match c with
  | CallWriteHeader statusCode => WriteHeader e ew statusCode
  | CallWrite data => Write ew data
  end.

(** The writer [Handler] hands to the next handler. *)
Definition new_writer : Wrapped :=
  {| writer := {| ErrorResponseWriter.statusCode := 0; ErrorResponseWriter.written := false |};
     passed := []; lines := [] |}.

(** What a served request leaves behind: the calls of the wrapped
    handler that reached the response writer, the lines logged, and the
    response [recoverPanic] wrote after them, if it ran. *)
Record Served := mkServed {
  to_writer : list WriterCall;
  to_logger : list string;
  recovery : option Http.Written
}.

(** [Handler]: the next handler is given by the calls it makes on its
    response writer and by the value it panics with, if it does. A panic
    that nothing recovers leaves the handler ([inr]). *)
Definition Handler (e : ErrorMiddleware) (rt : Runtime) (r : Http.Request)
    (calls : list WriterCall) (panic : option string) : Served + string :=
  if negb (enabled e) then
    match panic with
    | Some recovered => inr recovered
    | None => inl {| to_writer := calls; to_logger := []; recovery := None |}
    end
  else
    let ew := foldl (call e) new_writer calls in
    match panic with
    | None => inl {| to_writer := passed ew; to_logger := lines ew; recovery := None |}
    | Some recovered =>
        let h := recoverPanic e rt r recovered in
        inl {| to_writer := passed ew; to_logger := lines ew ++ logged h;
               recovery := written h |}
    end.

End Errors.

(** ** Package sync: the hub *)

Module Sync.

Inductive DataField :=
  | FString (s : string)
  | FOther.

(** The [Data interface{}] of a message: nothing, a
    [map[string]interface{}] (what decoding a JSON object gives), or a
    pointer to one of the event structs. *)
Inductive Payload :=
  | PNil
  | PMap (fields : gmap string DataField)
  | PStruct (fields : gmap string DataField).

(** [SyncMessage] *)
Module SyncMessage.
Record t := mk {
  Type_ : string;
  Data : Payload;
  Timestamp : Z;
  ClientID : string;
  UserID : string;
  AgentID : string
}.
End SyncMessage.
Abbreviation SyncMessage := SyncMessage.t.

(** A buffered Go channel of messages. *)
Record Chan := mkChan {
  buf : list SyncMessage;
  cap : nat;
  closed : bool
}.

(** [make(chan *SyncMessage, size)] *)
Definition make_chan (size : Z) : Run Chan :=
  if (size <? 0)%Z then Panicked ChanSizeOutOfRange
  else Done {| buf := []; cap := Z.to_nat size; closed := false |}.

Inductive TrySend :=
  | Sent (ch : Chan)
  | WouldBlock
  | SendPanics.

(** [select { case ch <- v: ... default: ... }]: the send goes through
    when the buffer has room. An element handed to a waiting receiver is
    modelled as buffered until [recv] takes it, so a channel of capacity
    0 never has room here. *)
Definition try_send (ch : Chan) (v : SyncMessage) : TrySend :=
  if closed ch then SendPanics
  else if decide (length (buf ch) < cap ch)
       then Sent {| buf := buf ch ++ [v]; cap := cap ch; closed := false |}
       else WouldBlock.

(** [close(ch)] *)
Definition close_chan (ch : Chan) : Run Chan :=
  if closed ch then Panicked CloseOfClosedChannel
  else Done {| buf := buf ch; cap := cap ch; closed := true |}.

(** What the writer goroutine sees on [<-client.Send]. *)
Definition recv (ch : Chan) : option (option SyncMessage * Chan) :=
  match buf ch with
  | v :: rest => Some (Some v, {| buf := rest; cap := cap ch; closed := closed ch |})
  | [] => if closed ch then Some (None, ch) else None
  end.

Module Client.
Record t := mk {
  ID : string;
  UserID : string;
  AgentID : string;
  Send : Chan;
  LastPing : Z;
  Metadata : gmap string string
}.
End Client.
Abbreviation Client := Client.t.

Definition with_Send (c : Client) (ch : Chan) : Client :=
  {| Client.ID := Client.ID c; Client.UserID := Client.UserID c;
     Client.AgentID := Client.AgentID c; Client.Send := ch;
     Client.LastPing := Client.LastPing c; Client.Metadata := Client.Metadata c |}.

Definition loc := nat.

(** [SyncMiddleware], together with the client objects its pointers
    refer to: [heap] holds the [*Client] values by address, [clients] is
    the registry (client ID to pointer) and [broadcast] lists the pending
    elements of the broadcast channel. *)
Record SyncMiddleware := mkSync {
  config : Middleware.SyncConfig.t;
  enabled : bool;
  heap : gmap loc Client;
  clients : gmap string loc;
  broadcast : list SyncMessage
}.

(** [NewSyncMiddleware] *)
Definition NewSyncMiddleware (c : Middleware.SyncConfig.t) : SyncMiddleware :=
  {| config := c; enabled := Middleware.SyncConfig.Enabled c;
     heap := ∅; clients := ∅; broadcast := [] |}.

(** [Configure] *)
Definition Configure (s : SyncMiddleware) (c : Middleware.AnyConfig) : SyncMiddleware * error :=
  match c with
  | Middleware.OfSync syncConfig =>
      ({| config := syncConfig; enabled := Middleware.SyncConfig.Enabled syncConfig;
          heap := heap s; clients := clients s; broadcast := broadcast s |}, None)
  | _ => (s, Some "invalid sync config type")
  end.

Definition set_client (s : SyncMiddleware) (p : loc) (c : Client) : SyncMiddleware :=
  {| config := config s; enabled := enabled s;
     heap := <[p := c]> (heap s); clients := clients s; broadcast := broadcast s |}.

Definition set_clients (s : SyncMiddleware) (r : gmap string loc) : SyncMiddleware :=
  {| config := config s; enabled := enabled s;
     heap := heap s; clients := r; broadcast := broadcast s |}.

Definition push_broadcast (s : SyncMiddleware) (m : SyncMessage) : SyncMiddleware :=
  {| config := config s; enabled := enabled s;
     heap := heap s; clients := clients s; broadcast := broadcast s ++ [m] |}.

Definition deref (s : SyncMiddleware) (p : loc) : Run Client :=
  match heap s !! p with
  | Some c => Done c
  | None => Panicked NilPointerDereference
  end.

(** [shouldReceiveMessage] *)
Definition shouldReceiveMessage (client : Client) (message : SyncMessage) : bool :=
  if bool_decide (SyncMessage.UserID message = "") && bool_decide (SyncMessage.AgentID message = "")
  then true
  else if negb (bool_decide (SyncMessage.UserID message = ""))
          && bool_decide (Client.UserID client = SyncMessage.UserID message)
  then true
  else if negb (bool_decide (SyncMessage.AgentID message = ""))
          && bool_decide (Client.AgentID client = SyncMessage.AgentID message)
  then true
  else false.

(** The non-blocking send used by [registerClient] and
    [broadcastMessage]: on a full queue the channel is closed and the
    client is deleted from the registry. *)
Definition send_or_drop (s : SyncMiddleware) (p : loc) (client : Client)
    (message : SyncMessage) : Run SyncMiddleware :=
  match try_send (Client.Send client) message with
  | Sent ch => Done (set_client s p (with_Send client ch))
  | WouldBlock =>
      run_bind (close_chan (Client.Send client)) (fun ch =>
        Done (set_clients (set_client s p (with_Send client ch))
                          (delete (Client.ID client) (clients s))))
  | SendPanics => Panicked SendOnClosedChannel
  end.

(** Body of the loop of [broadcastMessage] for one registry entry. *)
Definition broadcast_step (message : SyncMessage) (_ : string) (p : loc)
    (acc : Run SyncMiddleware) : Run SyncMiddleware :=
  run_bind acc (fun s =>
    run_bind (deref s p) (fun client =>
      if shouldReceiveMessage client message
      then send_or_drop s p client message
      else Done s)).

(** [broadcastMessage]: the loop ranges over the registry; the only
    entry it deletes is the one being visited. *)
Definition broadcastMessage (s : SyncMiddleware) (message : SyncMessage) : Run SyncMiddleware :=
  map_fold (broadcast_step message) (Done s) (clients s).

(** [registerClient] *)
Definition registerClient (now : Z) (s : SyncMiddleware) (p : loc) : Run SyncMiddleware :=
  run_bind (deref s p) (fun client =>
    let s1 := set_clients s (<[Client.ID client := p]> (clients s)) in
    let welcome :=
      {| SyncMessage.Type_ := "welcome";
         SyncMessage.Data := PMap {[ "client_id" := FString (Client.ID client) ]};
         SyncMessage.Timestamp := now;
         SyncMessage.ClientID := ""; SyncMessage.UserID := ""; SyncMessage.AgentID := "" |} in
    send_or_drop s1 p client welcome).

(** [unregisterClient] *)
Definition unregisterClient (s : SyncMiddleware) (p : loc) : Run SyncMiddleware :=
  run_bind (deref s p) (fun client =>
    match clients s !! Client.ID client with
    | Some _ =>
        let s1 := set_clients s (delete (Client.ID client) (clients s)) in
        run_bind (close_chan (Client.Send client)) (fun ch =>
          Done (set_client s1 p (with_Send client ch)))
    | None => Done s
    end).

(** [handleSubscription] *)
Definition handleSubscription (s : SyncMiddleware) (p : loc) (client : Client)
    (message : SyncMessage) : SyncMiddleware :=
  match SyncMessage.Data message with
  | PMap data =>
      match data !! "agent_id" with
      | Some (FString agentIDStr) =>
          set_client s p
            {| Client.ID := Client.ID client; Client.UserID := Client.UserID client;
               Client.AgentID := agentIDStr; Client.Send := Client.Send client;
               Client.LastPing := Client.LastPing client;
               Client.Metadata := <["subscribed_agent" := agentIDStr]> (Client.Metadata client) |}
      | _ => s
      end
  | _ => s
  end.

(** [handleClientMessage] *)
Definition handleClientMessage (now : Z) (s : SyncMiddleware) (p : loc)
    (message : SyncMessage) : Run SyncMiddleware :=
  run_bind (deref s p) (fun client =>
    let message :=
      {| SyncMessage.Type_ := SyncMessage.Type_ message;
         SyncMessage.Data := SyncMessage.Data message;
         SyncMessage.Timestamp := now;
         SyncMessage.ClientID := Client.ID client;
         SyncMessage.UserID := Client.UserID client;
         SyncMessage.AgentID := SyncMessage.AgentID message |} in
    if bool_decide (SyncMessage.Type_ message = "ping") then
      let pong :=
        {| SyncMessage.Type_ := "pong"; SyncMessage.Data := PNil;
           SyncMessage.Timestamp := now; SyncMessage.ClientID := Client.ID client;
           SyncMessage.UserID := ""; SyncMessage.AgentID := "" |} in
      match try_send (Client.Send client) pong with
      | Sent ch => Done (set_client s p (with_Send client ch))
      | WouldBlock =>
          run_bind (close_chan (Client.Send client)) (fun ch =>
            Done (set_client s p (with_Send client ch)))
      | SendPanics => Panicked SendOnClosedChannel
      end
    else if bool_decide (SyncMessage.Type_ message = "subscribe") then
      Done (handleSubscription s p client message)
    else Done (push_broadcast s message)).

(** [handleWebSocket] after a successful upgrade, followed by the hub's
    [registerClient]: the client is allocated at the fresh address [p]
    with the identifier [generateClientID] produced. *)
Definition handleWebSocket (rt : Runtime) (s : SyncMiddleware) (p : loc) (r : Http.Request)
    : Run SyncMiddleware :=
  run_bind (make_chan (Middleware.SyncConfig.BufferSize (config s))) (fun ch =>
    let client :=
      {| Client.ID := fresh_id rt;
         Client.UserID := match Http.Context r with
                          | Some reqCtx => Middleware.UserID reqCtx
                          | None => ""
                          end;
         Client.AgentID := match Http.Context r with
                           | Some reqCtx => Middleware.AgentID reqCtx
                           | None => ""
                           end;
         Client.Send := ch; Client.LastPing := now rt; Client.Metadata := ∅ |} in
    registerClient (now rt) (set_client s p client) p).

(** [handleSSE] up to its loop: the client is allocated at the fresh
    address [p] and stored in the registry directly. *)
Definition handleSSE (rt : Runtime) (s : SyncMiddleware) (p : loc) : Run SyncMiddleware :=
  run_bind (make_chan (Middleware.SyncConfig.BufferSize (config s))) (fun eventChan =>
    let client :=
      {| Client.ID := fresh_id rt; Client.UserID := ""; Client.AgentID := "";
         Client.Send := eventChan; Client.LastPing := now rt;
         Client.Metadata := {[ "type" := "sse" ]} |} in
    Done (set_clients (set_client s p client) (<[fresh_id rt := p]> (clients s)))).

(** The deferred cleanup of [handleSSE], run when the request ends:
    [delete(s.clients, clientID)] and then [close(eventChan)]. *)
Definition handleSSE_deferred (s : SyncMiddleware) (p : loc) : Run SyncMiddleware :=
  run_bind (deref s p) (fun client =>
    let s1 := set_clients s (delete (Client.ID client) (clients s)) in
    run_bind (close_chan (Client.Send client)) (fun ch =>
      Done (set_client s1 p (with_Send client ch)))).

(** The writer goroutine taking the next element of [client.Send]. *)
Definition handleClientWrite_step (s : SyncMiddleware) (p : loc)
    : option (option SyncMessage * SyncMiddleware) :=
  match heap s !! p with
  | Some client =>
      match recv (Client.Send client) with
      | Some (m, ch) => Some (m, set_client s p (with_Send client ch))
      | None => None
      end
  | None => None
  end.

(** The hub taking the next element of the broadcast channel ([runHub]). *)
Definition runHub_broadcast (s : SyncMiddleware) : Run SyncMiddleware :=
  match broadcast s with
  | [] => Done s
  | message :: rest =>
      broadcastMessage
        {| config := config s; enabled := enabled s; heap := heap s;
           clients := clients s; broadcast := rest |} message
  end.

(** [BroadcastAgentStatus]: the message it puts on the broadcast channel. *)
Definition BroadcastAgentStatus (rt : Runtime) (s : SyncMiddleware)
    (agentID status message : string) : SyncMiddleware :=
  push_broadcast s
    {| SyncMessage.Type_ := "agent_status";
       SyncMessage.Data := PStruct {[ "agent_id" := FString agentID;
                                      "status" := FString status;
                                      "message" := FString message ]};
       SyncMessage.Timestamp := now rt; SyncMessage.ClientID := "";
       SyncMessage.UserID := ""; SyncMessage.AgentID := agentID |}.

(** [GetClientCount] *)
Definition GetClientCount (s : SyncMiddleware) : nat := size (clients s).

(** [sendHeartbeat]: the message it puts on the broadcast channel. *)
Definition sendHeartbeat (rt : Runtime) (s : SyncMiddleware) : SyncMiddleware :=
  push_broadcast s
    {| SyncMessage.Type_ := "heartbeat";
       SyncMessage.Data := PStruct {[ "client_id" := FString ""; "timestamp" := FOther ]};
       SyncMessage.Timestamp := now rt; SyncMessage.ClientID := "";
       SyncMessage.UserID := ""; SyncMessage.AgentID := "" |}.

(** [BroadcastMessageUpdate] *)
Definition BroadcastMessageUpdate (rt : Runtime) (s : SyncMiddleware)
    (messageID content status agentID : string) : SyncMiddleware :=
  push_broadcast s
    {| SyncMessage.Type_ := "message_update";
       SyncMessage.Data := PStruct {[ "message_id" := FString messageID;
                                      "content" := FString content;
                                      "status" := FString status;
                                      "agent_id" := FString agentID;
                                      "timestamp" := FOther ]};
       SyncMessage.Timestamp := now rt; SyncMessage.ClientID := "";
       SyncMessage.UserID := ""; SyncMessage.AgentID := agentID |}.

(** [BroadcastError] *)
Definition BroadcastError (rt : Runtime) (s : SyncMiddleware)
    (code message details : string) : SyncMiddleware :=
  push_broadcast s
    {| SyncMessage.Type_ := "error";
       SyncMessage.Data := PStruct {[ "code" := FString code;
                                      "message" := FString message;
                                      "details" := FString details;
                                      "timestamp" := FOther ]};
       SyncMessage.Timestamp := now rt; SyncMessage.ClientID := "";
       SyncMessage.UserID := ""; SyncMessage.AgentID := "" |}.

End Sync.

(** ** The JWT library as the authenticator uses it

    [jwt.Parse(tokenString, keyFunc)] of golang-jwt v5 with no parser
    option: the compact string is decoded, [keyFunc] supplies the key,
    the signature is checked with the method named in the header, and the
    default validator checks [exp] and [nbf] when they are present. It
    checks neither [iat] nor [iss] unless asked to by an option.

    A decoded token records its signing method, its claims and the key
    its signature verifies under. *)

Module Jwt.

Inductive SigningMethod :=
  | HS256 | HS384 | HS512
  | RS256 | ES256 | PS256 | EdDSA
  | AlgNone.

(** The type assertion of [token.Method] to the HMAC signing methods. *)
Definition is_HMAC (m : SigningMethod) : bool :=
  match m with
  | HS256 | HS384 | HS512 => true
  | _ => false
  end.

Inductive ClaimValue :=
  | CString (s : string)
  | CNumber (seconds : Z)
  | COther.

Record Token := mkToken {
  Method : SigningMethod;
  Claims : gmap string ClaimValue;
  SignedWith : string
}.

(** A numeric date claim: absent, a date, or of the wrong type. *)
Inductive NumericDate :=
  | Absent
  | Date (seconds : Z)
  | InvalidType.

Definition numeric_date (claims : gmap string ClaimValue) (key : string) : NumericDate :=
  match claims !! key with
  | None => Absent
  | Some (CNumber n) => Date n
  | Some _ => InvalidType
  end.

(** The default validator on [MapClaims] at time [now] (nanoseconds). *)
Definition validate_claims (now : Z) (claims : gmap string ClaimValue) : error :=
  match numeric_date claims "exp" with
  | InvalidType => Some "token has invalid claims: invalid type for claim"
  | Date exp =>
      if (now <? exp * Middleware.second)%Z then
        match numeric_date claims "nbf" with
        | InvalidType => Some "token has invalid claims: invalid type for claim"
        | Date nbf =>
            if (now <? nbf * Middleware.second)%Z
            then Some "token has invalid claims: token is not valid yet" else None
        | Absent => None
        end
      else Some "token has invalid claims: token is expired"
  | Absent =>
      match numeric_date claims "nbf" with
      | InvalidType => Some "token has invalid claims: invalid type for claim"
      | Date nbf =>
          if (now <? nbf * Middleware.second)%Z
          then Some "token has invalid claims: token is not valid yet" else None
      | Absent => None
      end
  end.

(** [jwt.Parse]: the token it returns is the valid one ([token.Valid]). *)
Definition Parse (decode : string -> option Token) (now : Z) (tokenString : string)
    (keyFunc : Token -> string + string) : Token + string :=
  match decode tokenString with
  | None => inr "token is malformed"
  | Some token =>
      match keyFunc token with
      | inr e => inr ("token is unverifiable: error while executing keyfunc: " ++ e)
      | inl key =>
          if bool_decide (SignedWith token = key) then
            match validate_claims now (Claims token) with
            | Some e => inr e
            | None => inl token
            end
          else inr "token signature is invalid"
      end
  end.

End Jwt.

(** ** Package auth: the authenticator *)

Module Auth.

Record AuthMiddleware := mkAuthMiddleware {
  config : Middleware.AuthConfig.t;
  enabled : bool;
  jwtKey : string;
  apiKeys : gmap string string
}.

(** [NewAuthMiddleware] *)
Definition NewAuthMiddleware (c : Middleware.AuthConfig.t) : AuthMiddleware :=
  {| config := c; enabled := Middleware.AuthConfig.Enabled c;
     jwtKey := Middleware.AuthConfig.Secret c; apiKeys := ∅ |}.

(** [Configure] *)
Definition Configure (a : AuthMiddleware) (c : Middleware.AnyConfig) : AuthMiddleware * error :=
  match c with
  | Middleware.OfAuth authConfig =>
      ({| config := authConfig; enabled := Middleware.AuthConfig.Enabled authConfig;
          jwtKey := Middleware.AuthConfig.Secret authConfig; apiKeys := apiKeys a |}, None)
  | _ => (a, Some "invalid auth config type")
  end.

(** [extractToken] *)
Definition extractToken (a : AuthMiddleware) (r : Http.Request) : string + string :=
  let type := Middleware.AuthConfig.Type_ (config a) in
  if bool_decide (type = "bearer") then
    let authHeader := Http.Get r "Authorization" in
    if bool_decide (authHeader = "") then inr "missing authorization header"
    else
      match Strings.SplitN2 authHeader " "%char with
      | [scheme; token] =>
          if bool_decide (Strings.ToLower scheme = "bearer") then inl token
          else inr "invalid authorization header format"
      | _ => inr "invalid authorization header format"
      end
  else if bool_decide (type = "api_key") then
    let apiKey := Http.Get r "X-API-Key" in
    let apiKey := if bool_decide (apiKey = "") then Http.QueryGet r "api_key" else apiKey in
    if bool_decide (apiKey = "") then inr "missing API key" else inl apiKey
  else inr ("unsupported auth type: " ++ type).

(** [validateAPIKey] *)
Definition validateAPIKey (a : AuthMiddleware) (apiKey : string) : string + string :=
  match apiKeys a !! apiKey with
  | Some userID => inl userID
  | None => inr "invalid API key"
  end.

(** [AddAPIKey] with the key [generateAPIKey] drew, and [RemoveAPIKey]. *)
Definition AddAPIKey (a : AuthMiddleware) (apiKey userID : string) : AuthMiddleware :=
  {| config := config a; enabled := enabled a; jwtKey := jwtKey a;
     apiKeys := <[apiKey := userID]> (apiKeys a) |}.

Definition RemoveAPIKey (a : AuthMiddleware) (apiKey : string) : AuthMiddleware :=
  {| config := config a; enabled := enabled a; jwtKey := jwtKey a;
     apiKeys := delete apiKey (apiKeys a) |}.

Section WithDecoder.

(** Decoding of the compact serialisation (base64 and JSON). *)
Variable decode : string -> option Jwt.Token.

(** The key function [validateJWT] hands to [jwt.Parse]. *)
Definition keyFunc (a : AuthMiddleware) (token : Jwt.Token) : string + string :=
  if Jwt.is_HMAC (Jwt.Method token) then inl (jwtKey a)
  else inr "unexpected signing method".

(** [validateJWT] *)
Definition validateJWT (a : AuthMiddleware) (rt : Runtime) (tokenString : string)
    : string + string :=
  match Jwt.Parse decode (now rt) tokenString (keyFunc a) with
  | inr e => inr ("invalid token: " ++ e)
  | inl token =>
      match Jwt.Claims token !! "user_id" with
      | Some (Jwt.CString userIDStr) => inl userIDStr
      | _ => inr "invalid token claims"
      end
  end.

(** [validateToken] *)
Definition validateToken (a : AuthMiddleware) (rt : Runtime) (token : string)
    : string + string :=
  let type := Middleware.AuthConfig.Type_ (config a) in
  if bool_decide (type = "bearer") then validateJWT a rt token
  else if bool_decide (type = "api_key") then validateAPIKey a token
  else inr ("unsupported auth type: " ++ type).

(** [AuthenticateRequest] *)
Definition AuthenticateRequest (a : AuthMiddleware) (rt : Runtime) (r : Http.Request)
    : string + string :=
  match extractToken a r with
  | inr e => inr e
  | inl token => validateToken a rt token
  end.

(** [writeUnauthorized] *)
Definition writeUnauthorized (rt : Runtime) (message : string) : Http.Written :=
  {| Http.StatusCode := Http.StatusUnauthorized;
     Http.ContentType := "application/json";
     Http.Payload :=
       {| Middleware.Success := false;
          Middleware.Error :=
            Some {| Middleware.Code := "UNAUTHORIZED"; Middleware.Message := message;
                    Middleware.Details := ""; Middleware.Stack := "" |};
          Middleware.ResponseRequestID := fresh_id rt;
          Middleware.Timestamp := now rt |} |}.

(** The request [Handler] passes on once [userID] is authenticated. *)
Definition with_user (rt : Runtime) (r : Http.Request) (userID : string) : Http.Request :=
  let reqCtx :=
    match Http.Context r with
    | Some c => c
    | None => {| Middleware.RequestID := fresh_id rt; Middleware.UserID := "";
                 Middleware.AgentID := "" |}
    end in
  {| Http.Method := Http.Method r; Http.Path := Http.Path r; Http.Header := Http.Header r;
     Http.Query := Http.Query r; Http.ContentLength := Http.ContentLength r;
     Http.Body := Http.Body r;
     Http.Context := Some {| Middleware.RequestID := Middleware.RequestID reqCtx;
                             Middleware.UserID := userID;
                             Middleware.AgentID := Middleware.AgentID reqCtx |} |}.

(** [Handler]: the response it writes itself, or the request it hands to
    the next handler. *)
Definition Handler (a : AuthMiddleware) (rt : Runtime) (r : Http.Request)
    : Http.Written + Http.Request :=
  if negb (enabled a) then inr r
  else
    match extractToken a r with
    | inr e => inl (writeUnauthorized rt e)
    | inl token =>
        match validateToken a rt token with
        | inr e => inl (writeUnauthorized rt e)
        | inl userID => inr (with_user rt r userID)
        end
    end.

End WithDecoder.

(** The token [GenerateJWT] builds with [jwt.NewWithClaims]: [Unix()]
    gives whole seconds, and both readings of the clock are taken at
    [now rt]. *)
Definition issued_token (a : AuthMiddleware) (rt : Runtime) (userID : string) : Jwt.Token :=
  {| Jwt.Method := Jwt.HS256;
     Jwt.Claims :=
       {[ "user_id" := Jwt.CString userID;
          "iss" := Jwt.CString (Middleware.AuthConfig.Issuer (config a));
          "exp" := Jwt.CNumber
                     ((now rt + Middleware.AuthConfig.Expiration (config a)) / Middleware.second);
          "iat" := Jwt.CNumber (now rt / Middleware.second) ]};
     Jwt.SignedWith := jwtKey a |}.

(** [GenerateJWT]; [encode] is the compact serialisation [SignedString]
    produces, which does not fail for an HMAC method and a byte key. *)
Definition GenerateJWT (encode : Jwt.Token -> string) (a : AuthMiddleware) (rt : Runtime)
    (userID : string) : string :=
  encode (issued_token a rt userID).

End Auth.

(** ** encoding/json values as [json.Unmarshal] stores them in an
    [interface{}]

    Objects become Go maps: [JObject] lists the entries of the map, one
    per key, in the order a [range] visits them. Numbers (float64 in Go)
    are kept as integers; the validator never inspects them. *)

#[local] Unset Elimination Schemes.
Inductive JSON :=
  | JNull
  | JBool (b : bool)
  | JNumber (n : Z)
  | JString (s : string)
  | JArray (items : list JSON)
  | JObject (fields : list (string * JSON)).
#[local] Set Elimination Schemes.

(** ** Package validation: the request validator *)

Module Validation.

Record ValidationMiddleware := mkValidationMiddleware {
  config : Middleware.ValidationConfig.t;
  enabled : bool
}.

(** [NewValidationMiddleware] *)
Definition NewValidationMiddleware (c : Middleware.ValidationConfig.t) : ValidationMiddleware :=
  {| config := c; enabled := Middleware.ValidationConfig.Enabled c |}.

(** [Configure] *)
Definition Configure (v : ValidationMiddleware) (c : Middleware.AnyConfig)
    : ValidationMiddleware * error :=
  match c with
  | Middleware.OfValidation validationConfig =>
      ({| config := validationConfig;
          enabled := Middleware.ValidationConfig.Enabled validationConfig |}, None)
  | _ => (v, Some "invalid validation config type")
  end.

(** [validateRequestSize] *)
Definition validateRequestSize (v : ValidationMiddleware) (r : Http.Request) : error :=
  let max := Middleware.ValidationConfig.MaxRequestSize (config v) in
  if (0 <? max)%Z && (max <? Http.ContentLength r)%Z
  then Some ("request size " ++ pretty (Http.ContentLength r)
             ++ " exceeds maximum allowed size " ++ pretty max)
  else None.

(** [validateHeaders] *)
Definition validateHeaders (v : ValidationMiddleware) (r : Http.Request) : error :=
  if bool_decide (Http.Get r "User-Agent" = "")
     && Middleware.ValidationConfig.StrictMode (config v)
  then Some "missing User-Agent header"
  else if Strings.HasPrefix (Http.Path r) "/api/" || Strings.HasPrefix (Http.Path r) "/v1/"
  then
    let accept := Http.Get r "Accept" in
    if negb (bool_decide (accept = ""))
       && negb (Strings.Contains accept "application/json")
       && negb (Strings.Contains accept "*/*")
    then Some ("unsupported Accept header: " ++ accept)
    else None
  else None.

Definition supportedTypes : list string :=
  ["application/json"; "application/x-www-form-urlencoded"; "multipart/form-data"; "text/plain"].

(** [validateContentType] *)
Definition validateContentType (r : Http.Request) : error :=
  if (Http.ContentLength r =? 0)%Z then None
  else
    let contentType := Http.Get r "Content-Type" in
    if bool_decide (contentType = "") then Some "missing Content-Type header"
    else if existsb (Strings.HasPrefix contentType) supportedTypes then None
    else Some ("unsupported Content-Type: " ++ contentType).

(** [hasJSONBody] *)
Definition hasJSONBody (r : Http.Request) : bool :=
  Strings.HasPrefix (Http.Get r "Content-Type") "application/json"
  && (0 <? Http.ContentLength r)%Z.

(** [validateJSONStructure]; [len(d)] counts the bytes of the string. *)
Fixpoint validateJSONStructure (data : JSON) : error :=
  match data with
  | JObject d =>
      (fix range (l : list (string * JSON)) : error :=
         match l with
         | [] => None
         | (key, value) :: rest =>
             if bool_decide (key = "") then Some "empty object key not allowed"
             else match validateJSONStructure value with
                  | Some err => Some err
                  | None => range rest
                  end
         end) d
  | JArray d =>
      (fix range (l : list JSON) : error :=
         match l with
         | [] => None
         | item :: rest =>
             match validateJSONStructure item with
             | Some err => Some err
             | None => range rest
             end
         end) d
  | JString d =>
      if (10000 <? Z.of_nat (String.length d))%Z
      then Some ("string value too long: " ++ pretty (String.length d) ++ " characters")
      else None
  | _ => None
  end.

Section WithUnmarshal.

(** [json.Unmarshal(body, &jsonData)]: the value, or [None] on a syntax
    error. *)
Variable unmarshal : string -> option JSON.

(** [validateAndBufferJSON] *)
Definition validateAndBufferJSON (v : ValidationMiddleware) (r : Http.Request)
    : string + string :=
  match Http.Body r with
  | inr e => inr ("failed to read request body: " ++ e)
  | inl body =>
      if (String.length body =? 0)%nat then inl body
      else
        match unmarshal body with
        | None => inr "invalid JSON"
        | Some jsonData =>
            if Middleware.ValidationConfig.StrictMode (config v) then
              match validateJSONStructure jsonData with
              | Some err => inr err
              | None => inl body
              end
            else inl body
        end
  end.

(** [writeBadRequest] *)
Definition writeBadRequest (rt : Runtime) (message : string) : Http.Written :=
  {| Http.StatusCode := Http.StatusBadRequest;
     Http.ContentType := "application/json";
     Http.Payload :=
       {| Middleware.Success := false;
          Middleware.Error :=
            Some {| Middleware.Code := "VALIDATION_ERROR"; Middleware.Message := message;
                    Middleware.Details := ""; Middleware.Stack := "" |};
          Middleware.ResponseRequestID := fresh_id rt;
          Middleware.Timestamp := now rt |} |}.

(** [addValidationContext] *)
Definition addValidationContext (rt : Runtime) (r : Http.Request) : Http.Request :=
  {| Http.Method := Http.Method r; Http.Path := Http.Path r; Http.Header := Http.Header r;
     Http.Query := Http.Query r; Http.ContentLength := Http.ContentLength r;
     Http.Body := Http.Body r;
     Http.Context :=
       match Http.Context r with
       | Some c => Some c
       | None => Some {| Middleware.RequestID := fresh_id rt; Middleware.UserID := "";
                         Middleware.AgentID := "" |}
       end |}.

(** [Handler]: the response it writes itself, or the request it hands to
    the next handler. *)
Definition Handler (v : ValidationMiddleware) (rt : Runtime) (r : Http.Request)
    : Http.Written + Http.Request :=
  if negb (enabled v) then inr r
  else
    match validateRequestSize v r with
    | Some err => inl (writeBadRequest rt err)
    | None =>
        match (if Middleware.ValidationConfig.ValidateHeaders (config v)
               then validateHeaders v r else None) with
        | Some err => inl (writeBadRequest rt err)
        | None =>
            match (if bool_decide (Http.Method r = "POST") || bool_decide (Http.Method r = "PUT")
                   then validateContentType r else None) with
            | Some err => inl (writeBadRequest rt err)
            | None =>
                if hasJSONBody r then
                  match validateAndBufferJSON v r with
                  | inr err => inl (writeBadRequest rt err)
                  | inl body => inr (addValidationContext rt (Http.with_Body r body))
                  end
                else inr (addValidationContext rt r)
            end
        end
    end.

End WithUnmarshal.

(** [ValidateMessageRequest] *)
Definition ValidateMessageRequest (data : gmap string JSON) : error :=
  match data !! "content" with
  | None => Some "missing required field: content"
  | Some (JString contentStr) =>
      if (String.length contentStr =? 0)%nat then Some "content cannot be empty"
      else if (10000 <? Z.of_nat (String.length contentStr))%Z
      then Some "content too long: maximum 10000 characters"
      else
        match data !! "type" with
        | None => None
        | Some (JString typeStr) =>
            if existsb (fun validType => bool_decide (typeStr = validType)) ["user"; "raw"]
            then None
            else Some ("invalid message type: " ++ typeStr)
        | Some _ => Some "type must be a string"
        end
  | Some _ => Some "content must be a string"
  end.

(** [ValidateAgentRequest] *)
Definition ValidateAgentRequest (data : gmap string JSON) : error :=
  match data !! "agent_id" with
  | None => None
  | Some (JString agentIDStr) =>
      if (String.length agentIDStr =? 0)%nat then Some "agent_id cannot be empty"
      else if (100 <? String.length agentIDStr)%nat
      then Some "agent_id too long: maximum 100 characters"
      else None
  | Some _ => Some "agent_id must be a string"
  end.

End Validation.

(** ** Package response: the part the manager reconfigures *)

Module Response.

Record ResponseMiddleware := mkResponseMiddleware {
  config : Middleware.ResponseConfig.t;
  enabled : bool
}.

(** [NewResponseMiddleware] *)
Definition NewResponseMiddleware (c : Middleware.ResponseConfig.t) : ResponseMiddleware :=
  {| config := c; enabled := Middleware.ResponseConfig.Enabled c |}.

(** [Configure] *)
Definition Configure (r : ResponseMiddleware) (c : Middleware.AnyConfig)
    : ResponseMiddleware * error :=
  match c with
  | Middleware.OfResponse responseConfig =>
      ({| config := responseConfig;
          enabled := Middleware.ResponseConfig.Enabled responseConfig |}, None)
  | _ => (r, Some "invalid response config type")
  end.

(** [supportsCompression] *)
Definition supportsCompression (req : Http.Request) : bool :=
  Strings.Contains (Http.Get req "Accept-Encoding") "gzip".

(** [setStandardHeaders] on the header map of the response; header names
    are spelled as in the code. *)
Definition setStandardHeaders (r : ResponseMiddleware) (req : Http.Request)
    (header : gmap string string) : gmap string string :=
  let header :=
    if bool_decide (Middleware.ResponseConfig.CacheControl (config r) = "") then header
    else <["Cache-Control" := Middleware.ResponseConfig.CacheControl (config r)]> header in
  let header :=
    if supportsCompression req && (0 <? Middleware.ResponseConfig.CompressionLevel (config r))%Z
    then <["Content-Encoding" := "gzip"]> header else header in
  let header := <["X-Content-Type-Options" := "nosniff"]> header in
  let header := <["X-Frame-Options" := "DENY"]> header in
  let header := <["X-XSS-Protection" := "1; mode=block"]> header in
  let header := <["X-API-Version" := "1.0"]> header in
  match Http.Context req with
  | Some reqCtx => <["X-Request-ID" := Middleware.RequestID reqCtx]> header
  | None => header
  end.

(** [ResponseWriter]: the status and the copy of the body it keeps. *)
Module ResponseWriter.
Record t := mk {
  statusCode : Z;
  body : string
}.
End ResponseWriter.

(** [NewResponseWriter] *)
Definition NewResponseWriter : ResponseWriter.t :=
  {| ResponseWriter.statusCode := Http.StatusOK; ResponseWriter.body := "" |}.

(** [WriteHeader] and [Write]: the new state of the wrapper and the call
    it makes on the writer it wraps. *)
Definition WriteHeader (rw : ResponseWriter.t) (statusCode : Z)
    : ResponseWriter.t * Errors.WriterCall :=
  ({| ResponseWriter.statusCode := statusCode; ResponseWriter.body := ResponseWriter.body rw |},
   Errors.CallWriteHeader statusCode).

Definition Write (rw : ResponseWriter.t) (data : string) : ResponseWriter.t * Errors.WriterCall :=
  ({| ResponseWriter.statusCode := ResponseWriter.statusCode rw;
      ResponseWriter.body := ResponseWriter.body rw ++ data |},
   Errors.CallWrite data).

Definition call (acc : ResponseWriter.t * list Errors.WriterCall) (c : Errors.WriterCall)
    : ResponseWriter.t * list Errors.WriterCall :=
  let '(rw, out) :=
    match c with
    | Errors.CallWriteHeader statusCode => WriteHeader acc.1 statusCode
    | Errors.CallWrite data => Write acc.1 data
    end in
  (rw, (acc.2 ++ [out])%list).

Section WithGzip.

(** [gzip.NewWriterLevel] followed by [Write] and [Close] on a buffer:
    the compressed bytes, or [None] when the level is refused. *)
Variable gzip : Z -> string -> option string.

(** [compressResponse]: it touches the header map and nothing else. *)
Definition compressResponse (r : ResponseMiddleware) (rw : ResponseWriter.t)
    (header : gmap string string) : gmap string string :=
  if (String.length (ResponseWriter.body rw) =? 0)%nat then header
  else
    match gzip (Middleware.ResponseConfig.CompressionLevel (config r)) (ResponseWriter.body rw) with
    | None => header
    | Some buf => <["Content-Length" := pretty (String.length buf)]> header
    end.

(** [postProcessResponse]; [elapsed] is the formatted processing time. *)
Definition postProcessResponse (r : ResponseMiddleware) (rw : ResponseWriter.t)
    (req : Http.Request) (elapsed : string) (header : gmap string string)
    : gmap string string :=
  let header := <["X-Processing-Time" := elapsed]> header in
  if supportsCompression req && (0 <? Middleware.ResponseConfig.CompressionLevel (config r))%Z
  then compressResponse r rw header else header.

(** What serving a request through [Handler] amounts to: the header map
    the next handler starts from, the calls that reach the wrapped
    writer, and the header map after post-processing. The next handler
    is given by the calls it makes on its writer. *)
Record Served := mkServed {
  header_before : gmap string string;
  to_writer : list Errors.WriterCall;
  header_after : gmap string string
}.

(** [Handler] *)
Definition Handler (r : ResponseMiddleware) (req : Http.Request) (elapsed : string)
    (header : gmap string string) (calls : list Errors.WriterCall) : Served :=
  if negb (enabled r) then
    {| header_before := header; to_writer := calls; header_after := header |}
  else
    let header := setStandardHeaders r req header in
    let '(rw, out) := foldl call (NewResponseWriter, []) calls in
    {| header_before := header; to_writer := out;
       header_after := postProcessResponse r rw req elapsed header |}.

End WithGzip.

End Response.

(** ** Package claude: the session layer *)

Module Claude.

Record ClaudeSession := mkClaudeSession {
  ID : string;
  ConversationID : string;
  Model : string;
  Tools : list string;
  Context : gmap string string;
  CreatedAt : Z;
  LastActivity : Z;
  Status : string
}.

Module ClaudeRequest.
Record t := mk {
  SessionID : string;
  ConversationID : string;
  Model : string;
  Message : string;
  (** the string-valued entries of [Context] *)
  Context : gmap string string;
  Stream : bool
}.
End ClaudeRequest.

Module ClaudeResponse.
Record t := mk {
  SessionID : string;
  ConversationID : string;
  Message : string;
  Status : string;
  Timestamp : Z
}.
End ClaudeResponse.

Record ClaudeMiddleware := mkClaudeMiddleware {
  config : Middleware.ClaudeConfig.t;
  enabled : bool;
  sessions : gmap string ClaudeSession
}.

(** [NewClaudeMiddleware] *)
Definition NewClaudeMiddleware (c : Middleware.ClaudeConfig.t) : ClaudeMiddleware :=
  {| config := c; enabled := Middleware.ClaudeConfig.Enabled c; sessions := ∅ |}.

(** [Configure] *)
Definition Configure (c : ClaudeMiddleware) (cfg : Middleware.AnyConfig)
    : ClaudeMiddleware * error :=
  match cfg with
  | Middleware.OfClaude claudeConfig =>
      ({| config := claudeConfig; enabled := Middleware.ClaudeConfig.Enabled claudeConfig;
          sessions := sessions c |}, None)
  | _ => (c, Some "invalid claude config type")
  end.

Definition set_sessions (c : ClaudeMiddleware) (m : gmap string ClaudeSession) : ClaudeMiddleware :=
  {| config := config c; enabled := enabled c; sessions := m |}.

(** [getOrCreateSession]; [fresh_id rt] stands for the identifiers drawn
    from the clock. *)
Definition getOrCreateSession (c : ClaudeMiddleware) (rt : Runtime)
    (sessionID conversationID model : string) : ClaudeSession * ClaudeMiddleware :=
  match (if bool_decide (sessionID = "") then None else sessions c !! sessionID) with
  | Some session => (session, c)
  | None =>
      let sessionID :=
        if bool_decide (sessionID = "") then "claude_session_" ++ fresh_id rt else sessionID in
      let conversationID :=
        if bool_decide (conversationID = "") then "claude_conv_" ++ fresh_id rt
        else conversationID in
      let model := if bool_decide (model = "") then "claude-3-sonnet" else model in
      let session :=
        {| ID := sessionID; ConversationID := conversationID; Model := model;
           Tools := []; Context := ∅; CreatedAt := now rt; LastActivity := now rt;
           Status := "active" |} in
      (session, set_sessions c (<[sessionID := session]> (sessions c)))
  end.

(** *** The request [forwardToClaudeCode] sends, and [c.client.Do] *)

(** The payload handed to [json.Marshal]. *)
Module Payload.
Record t := mk {
  session_id : string;
  conversation_id : string;
  model : string;
  message : string;
  tools : list string;
  context : gmap string string;
  stream : bool
}.
End Payload.

(** The [*http.Request] that [http.NewRequest] builds over a
    [bytes.Buffer]. It is one object, handed by pointer to every
    [c.client.Do]: [Body] holds the bytes of the buffer that have not
    been read yet, [ContentLength] the length the buffer had when the
    request was built. *)
Module HttpRequest.
Record t := mk {
  Method : string;
  URL : string;
  Header : gmap string string;
  ContentLength : Z;
  Body : string
}.
End HttpRequest.

(** [httpReq.Header.Set(key, value)] *)
Definition Header_Set (httpReq : HttpRequest.t) (key value : string) : HttpRequest.t :=
  {| HttpRequest.Method := HttpRequest.Method httpReq;
     HttpRequest.URL := HttpRequest.URL httpReq;
     HttpRequest.Header := <[key := value]> (HttpRequest.Header httpReq);
     HttpRequest.ContentLength := HttpRequest.ContentLength httpReq;
     HttpRequest.Body := HttpRequest.Body httpReq |}.

(** What one [c.client.Do] returns: [err], or [resp]. *)
Inductive DoResult :=
  | TransportError (e : string)
  | Reply (StatusCode : Z) (Body : string).

(** [c.client.Do(httpReq)] as the loop sees it: the outcome of the call
    number [k] (from 0) made with the request object in the given state,
    and the state in which the call leaves that object. *)
Definition Client := nat -> HttpRequest.t -> DoResult * HttpRequest.t.

(** What [forwardToClaudeCode] does to the outside world, in order:
    [Called httpReq] is a call of [c.client.Do] with the request object
    in the state [httpReq], [Slept d] a [time.Sleep(d)] and [Closed] the
    deferred [resp.Body.Close()]. *)
Inductive Event :=
  | Called (httpReq : HttpRequest.t)
  | Slept (d : Z)
  | Closed.

Fixpoint calls (trace : list Event) : nat :=
  match trace with
  | [] => 0
  | Called _ :: rest => S (calls rest)
  | _ :: rest => calls rest
  end.

(** [err == nil && resp.StatusCode < 500] *)
Definition settled (r : DoResult) : bool :=
  match r with
  | TransportError _ => false
  | Reply status _ => (status <? 500)%Z
  end.

(** The retry loop of [forwardToClaudeCode],
    [for i := 0; i <= MaxRetries; i++]: every iteration hands the same
    request object [httpReq] to [Do], as the previous call left it;
    [last] is the current [(resp, err)] pair, if any call was made, and
    the trace is kept latest event first. The reply of an attempt that is
    retried is neither read nor closed. *)
Fixpoint retry_loop (Do : Client) (MaxRetries : Z) (fuel : nat) (i : Z)
    (httpReq : HttpRequest.t) (last : option DoResult) (trace : list Event)
    : option DoResult * list Event :=
  match fuel with
  | O => (last, trace)
  | S fuel' =>
      if (i <=? MaxRetries)%Z then
        let r := Do (calls trace) httpReq in
        let trace := Called httpReq :: trace in
        if settled r.1 then (Some r.1, trace)
        else
          let trace :=
            if (i <? MaxRetries)%Z then Slept ((i + 1) * Middleware.second) :: trace
            else trace in
          retry_loop Do MaxRetries fuel' (i + 1) r.2 (Some r.1) trace
      else (last, trace)
  end.

Section WithDecoder.

(** [json.NewDecoder(resp.Body).Decode(&claudeResp)] *)
Variable decode : string -> option ClaudeResponse.t.

(** [json.Marshal(payload)]: the encoding, or the error. *)
Variable Marshal : Payload.t -> string + string.

(** [url.Parse], as [http.NewRequest] calls it: the error it reports, if
    any. *)
Variable ParseURL : string -> error.

(** [http.NewRequest(method, url, bytes.NewBuffer(data))] for a valid
    method: it fails when [url.Parse] does. *)
Definition NewRequest (method url data : string) : HttpRequest.t + string :=
  match ParseURL url with
  | Some e => inr e
  | None =>
      inl {| HttpRequest.Method := method; HttpRequest.URL := url;
             HttpRequest.Header := ∅;
             HttpRequest.ContentLength := Z.of_nat (String.length data);
             HttpRequest.Body := data |}
  end.

(** [forwardToClaudeCode]: the result and what happened, in order. *)
Definition forwardToClaudeCode (c : ClaudeMiddleware) (rt : Runtime) (Do : Client)
    (session : ClaudeSession) (req : ClaudeRequest.t)
    : Run (ClaudeResponse.t + string) * list Event :=
  let payload :=
    {| Payload.session_id := ID session;
       Payload.conversation_id := ConversationID session;
       Payload.model := Model session;
       Payload.message := ClaudeRequest.Message req;
       Payload.tools := Tools session;
       Payload.context := Context session;
       Payload.stream := ClaudeRequest.Stream req |} in
  match Marshal payload with
  | inr e => (Done (inr ("failed to marshal request: " ++ e)), [])
  | inl jsonData =>
      match NewRequest "POST" (Middleware.ClaudeConfig.APIEndpoint (config c)) jsonData with
      | inr e => (Done (inr ("failed to create request: " ++ e)), [])
      | inl httpReq =>
          let httpReq :=
            Header_Set (Header_Set httpReq "Content-Type" "application/json")
              "User-Agent" "AgentAPI/1.0" in
          let MaxRetries := Middleware.ClaudeConfig.MaxRetries (config c) in
          let '(last, trace) :=
            retry_loop Do MaxRetries (Z.to_nat (MaxRetries + 1)) 0 httpReq None [] in
          match last with
          | None => (Panicked NilPointerDereference, rev trace)
          | Some (TransportError e) =>
              (Done (inr ("failed to send request: " ++ e)), rev trace)
          | Some (Reply status body) =>
              (if negb (status =? Http.StatusOK)%Z
               then Done (inr ("Claude Code returned status " ++ pretty status ++ ": " ++ body))
               else match decode body with
                    | None => Done (inr "failed to decode response")
                    | Some claudeResp =>
                        Done (inl {| ClaudeResponse.SessionID :=
                                       ClaudeResponse.SessionID claudeResp;
                                     ClaudeResponse.ConversationID :=
                                       ClaudeResponse.ConversationID claudeResp;
                                     ClaudeResponse.Message := ClaudeResponse.Message claudeResp;
                                     ClaudeResponse.Status := ClaudeResponse.Status claudeResp;
                                     ClaudeResponse.Timestamp := now rt |})
                    end,
               rev (Closed :: trace))
          end
      end
  end.

(** What [handleClaudeMessage] writes: the backend's reply with status
    200, or an error envelope. *)
Inductive MessageReply :=
  | Replied (response : ClaudeResponse.t)
  | Failed (statusCode : Z) (code message : string).

(** [handleClaudeMessage] on a decoded request ([None]: the body did not
    decode). *)
Definition handleClaudeMessage (c : ClaudeMiddleware) (rt : Runtime) (Do : Client)
    (req : option ClaudeRequest.t) : Run (MessageReply * ClaudeMiddleware) * list Event :=
  match req with
  | None =>
      (Done (Failed Http.StatusBadRequest "INVALID_REQUEST" "Invalid Claude request format", c),
       [])
  | Some req =>
      let '(session, c1) :=
        getOrCreateSession c rt (ClaudeRequest.SessionID req)
          (ClaudeRequest.ConversationID req) (ClaudeRequest.Model req) in
      let session :=
        {| ID := ID session; ConversationID := ConversationID session; Model := Model session;
           Tools := Tools session;
           Context := ClaudeRequest.Context req ∪ Context session;
           CreatedAt := CreatedAt session; LastActivity := LastActivity session;
           Status := Status session |} in
      let c2 := set_sessions c1 (<[ID session := session]> (sessions c1)) in
      let '(result, trace) := forwardToClaudeCode c2 rt Do session req in
      (run_bind result (fun res =>
         match res with
         | inr e => Done (Failed Http.StatusInternalServerError "CLAUDE_ERROR" e, c2)
         | inl response =>
             let session :=
               {| ID := ID session; ConversationID := ConversationID session;
                  Model := Model session; Tools := Tools session; Context := Context session;
                  CreatedAt := CreatedAt session; LastActivity := now rt;
                  Status := ClaudeResponse.Status response |} in
             Done (Replied response, set_sessions c2 (<[ID session := session]> (sessions c2)))
         end), trace)
  end.

End WithDecoder.

(** [handleDeleteSession] once the identifier is taken from the path. *)
Definition handleDeleteSession (c : ClaudeMiddleware) (sessionID : string) : Z * ClaudeMiddleware :=
  if bool_decide (sessionID = "") then (Http.StatusBadRequest, c)
  else (204%Z, set_sessions c (delete sessionID (sessions c))).

(** Body of the loop of [CleanupSessions] for one entry of the map. *)
Definition cleanup_step (cutoff : Z) (sessionID : string) (session : ClaudeSession)
    (acc : gmap string ClaudeSession) : gmap string ClaudeSession :=
  if (LastActivity session <? cutoff)%Z then delete sessionID acc else acc.

(** [CleanupSessions]; [time.Now()] is read once, before the loop. *)
Definition CleanupSessions (c : ClaudeMiddleware) (rt : Runtime) (maxAge : Z) : ClaudeMiddleware :=
  let cutoff := (now rt - maxAge)%Z in
  set_sessions c (map_fold (cleanup_step cutoff) (sessions c) (sessions c)).

(** [GetSession] and [GetSessionCount] *)
Definition GetSession (c : ClaudeMiddleware) (sessionID : string) : option ClaudeSession :=
  sessions c !! sessionID.

Definition GetSessionCount (c : ClaudeMiddleware) : nat := size (sessions c).

(** [handleGetSession]: the status it answers with. *)
Definition handleGetSession (c : ClaudeMiddleware) (sessionID : string) : Z :=
  if bool_decide (sessionID = "") then Http.StatusBadRequest
  else match sessions c !! sessionID with
       | Some _ => Http.StatusOK
       | None => Http.StatusNotFound
       end.

(** [isClaudeRequest] *)
Definition isClaudeRequest (r : Http.Request) : bool :=
  Strings.HasPrefix (Http.Path r) "/claude/"
  || Strings.HasPrefix (Http.Path r) "/api/claude/"
  || bool_decide (Http.Get r "X-Claude-Request" = "true").

(** What a Claude endpoint answers. *)
Inductive Answer :=
  | AnswerMessage (reply : MessageReply)
  | AnswerSession (session : ClaudeSession)
  | AnswerStatus (enabled : bool) (endpoint version : string) (session_count : nat)
      (timestamp : Z)
  | AnswerNoContent
  | AnswerError (statusCode : Z) (code message : string).

(** [handleGetSession] with the answer it writes. *)
Definition handleGetSession_answer (c : ClaudeMiddleware) (r : Http.Request) : Answer :=
  let sessionID := Http.QueryGet r "session_id" in
  if bool_decide (sessionID = "")
  then AnswerError Http.StatusBadRequest "MISSING_SESSION_ID" "Session ID is required"
  else match sessions c !! sessionID with
       | Some session => AnswerSession session
       | None => AnswerError Http.StatusNotFound "SESSION_NOT_FOUND" "Session not found"
       end.

(** [handleGetStatus] *)
Definition handleGetStatus (c : ClaudeMiddleware) (rt : Runtime) : Answer :=
  AnswerStatus (enabled c) (Middleware.ClaudeConfig.APIEndpoint (config c))
    (Middleware.ClaudeConfig.Version (config c)) (size (sessions c)) (now rt).

(** The session identifier [handleDeleteSession] takes from the path. *)
Definition deleted_session_id (r : Http.Request) : string :=
  Strings.TrimPrefix (Strings.TrimPrefix (Http.Path r) "/claude/session/")
    "/api/claude/session/".

(** [handleDeleteSession] on a request, with the answer it writes. *)
Definition handleDeleteSession_answer (c : ClaudeMiddleware) (r : Http.Request)
    : Answer * ClaudeMiddleware :=
  let '(status, c') := handleDeleteSession c (deleted_session_id r) in
  (if (status =? Http.StatusBadRequest)%Z
   then AnswerError Http.StatusBadRequest "MISSING_SESSION_ID" "Session ID is required"
   else AnswerNoContent, c').

(** [handleClaudeRequest]; [parse] decodes the body of a message
    request. *)
Definition handleClaudeRequest (decode : string -> option ClaudeResponse.t)
    (Marshal : Payload.t -> string + string) (ParseURL : string -> error)
    (parse : Http.Request -> option ClaudeRequest.t)
    (c : ClaudeMiddleware) (rt : Runtime) (Do : Client) (r : Http.Request)
    : Run (Answer * ClaudeMiddleware) * list Event :=
  if bool_decide (Http.Method r = "POST") then
    let '(result, trace) := handleClaudeMessage decode Marshal ParseURL c rt Do (parse r) in
    (run_bind result (fun out => Done (AnswerMessage out.1, out.2)), trace)
  else if bool_decide (Http.Method r = "GET") then
    if Strings.HasSuffix (Http.Path r) "/session"
    then (Done (handleGetSession_answer c r, c), [])
    else if Strings.HasSuffix (Http.Path r) "/status"
    then (Done (handleGetStatus c rt, c), [])
    else (Done (AnswerError Http.StatusNotFound "ENDPOINT_NOT_FOUND"
                  "Claude endpoint not found", c), [])
  else if bool_decide (Http.Method r = "DELETE") then
    if Strings.Contains (Http.Path r) "/session/"
    then (Done (handleDeleteSession_answer c r), [])
    else (Done (AnswerError Http.StatusNotFound "ENDPOINT_NOT_FOUND"
                  "Claude endpoint not found", c), [])
  else (Done (AnswerError Http.StatusMethodNotAllowed "METHOD_NOT_ALLOWED"
                "Method not allowed for Claude endpoint", c), []).

End Claude.

(** ** Package middleware: the manager *)

Module Manager.

Record Manager := mkManager {
  config : Middleware.MiddlewareConfig;
  auth : Auth.AuthMiddleware;
  validation : Validation.ValidationMiddleware;
  response : Response.ResponseMiddleware;
  sync : Sync.SyncMiddleware;
  claude : Claude.ClaudeMiddleware;
  errors : Errors.ErrorMiddleware;
  chain : list string
}.

(** [buildChain]: the chain is kept as the names of its handlers. *)
Definition buildChain (m : Manager) : Manager :=
  {| config := config m; auth := auth m; validation := validation m;
     response := response m; sync := sync m; claude := claude m; errors := errors m;
     chain :=
       (if Errors.enabled (errors m) then ["errors"] else [])
       ++ (if Response.enabled (response m) then ["response"] else [])
       ++ (if Auth.enabled (auth m) then ["auth"] else [])
       ++ (if Validation.enabled (validation m) then ["validation"] else [])
       ++ (if Sync.enabled (sync m) then ["sync"] else [])
       ++ (if Claude.enabled (claude m) then ["claude"] else []) |}.

(** [NewManager] *)
Definition NewManager (c : Middleware.MiddlewareConfig) : Manager :=
  buildChain
    {| config := c;
       auth := Auth.NewAuthMiddleware (Middleware.Auth c);
       validation := Validation.NewValidationMiddleware (Middleware.Validation c);
       response := Response.NewResponseMiddleware (Middleware.Response c);
       sync := Sync.NewSyncMiddleware (Middleware.Sync c);
       claude := Claude.NewClaudeMiddleware (Middleware.Claude c);
       errors := Errors.NewErrorMiddleware (Middleware.Errors c);
       chain := [] |}.

(** [CreateEnhancedServer] up to the manager it builds: the
    configuration is validated first. *)
Definition CreateEnhancedServer (c : Middleware.MiddlewareConfig) : Manager + string :=
  match Middleware.ValidateConfig c with
  | Some err => inr err
  | None => inl (NewManager c)
  end.

(** [UpdateConfig]: the manager after the call and the error returned.
    The new configuration is stored first; each component is then
    reconfigured in place, and the first failure returns. *)
Definition UpdateConfig (m : Manager) (c : Middleware.MiddlewareConfig) : Manager * error :=
  let '(a, err) := Auth.Configure (auth m) (Middleware.OfAuth (Middleware.Auth c)) in
  match err with
  | Some e =>
      ({| config := c; auth := a; validation := validation m; response := response m;
          sync := sync m; claude := claude m; errors := errors m; chain := chain m |},
       Some ("failed to configure auth middleware: " ++ e))
  | None =>
  let '(v, err) :=
    Validation.Configure (validation m) (Middleware.OfValidation (Middleware.Validation c)) in
  match err with
  | Some e =>
      ({| config := c; auth := a; validation := v; response := response m;
          sync := sync m; claude := claude m; errors := errors m; chain := chain m |},
       Some ("failed to configure validation middleware: " ++ e))
  | None =>
  let '(r, err) :=
    Response.Configure (response m) (Middleware.OfResponse (Middleware.Response c)) in
  match err with
  | Some e =>
      ({| config := c; auth := a; validation := v; response := r;
          sync := sync m; claude := claude m; errors := errors m; chain := chain m |},
       Some ("failed to configure response middleware: " ++ e))
  | None =>
  let '(s, err) := Sync.Configure (sync m) (Middleware.OfSync (Middleware.Sync c)) in
  match err with
  | Some e =>
      ({| config := c; auth := a; validation := v; response := r;
          sync := s; claude := claude m; errors := errors m; chain := chain m |},
       Some ("failed to configure sync middleware: " ++ e))
  | None =>
  let '(cl, err) := Claude.Configure (claude m) (Middleware.OfClaude (Middleware.Claude c)) in
  match err with
  | Some e =>
      ({| config := c; auth := a; validation := v; response := r;
          sync := s; claude := cl; errors := errors m; chain := chain m |},
       Some ("failed to configure claude middleware: " ++ e))
  | None =>
  let '(er, err) := Errors.Configure (errors m) (Middleware.OfErrors (Middleware.Errors c)) in
  match err with
  | Some e =>
      ({| config := c; auth := a; validation := v; response := r;
          sync := s; claude := cl; errors := er; chain := chain m |},
       Some ("failed to configure errors middleware: " ++ e))
  | None =>
      (buildChain
         {| config := c; auth := a; validation := v; response := r;
            sync := s; claude := cl; errors := er; chain := chain m |}, None)
  end end end end end end.

(** [GetConfig] *)
Definition GetConfig (m : Manager) : Middleware.MiddlewareConfig := config m.

(** What [handleUpdateMiddlewareConfig] answers. *)
Inductive UpdateReply :=
  | Rejected (h : Errors.Handled)
  | Updated (message : string).

(** [handleUpdateMiddlewareConfig] on the decoded body ([inr]: the body
    did not decode into a [MiddlewareConfig]). *)
Definition handleUpdateMiddlewareConfig (m : Manager) (rt : Runtime) (r : Http.Request)
    (decoded : Middleware.MiddlewareConfig + string) : UpdateReply * Manager :=
  match decoded with
  | inr err => (Rejected (Errors.HandleError (errors m) rt r (Some err) Http.StatusBadRequest), m)
  | inl c =>
      match UpdateConfig m c with
      | (m', Some err) =>
          (Rejected (Errors.HandleError (errors m') rt r (Some err) Http.StatusBadRequest), m')
      | (m', None) => (Updated "Configuration updated successfully", m')
      end
  end.

(** The idle threshold and the period of [runCleanup]. *)
Definition idle_threshold : Z := 30 * Middleware.minute.
Definition cleanup_period : Z := 5 * Middleware.minute.

(** [performCleanup], run at every tick of [runCleanup]. *)
Definition performCleanup (m : Manager) (rt : Runtime) : Manager :=
  if Claude.enabled (claude m) then
    {| config := config m; auth := auth m; validation := validation m;
       response := response m; sync := sync m;
       claude := Claude.CleanupSessions (claude m) rt idle_threshold;
       errors := errors m; chain := chain m |}
  else m.

(** *** The authentication endpoints of the enhanced server *)

Inductive AuthReply :=
  | AuthFailed (h : Errors.Handled)
  | AuthRefused (statusCode : Z) (code message : string)
  | TokenIssued (token user_id : string) (expiration : Z).

(** [handleLogin] on the decoded body ([inl]: user name and password;
    [inr]: the body did not decode). [expiration] is the duration whose
    seconds the answer reports as [expires_in]. *)
Definition handleLogin (encode : Jwt.Token -> string) (m : Manager) (rt : Runtime)
    (r : Http.Request) (decoded : string * string + string) : AuthReply :=
  match decoded with
  | inr err => AuthFailed (Errors.HandleError (errors m) rt r (Some err) Http.StatusBadRequest)
  | inl (Username, Password) =>
      if bool_decide (Username = "") || bool_decide (Password = "")
      then AuthRefused Http.StatusUnauthorized "INVALID_CREDENTIALS"
             "Invalid username or password"
      else TokenIssued (Auth.GenerateJWT encode (auth m) rt Username) Username
             (Middleware.AuthConfig.Expiration (Middleware.Auth (GetConfig m)))
  end.

(** [handleRefresh] *)
Definition handleRefresh (decode : string -> option Jwt.Token) (encode : Jwt.Token -> string)
    (m : Manager) (rt : Runtime) (r : Http.Request) : AuthReply :=
  match Auth.AuthenticateRequest decode (auth m) rt r with
  | inr err =>
      AuthFailed (Errors.HandleError (errors m) rt r (Some err) Http.StatusUnauthorized)
  | inl userID =>
      TokenIssued (Auth.GenerateJWT encode (auth m) rt userID) userID
        (Middleware.AuthConfig.Expiration (Middleware.Auth (GetConfig m)))
  end.

End Manager.

(** ** The example server ([main]) *)

Module Example.

(** [getEnvOrDefault]; [env] is the process environment, and
    [os.Getenv] gives the empty string for a variable that is not set. *)
Definition getEnvOrDefault (env : gmap string string) (key defaultValue : string) : string :=
  let value := default "" (env !! key) in
  if bool_decide (value = "") then defaultValue else value.

(** The configuration [main] builds. *)
Definition config (env : gmap string string) : Middleware.MiddlewareConfig :=
  {| Middleware.Auth :=
       {| Middleware.AuthConfig.Enabled := true; Middleware.AuthConfig.Type_ := "bearer";
          Middleware.AuthConfig.Secret :=
            getEnvOrDefault env "JWT_SECRET" "demo-secret-change-in-production";
          Middleware.AuthConfig.Expiration := 24 * Middleware.hour;
          Middleware.AuthConfig.Issuer := "agentapi-demo" |};
     Middleware.Validation :=
       {| Middleware.ValidationConfig.Enabled := true;
          Middleware.ValidationConfig.StrictMode := false;
          Middleware.ValidationConfig.MaxRequestSize := 10 * 1024 * 1024;
          Middleware.ValidationConfig.ValidateHeaders := true |};
     Middleware.Response :=
       {| Middleware.ResponseConfig.Enabled := true;
          Middleware.ResponseConfig.StandardFormat := true;
          Middleware.ResponseConfig.IncludeTimestamp := true;
          Middleware.ResponseConfig.IncludeRequestID := true;
          Middleware.ResponseConfig.CompressionLevel := 6;
          Middleware.ResponseConfig.CacheControl := "no-cache" |};
     Middleware.Sync :=
       {| Middleware.SyncConfig.Enabled := true;
          Middleware.SyncConfig.WebSocketEnabled := true;
          Middleware.SyncConfig.SSEEnabled := true;
          Middleware.SyncConfig.HeartbeatInterval := 30 * Middleware.second;
          Middleware.SyncConfig.BufferSize := 1000 |};
     Middleware.Claude :=
       {| Middleware.ClaudeConfig.Enabled := true;
          Middleware.ClaudeConfig.APIEndpoint :=
            getEnvOrDefault env "CLAUDE_API_ENDPOINT" "http://localhost:8080/api/claude";
          Middleware.ClaudeConfig.Version := "1.0";
          Middleware.ClaudeConfig.MaxRetries := 3;
          Middleware.ClaudeConfig.TimeoutSeconds := 30;
          Middleware.ClaudeConfig.RateLimitRPS := 10;
          Middleware.ClaudeConfig.EnableStreaming := true |};
     Middleware.Errors :=
       {| Middleware.ErrorConfig.Enabled := true;
          Middleware.ErrorConfig.DetailedErrors := false;
          Middleware.ErrorConfig.LogErrors := true;
          Middleware.ErrorConfig.IncludeStack := false;
          Middleware.ErrorConfig.SanitizeSecrets := true |} |}.

(** [main] up to the server it creates: [inr] is the error it logs
    before [os.Exit(1)]. *)
Definition main (env : gmap string string) : Manager.Manager + string :=
  match Middleware.ValidateConfig (config env) with
  | Some err => inr err
  | None => Manager.CreateEnhancedServer (config env)
  end.

End Example.

(** * Reference definitions and sample inputs

    The definitions that follow the wording of the specification, the
    measures used to state the properties, and the concrete inputs the
    properties are run on. *)

(** ** Error recovery *)

Definition sample_runtime : Runtime :=
  {| now := 1700000000 * Middleware.second; frames := []; fresh_id := "1700000000000000000" |}.

Definition sample_request : Http.Request :=
  {| Http.Method := "PUT"; Http.Path := "/middleware/config"; Http.Header := ∅;
     Http.Query := ∅; Http.ContentLength := 0; Http.Body := inl "";
     Http.Context := None |}.

Definition sanitizing : Errors.ErrorMiddleware :=
  Errors.NewErrorMiddleware (Middleware.Errors Middleware.CreateDefaultConfig).

(** The status to code table of the specification. *)
Definition spec_code (statusCode : Z) : option string :=
  if (statusCode =? 400)%Z then Some "BAD_REQUEST"
  else if (statusCode =? 401)%Z then Some "UNAUTHORIZED"
  else if (statusCode =? 403)%Z then Some "FORBIDDEN"
  else if (statusCode =? 404)%Z then Some "NOT_FOUND"
  else if (statusCode =? 405)%Z then Some "METHOD_NOT_ALLOWED"
  else if (statusCode =? 408)%Z then Some "REQUEST_TIMEOUT"
  else if (statusCode =? 409)%Z then Some "CONFLICT"
  else if (statusCode =? 422)%Z then Some "UNPROCESSABLE_ENTITY"
  else if (statusCode =? 429)%Z then Some "RATE_LIMITED"
  else if (statusCode =? 500)%Z then Some "INTERNAL_SERVER_ERROR"
  else if (statusCode =? 502)%Z then Some "BAD_GATEWAY"
  else if (statusCode =? 503)%Z then Some "SERVICE_UNAVAILABLE"
  else if (statusCode =? 504)%Z then Some "GATEWAY_TIMEOUT"
  else None.

(** The table of the specification without its rows for 408 and 422:
    what is not in it is answered UNKNOWN_ERROR. *)
Definition effective_code (statusCode : Z) : string :=
  match spec_code statusCode with
  | Some c =>
      if (statusCode =? 408)%Z || (statusCode =? 422)%Z then "UNKNOWN_ERROR" else c
  | None => "UNKNOWN_ERROR"
  end.

(** ** Error recovery: what the sanitizer does remove *)

Definition is_lower (c : ascii) : bool :=
  let n := nat_of_ascii c in (97 <=? n)%nat && (n <=? 122)%nat.

Fixpoint all_lower (s : string) : bool :=
  match s with
  | EmptyString => true
  | String c s' => is_lower c && all_lower s'
  end.

Fixpoint no_lower (s : string) : bool :=
  match s with
  | EmptyString => true
  | String c s' => negb (is_lower c) && no_lower s'
  end.

(** ** Configuration updates *)

(** The default configuration with an empty authentication secret. *)
Definition empty_secret_config : Middleware.MiddlewareConfig :=
  let d := Middleware.CreateDefaultConfig in
  {| Middleware.Auth :=
       {| Middleware.AuthConfig.Enabled := true; Middleware.AuthConfig.Type_ := "bearer";
          Middleware.AuthConfig.Secret := "";
          Middleware.AuthConfig.Expiration := 24 * Middleware.hour;
          Middleware.AuthConfig.Issuer := "agentapi" |};
     Middleware.Validation := Middleware.Validation d;
     Middleware.Response := Middleware.Response d;
     Middleware.Sync := Middleware.Sync d;
     Middleware.Claude := Middleware.Claude d;
     Middleware.Errors := Middleware.Errors d |}.

Definition running_manager : Manager.Manager :=
  Manager.NewManager Middleware.CreateDefaultConfig.

(** ** Session garbage collection *)

Definition idle_session (last : Z) : Claude.ClaudeSession :=
  {| Claude.ID := "s1"; Claude.ConversationID := "c1"; Claude.Model := "claude-3-sonnet";
     Claude.Tools := []; Claude.Context := ∅; Claude.CreatedAt := 0;
     Claude.LastActivity := last; Claude.Status := "active" |}.

(** A manager holding one session last active 31 minutes before
    [sample_runtime] and one last active 29 minutes before it. *)
Definition manager_with_sessions : Manager.Manager :=
  let m := running_manager in
  {| Manager.config := Manager.config m; Manager.auth := Manager.auth m;
     Manager.validation := Manager.validation m; Manager.response := Manager.response m;
     Manager.sync := Manager.sync m;
     Manager.claude :=
       Claude.set_sessions (Manager.claude m)
         {[ "old" := idle_session (now sample_runtime - 31 * Middleware.minute);
            "recent" := idle_session (now sample_runtime - 29 * Middleware.minute) ]};
     Manager.errors := Manager.errors m; Manager.chain := Manager.chain m |}.

(** ** Forwarding with retry *)

(** The payload [forwardToClaudeCode] builds for a session and a
    request. *)
Definition payload_of (session : Claude.ClaudeSession) (req : Claude.ClaudeRequest.t)
    : Claude.Payload.t :=
  {| Claude.Payload.session_id := Claude.ID session;
     Claude.Payload.conversation_id := Claude.ConversationID session;
     Claude.Payload.model := Claude.Model session;
     Claude.Payload.message := Claude.ClaudeRequest.Message req;
     Claude.Payload.tools := Claude.Tools session;
     Claude.Payload.context := Claude.Context session;
     Claude.Payload.stream := Claude.ClaudeRequest.Stream req |}.

(** The request object [forwardToClaudeCode] builds, before the loop,
    for the endpoint [url] and the encoded payload [jsonData]. *)
Definition built_request (url jsonData : string) : Claude.HttpRequest.t :=
  {| Claude.HttpRequest.Method := "POST"; Claude.HttpRequest.URL := url;
     Claude.HttpRequest.Header :=
       <["User-Agent" := "AgentAPI/1.0"]> (<["Content-Type" := "application/json"]> ∅);
     Claude.HttpRequest.ContentLength := Z.of_nat (String.length jsonData);
     Claude.HttpRequest.Body := jsonData |}.

(** A request object whose body has been read to its end. *)
Definition consumed (httpReq : Claude.HttpRequest.t) : Claude.HttpRequest.t :=
  {| Claude.HttpRequest.Method := Claude.HttpRequest.Method httpReq;
     Claude.HttpRequest.URL := Claude.HttpRequest.URL httpReq;
     Claude.HttpRequest.Header := Claude.HttpRequest.Header httpReq;
     Claude.HttpRequest.ContentLength := Claude.HttpRequest.ContentLength httpReq;
     Claude.HttpRequest.Body := "" |}.

(** The state of the request object when the call number [k] is made,
    for a loop that starts with [httpReq], and the outcome of that
    call. *)
Fixpoint request_at (Do : Claude.Client) (httpReq : Claude.HttpRequest.t) (k : nat)
    : Claude.HttpRequest.t :=
  match k with
  | O => httpReq
  | S k' => (Do k' (request_at Do httpReq k')).2
  end.

Definition outcome_at (Do : Claude.Client) (httpReq : Claude.HttpRequest.t) (k : nat)
    : Claude.DoResult :=
  (Do k (request_at Do httpReq k)).1.

(** The number of calls made when [budget] attempts remain and the next
    call is number [k]: attempts go on until one is answered with a
    status below 500. *)
Fixpoint attempts (outcome : nat -> Claude.DoResult) (k budget : nat) : nat :=
  match budget with
  | O => O
  | S budget' =>
      if Claude.settled (outcome k) then 1 else S (attempts outcome (S k) budget')
  end.

(** The schedule of [n] attempts from attempt number [k] on: a sleep of
    [k+1] seconds separates attempt [k] from the next one, and attempt
    [k] is made with the request object in the state [request k]. *)
Fixpoint schedule_from (request : nat -> Claude.HttpRequest.t) (k n : nat) : list Claude.Event :=
  match n with
  | O => []
  | S n' =>
      Claude.Called (request k) ::
      match n' with
      | O => []
      | S _ =>
          Claude.Slept ((Z.of_nat k + 1) * Middleware.second) :: schedule_from request (S k) n'
      end
  end.

(** The request bodies handed to [c.client.Do], call by call. *)
Fixpoint bodies (trace : list Claude.Event) : list string :=
  match trace with
  | [] => []
  | Claude.Called httpReq :: rest => Claude.HttpRequest.Body httpReq :: bodies rest
  | _ :: rest => bodies rest
  end.

(** What [forwardToClaudeCode] returns for the last pair [(resp, err)]. *)
Definition outcome_of (decode : string -> option Claude.ClaudeResponse.t) (rt : Runtime)
    (r : Claude.DoResult) : Claude.ClaudeResponse.t + string :=
  match r with
  | Claude.TransportError e => inr ("failed to send request: " ++ e)
  | Claude.Reply status body =>
      if (status =? 200)%Z then
        match decode body with
        | Some resp =>
            inl {| Claude.ClaudeResponse.SessionID := Claude.ClaudeResponse.SessionID resp;
                   Claude.ClaudeResponse.ConversationID :=
                     Claude.ClaudeResponse.ConversationID resp;
                   Claude.ClaudeResponse.Message := Claude.ClaudeResponse.Message resp;
                   Claude.ClaudeResponse.Status := Claude.ClaudeResponse.Status resp;
                   Claude.ClaudeResponse.Timestamp := now rt |}
        | None => inr "failed to decode response"
        end
      else inr ("Claude Code returned status " ++ pretty status ++ ": " ++ body)
  end.

(** The deferred [resp.Body.Close()] runs when the last call was
    answered. *)
Definition closing (r : Claude.DoResult) : list Claude.Event :=
  match r with
  | Claude.TransportError _ => []
  | Claude.Reply _ _ => [Claude.Closed]
  end.

(** A backend that answers the first two requests it receives with 502
    and the later ones with 200. *)
Definition flaky_backend (k : nat) : Claude.DoResult :=
  match k with
  | 0 | 1 => Claude.Reply 502 "bad gateway"
  | _ => Claude.Reply 200 "third reply"
  end.

Definition sample_reply : Claude.ClaudeResponse.t :=
  {| Claude.ClaudeResponse.SessionID := "s1"; Claude.ClaudeResponse.ConversationID := "c1";
     Claude.ClaudeResponse.Message := "hello"; Claude.ClaudeResponse.Status := "active";
     Claude.ClaudeResponse.Timestamp := 0 |}.

Definition sample_decode (body : string) : option Claude.ClaudeResponse.t :=
  if bool_decide (body = "bad gateway") then None else Some sample_reply.

(** A stand-in for [json.Marshal] on the sample requests: the message
    and the session identifier between braces. *)
Definition sample_Marshal (payload : Claude.Payload.t) : string + string :=
  inl ("{" ++ Claude.Payload.session_id payload ++ ":" ++ Claude.Payload.message payload ++ "}").

(** Every endpoint parses. *)
Definition any_url (_ : string) : error := None.

(** The error of the client for a request whose body is shorter than
    the length it declares. *)
Definition short_body (httpReq : Claude.HttpRequest.t) : string :=
  "Post " ++ String "034"%char "" ++ Claude.HttpRequest.URL httpReq ++ String "034"%char ""
  ++ ": http: ContentLength=" ++ pretty (Claude.HttpRequest.ContentLength httpReq)
  ++ " with Body length "
  ++ pretty (String.length (Claude.HttpRequest.Body httpReq)).

(** A client that sends the bytes left in the body of the request it is
    given, which leaves the buffer empty, and refuses, before anything
    is sent, a request that declares a length and has no byte left;
    [backend j] is the answer to the request number [j] that reaches the
    backend. The client keeps no connection to reuse: the reply of a
    retried attempt is never read or closed. *)
Definition sending_client (backend : nat -> Claude.DoResult) : Claude.Client :=
  fun k httpReq =>
    if bool_decide (Claude.HttpRequest.Body httpReq = "")
       && (0 <? Claude.HttpRequest.ContentLength httpReq)%Z
    then (Claude.TransportError (short_body httpReq), httpReq)
    else (backend k, consumed httpReq).

Definition default_claude : Claude.ClaudeMiddleware :=
  Claude.NewClaudeMiddleware (Middleware.Claude Middleware.CreateDefaultConfig).

(** ** Request validation: JSON bodies *)

(** Structural induction over JSON values, through arrays and objects. *)
Fixpoint JSON_nested_ind (P : JSON -> Prop)
    (Hnull : P JNull) (Hbool : forall b, P (JBool b)) (Hnum : forall n, P (JNumber n))
    (Hstr : forall s, P (JString s))
    (Harr : forall items, Forall P items -> P (JArray items))
    (Hobj : forall fields, Forall (fun kv => P kv.2) fields -> P (JObject fields))
    (j : JSON) {struct j} : P j :=
  match j with
  | JNull => Hnull
  | JBool b => Hbool b
  | JNumber n => Hnum n
  | JString s => Hstr s
  | JArray items =>
      Harr items
        ((fix all (l : list JSON) : Forall P l :=
            match l with
            | [] => @List.Forall_nil _ P
            | x :: rest =>
                @List.Forall_cons _ P x rest
                  (JSON_nested_ind P Hnull Hbool Hnum Hstr Harr Hobj x) (all rest)
            end) items)
  | JObject fields =>
      Hobj fields
        ((fix all (l : list (string * JSON)) : Forall (fun kv => P kv.2) l :=
            match l with
            | [] => @List.Forall_nil _ (fun kv => P kv.2)
            | kv :: rest =>
                @List.Forall_cons _ (fun kv => P kv.2) kv rest
                  (JSON_nested_ind P Hnull Hbool Hnum Hstr Harr Hobj kv.2) (all rest)
            end) fields)
  end.

(** The number of characters (runes) of a UTF-8 string: its bytes that
    are not continuation bytes. *)
Definition is_continuation (c : ascii) : bool :=
  let n := nat_of_ascii c in (128 <=? n)%nat && (n <? 192)%nat.

Fixpoint rune_count (s : string) : nat :=
  match s with
  | EmptyString => 0
  | String c s' => (if is_continuation c then 0 else 1) + rune_count s'
  end.

(** Some object anywhere in the value has an empty key. *)
Fixpoint has_empty_key (j : JSON) : bool :=
  match j with
  | JObject fields =>
      (fix any (l : list (string * JSON)) : bool :=
         match l with
         | [] => false
         | (key, value) :: rest => bool_decide (key = "") || has_empty_key value || any rest
         end) fields
  | JArray items =>
      (fix any (l : list JSON) : bool :=
         match l with
         | [] => false
         | item :: rest => has_empty_key item || any rest
         end) items
  | _ => false
  end.

(** Some string value anywhere in the value measures more than [limit]
    under [measure]. *)
Fixpoint has_long_string (measure : string -> nat) (limit : Z) (j : JSON) : bool :=
  match j with
  | JString s => (limit <? Z.of_nat (measure s))%Z
  | JObject fields =>
      (fix any (l : list (string * JSON)) : bool :=
         match l with
         | [] => false
         | (_, value) :: rest => has_long_string measure limit value || any rest
         end) fields
  | JArray items =>
      (fix any (l : list JSON) : bool :=
         match l with
         | [] => false
         | item :: rest => has_long_string measure limit item || any rest
         end) items
  | _ => false
  end.

(** The response a middleware wrote itself, if it did not hand the
    request on. *)
Definition answered (h : Http.Written + Http.Request) : option Http.Written :=
  match h with
  | inl w => Some w
  | inr _ => None
  end.

(** The double quote character. *)
Definition quote : string := String "034"%char "".

(** The text of the JSON object with the single entry of key empty and
    value 1. *)
Definition empty_key_body : string := "{" ++ quote ++ quote ++ ":1}".

Definition sample_unmarshal (body : string) : option JSON :=
  if bool_decide (body = empty_key_body) then Some (JObject [("", JNumber 1)])
  else if bool_decide (body = "[1]") then Some (JArray [JNumber 1])
  else None.

Definition strict_validator : Validation.ValidationMiddleware :=
  {| Validation.config :=
       {| Middleware.ValidationConfig.Enabled := true;
          Middleware.ValidationConfig.StrictMode := true;
          Middleware.ValidationConfig.MaxRequestSize := 10 * 1024 * 1024;
          Middleware.ValidationConfig.ValidateHeaders := false |};
     Validation.enabled := true |}.

Definition json_post (body : string) : Http.Request :=
  {| Http.Method := "POST"; Http.Path := "/claude/message";
     Http.Header := {[ "Content-Type" := "application/json" ]};
     Http.Query := ∅; Http.ContentLength := Z.of_nat (String.length body);
     Http.Body := inl body; Http.Context := None |}.

(** A POST of a JSON payload sent without a declared length (chunked
    transfer encoding): [r.ContentLength] is -1. *)
Definition chunked_json_post (body : string) : Http.Request :=
  {| Http.Method := "POST"; Http.Path := "/claude/message";
     Http.Header := {[ "Content-Type" := "application/json" ]};
     Http.Query := ∅; Http.ContentLength := -1;
     Http.Body := inl body; Http.Context := None |}.

(** ** Authentication *)

(** A token signed with the default secret that carries a principal and
    nothing else: no issuer, no expiry, no issue date. *)
Definition bare_token : Jwt.Token :=
  {| Jwt.Method := Jwt.HS256;
     Jwt.Claims := {[ "user_id" := Jwt.CString "mallory" ]};
     Jwt.SignedWith := "default-secret-change-me" |}.

(** A token of a foreign issuer, otherwise well formed. *)
Definition foreign_token : Jwt.Token :=
  {| Jwt.Method := Jwt.HS256;
     Jwt.Claims := {[ "user_id" := Jwt.CString "mallory";
                      "iss" := Jwt.CString "someone-else";
                      "exp" := Jwt.CNumber 1800000000;
                      "iat" := Jwt.CNumber 1600000000 ]};
     Jwt.SignedWith := "default-secret-change-me" |}.

Definition sample_token_decode (tokenString : string) : option Jwt.Token :=
  if bool_decide (tokenString = "bare") then Some bare_token
  else if bool_decide (tokenString = "foreign") then Some foreign_token
  else None.

Definition default_auth : Auth.AuthMiddleware :=
  Auth.NewAuthMiddleware (Middleware.Auth Middleware.CreateDefaultConfig).

Definition bearer_request (tokenString : string) : Http.Request :=
  {| Http.Method := "GET"; Http.Path := "/middleware/status";
     Http.Header := {[ "Authorization" := "Bearer " ++ tokenString ]};
     Http.Query := ∅; Http.ContentLength := 0; Http.Body := inl "";
     Http.Context := None |}.

Definition api_key_auth : Auth.AuthMiddleware :=
  Auth.AddAPIKey
    (Auth.NewAuthMiddleware
       {| Middleware.AuthConfig.Enabled := true; Middleware.AuthConfig.Type_ := "api_key";
          Middleware.AuthConfig.Secret := "unused"; Middleware.AuthConfig.Expiration := 0;
          Middleware.AuthConfig.Issuer := "agentapi" |})
    "0123abcd" "alice".

Definition api_key_request (key : string) : Http.Request :=
  {| Http.Method := "GET"; Http.Path := "/middleware/status";
     Http.Header := {[ "X-API-Key" := key ]};
     Http.Query := ∅; Http.ContentLength := 0; Http.Body := inl "";
     Http.Context := None |}.

(** The request a middleware handed to the next handler, if it did. *)
Definition forwarded (h : Http.Written + Http.Request) : option Http.Request :=
  match h with
  | inl _ => None
  | inr r => Some r
  end.

(** ** The hub: filtering and delivery *)

(** The filter rule of the specification: every non-empty target of the
    message matches the corresponding field of the client. *)
Definition every_target_matches (client : Sync.Client) (message : Sync.SyncMessage) : bool :=
  (bool_decide (Sync.SyncMessage.UserID message = "")
   || bool_decide (Sync.Client.UserID client = Sync.SyncMessage.UserID message))
  && (bool_decide (Sync.SyncMessage.AgentID message = "")
      || bool_decide (Sync.Client.AgentID client = Sync.SyncMessage.AgentID message)).

(** What the loop of [broadcastMessage] leaves of a client whose queue is
    open. *)
Definition delivered (message : Sync.SyncMessage) (client : Sync.Client) : Sync.Client :=
  if Sync.shouldReceiveMessage client message then
    if decide (length (Sync.buf (Sync.Client.Send client)) < Sync.cap (Sync.Client.Send client))
    then Sync.with_Send client
           {| Sync.buf := Sync.buf (Sync.Client.Send client) ++ [message];
              Sync.cap := Sync.cap (Sync.Client.Send client); Sync.closed := false |}
    else Sync.with_Send client
           {| Sync.buf := Sync.buf (Sync.Client.Send client);
              Sync.cap := Sync.cap (Sync.Client.Send client); Sync.closed := true |}
  else client.

(** The client is selected and its queue is full. *)
Definition dropped (message : Sync.SyncMessage) (client : Sync.Client) : bool :=
  Sync.shouldReceiveMessage client message
  && negb (bool_decide (length (Sync.buf (Sync.Client.Send client))
                        < Sync.cap (Sync.Client.Send client))).

(** A registry entry is sound when it points to a client of that
    identifier whose queue is open. *)
Definition entry_ok (s : Sync.SyncMiddleware) (id : string) (p : Sync.loc) : Prop :=
  exists client,
    Sync.heap s !! p = Some client
    /\ Sync.Client.ID client = id
    /\ Sync.closed (Sync.Client.Send client) = false.

Definition registry_ok (s : Sync.SyncMiddleware) : Prop :=
  forall id p, Sync.clients s !! id = Some p -> entry_ok s id p.

(** The result of a run that does not panic. *)
Definition run_result (s0 : Sync.SyncMiddleware) (r : Run Sync.SyncMiddleware)
    : Sync.SyncMiddleware :=
  match r with
  | Done s => s
  | Panicked _ => s0
  end.

Definition small_hub : Sync.SyncMiddleware :=
  Sync.NewSyncMiddleware
    {| Middleware.SyncConfig.Enabled := true; Middleware.SyncConfig.WebSocketEnabled := true;
       Middleware.SyncConfig.SSEEnabled := true;
       Middleware.SyncConfig.HeartbeatInterval := 30 * Middleware.second;
       Middleware.SyncConfig.BufferSize := 2 |}.

Definition runtime_at (t : Z) (id : string) : Runtime :=
  {| now := t; frames := []; fresh_id := id |}.

Definition ws_request : Http.Request :=
  {| Http.Method := "GET"; Http.Path := "/ws"; Http.Header := ∅; Http.Query := ∅;
     Http.ContentLength := 0; Http.Body := inl ""; Http.Context := None |}.

Definition subscribe_to (agentID : string) : Sync.SyncMessage :=
  {| Sync.SyncMessage.Type_ := "subscribe";
     Sync.SyncMessage.Data := Sync.PMap {[ "agent_id" := Sync.FString agentID ]};
     Sync.SyncMessage.Timestamp := 0; Sync.SyncMessage.ClientID := "";
     Sync.SyncMessage.UserID := ""; Sync.SyncMessage.AgentID := "" |}.

(** Two duplex subscribers: A (at address 1) subscribed to agent x and
    B (at address 2) subscribed to agent y. *)
Definition hub_with_A_and_B : Sync.SyncMiddleware :=
  let s1 := run_result small_hub
              (Sync.handleWebSocket (runtime_at 1 "client_A") small_hub 1 ws_request) in
  let s2 := run_result s1 (Sync.handleWebSocket (runtime_at 2 "client_B") s1 2 ws_request) in
  let s3 := run_result s2 (Sync.handleClientMessage 3 s2 1 (subscribe_to "x")) in
  run_result s3 (Sync.handleClientMessage 4 s3 2 (subscribe_to "y")).

Definition status_of_x : Sync.SyncMessage :=
  {| Sync.SyncMessage.Type_ := "agent_status";
     Sync.SyncMessage.Data :=
       Sync.PStruct {[ "agent_id" := Sync.FString "x"; "status" := Sync.FString "running";
                       "message" := Sync.FString "ok" ]};
     Sync.SyncMessage.Timestamp := 5; Sync.SyncMessage.ClientID := "";
     Sync.SyncMessage.UserID := ""; Sync.SyncMessage.AgentID := "x" |}.

(** The number of pending messages of kind [kind] in the queue of the
    client at [p]. *)
Definition pending_of_kind (s : Sync.SyncMiddleware) (p : Sync.loc) (kind : string) : nat :=
  match Sync.heap s !! p with
  | Some client =>
      length (List.filter (fun m => bool_decide (Sync.SyncMessage.Type_ m = kind))
                (Sync.buf (Sync.Client.Send client)))
  | None => 0
  end.

Definition client_u1_a2 : Sync.Client :=
  {| Sync.Client.ID := "client_1"; Sync.Client.UserID := "u1"; Sync.Client.AgentID := "a2";
     Sync.Client.Send := {| Sync.buf := []; Sync.cap := 2; Sync.closed := false |};
     Sync.Client.LastPing := 0; Sync.Client.Metadata := ∅ |}.

Definition message_u1_a1 : Sync.SyncMessage :=
  {| Sync.SyncMessage.Type_ := "message_update"; Sync.SyncMessage.Data := Sync.PNil;
     Sync.SyncMessage.Timestamp := 1; Sync.SyncMessage.ClientID := "";
     Sync.SyncMessage.UserID := "u1"; Sync.SyncMessage.AgentID := "a1" |}.

Definition hub_with_u1_a2 : Sync.SyncMiddleware :=
  {| Sync.config := Sync.config small_hub; Sync.enabled := true;
     Sync.heap := {[ 1 := client_u1_a2 ]}; Sync.clients := {[ "client_1" := 1 ]};
     Sync.broadcast := [] |}.

(** ** The hub: closing a connection *)

Definition hub_of_capacity_1 : Sync.SyncMiddleware :=
  Sync.NewSyncMiddleware
    {| Middleware.SyncConfig.Enabled := true; Middleware.SyncConfig.WebSocketEnabled := true;
       Middleware.SyncConfig.SSEEnabled := true;
       Middleware.SyncConfig.HeartbeatInterval := 30 * Middleware.second;
       Middleware.SyncConfig.BufferSize := 1 |}.

Definition ping : Sync.SyncMessage :=
  {| Sync.SyncMessage.Type_ := "ping"; Sync.SyncMessage.Data := Sync.PNil;
     Sync.SyncMessage.Timestamp := 0; Sync.SyncMessage.ClientID := "";
     Sync.SyncMessage.UserID := ""; Sync.SyncMessage.AgentID := "" |}.

Definition heartbeat : Sync.SyncMessage :=
  {| Sync.SyncMessage.Type_ := "heartbeat"; Sync.SyncMessage.Data := Sync.PStruct ∅;
     Sync.SyncMessage.Timestamp := 9; Sync.SyncMessage.ClientID := "";
     Sync.SyncMessage.UserID := ""; Sync.SyncMessage.AgentID := "" |}.

(** One subscriber with an outbound queue of capacity 1, holding its
    welcome message, that has sent a ping. *)
Definition after_ping : Run Sync.SyncMiddleware :=
  run_bind (Sync.handleWebSocket (runtime_at 1 "client_A") hub_of_capacity_1 1 ws_request)
    (fun s => Sync.handleClientMessage 2 s 1 ping).

(** The same subscriber dropped by a broadcast instead. *)
Definition after_broadcast : Run Sync.SyncMiddleware :=
  run_bind (Sync.handleWebSocket (runtime_at 1 "client_A") hub_of_capacity_1 1 ws_request)
    (fun s => Sync.broadcastMessage s heartbeat).

(** One subscriber whose writer has taken the welcome message off a
    queue of capacity 1 and then stopped. *)
Definition slow_consumer_start : Run Sync.SyncMiddleware :=
  run_bind (Sync.handleWebSocket (runtime_at 1 "client_A") hub_of_capacity_1 1 ws_request)
    (fun s =>
       match Sync.handleClientWrite_step s 1 with
       | Some (_, s') => Done s'
       | None => Done s
       end).

(** That subscriber after [n] heartbeats. *)
Definition after_broadcasts (n : nat) : Run Sync.SyncMiddleware :=
  Nat.iter n (fun r => run_bind r (fun s => Sync.broadcastMessage s heartbeat))
    slow_consumer_start.

(** One event-stream subscriber on a queue of capacity 1 whose loop is
    stuck in a write, after [n] heartbeats. *)
Definition sse_after_broadcasts (n : nat) : Run Sync.SyncMiddleware :=
  Nat.iter n (fun r => run_bind r (fun s => Sync.broadcastMessage s heartbeat))
    (Sync.handleSSE (runtime_at 1 "client_E") hub_of_capacity_1 1).

(** ** Error recovery: the response writer *)

(** The status of the first [WriteHeader] among the calls a handler
    makes. *)
Fixpoint first_status (calls : list Errors.WriterCall) : option Z :=
  match calls with
  | [] => None
  | Errors.CallWriteHeader statusCode :: _ => Some statusCode
  | Errors.CallWrite _ :: rest => first_status rest
  end.

(** ** Authentication: the header *)

(** The byte [c] occurs in [s]. *)
Fixpoint has_byte (c : ascii) (s : string) : bool :=
  match s with
  | EmptyString => false
  | String c' s' => Ascii.eqb c' c || has_byte c s'
  end.

(** ** Authentication: issued tokens *)

(** The instant from which a token issued at [rt] is expired: its [exp]
    claim, a whole number of seconds. *)
Definition expiry (a : Auth.AuthMiddleware) (rt : Runtime) : Z :=
  (now rt + Middleware.AuthConfig.Expiration (Auth.config a)) / Middleware.second
  * Middleware.second.

(** A serialisation of tokens that knows the single string [tok]. *)
Definition one_token_encode (tok : string) (_ : Jwt.Token) : string := tok.

Definition one_token_decode (tok : string) (token : Jwt.Token) (s : string)
    : option Jwt.Token :=
  if bool_decide (s = tok) then Some token else None.

(** ** Sessions *)

(** Every session is stored under its own identifier. *)
Definition sessions_keyed (c : Claude.ClaudeMiddleware) : Prop :=
  forall key session, Claude.sessions c !! key = Some session -> Claude.ID session = key.

Definition sample_message_request : Claude.ClaudeRequest.t :=
  {| Claude.ClaudeRequest.SessionID := "s1"; Claude.ClaudeRequest.ConversationID := "";
     Claude.ClaudeRequest.Model := ""; Claude.ClaudeRequest.Message := "hello";
     Claude.ClaudeRequest.Context := {[ "repo" := "agentapi" ]};
     Claude.ClaudeRequest.Stream := false |}.

Definition with_MaxRetries (cfg : Middleware.MiddlewareConfig) (n : Z)
    : Middleware.MiddlewareConfig :=
  {| Middleware.Auth := Middleware.Auth cfg; Middleware.Validation := Middleware.Validation cfg;
     Middleware.Response := Middleware.Response cfg; Middleware.Sync := Middleware.Sync cfg;
     Middleware.Claude :=
       {| Middleware.ClaudeConfig.Enabled :=
            Middleware.ClaudeConfig.Enabled (Middleware.Claude cfg);
          Middleware.ClaudeConfig.APIEndpoint :=
            Middleware.ClaudeConfig.APIEndpoint (Middleware.Claude cfg);
          Middleware.ClaudeConfig.Version :=
            Middleware.ClaudeConfig.Version (Middleware.Claude cfg);
          Middleware.ClaudeConfig.MaxRetries := n;
          Middleware.ClaudeConfig.TimeoutSeconds :=
            Middleware.ClaudeConfig.TimeoutSeconds (Middleware.Claude cfg);
          Middleware.ClaudeConfig.RateLimitRPS :=
            Middleware.ClaudeConfig.RateLimitRPS (Middleware.Claude cfg);
          Middleware.ClaudeConfig.EnableStreaming :=
            Middleware.ClaudeConfig.EnableStreaming (Middleware.Claude cfg) |};
     Middleware.Errors := Middleware.Errors cfg |}.

(** A request of the given method and path, with a query. *)
Definition request_to (method path : string) (query : gmap string string) : Http.Request :=
  {| Http.Method := method; Http.Path := path; Http.Header := ∅; Http.Query := query;
     Http.ContentLength := 0; Http.Body := inl ""; Http.Context := None |}.

Definition no_parse (_ : Http.Request) : option Claude.ClaudeRequest.t := None.

(** ** Response formatting *)

(** The bytes a handler writes: the data of its [Write] calls, in
    order. *)
Fixpoint written_bytes (calls : list Errors.WriterCall) : string :=
  match calls with
  | [] => ""
  | Errors.CallWriteHeader _ :: rest => written_bytes rest
  | Errors.CallWrite data :: rest => data ++ written_bytes rest
  end.

(** A compressor that answers with the same seven bytes whatever it is
    given. *)
Definition sample_gzip (_ : Z) (_ : string) : option string := Some "gzipped".

Definition gzip_request : Http.Request :=
  {| Http.Method := "GET"; Http.Path := "/health";
     Http.Header := {[ "Accept-Encoding" := "gzip, deflate" ]};
     Http.Query := ∅; Http.ContentLength := 0; Http.Body := inl ""; Http.Context := None |}.

(** * Properties *)

(** ** Error recovery *)

Lemma error_code_effective (statusCode : Z) :
  Errors.error_code statusCode = effective_code statusCode.
Proof.
  unfold Errors.error_code, effective_code, spec_code.
  unfold Http.StatusBadRequest, Http.StatusUnauthorized, Http.StatusForbidden,
    Http.StatusNotFound, Http.StatusMethodNotAllowed, Http.StatusConflict,
    Http.StatusTooManyRequests, Http.StatusInternalServerError, Http.StatusBadGateway,
    Http.StatusServiceUnavailable, Http.StatusGatewayTimeout.
  repeat match goal with
         | |- context [(statusCode =? ?k)%Z] =>
             destruct (Z.eqb_spec statusCode k) as [-> | ?]; [reflexivity |]
         end.
  reflexivity.
Qed.

(** C3, as amended: for every explicitly reported error, the response
    carries the reported status, and its code is the one the table of
    the specification gives for the statuses 400, 401, 403, 404, 405,
    409, 429, 500, 502, 503 and 504; every other status, 408 and 422
    included, yields UNKNOWN_ERROR. *)
Theorem HandleError_code (e : Errors.ErrorMiddleware) (rt : Runtime) (r : Http.Request)
    (msg : string) (statusCode : Z) :
  exists w,
    Errors.written (Errors.HandleError e rt r (Some msg) statusCode) = Some w
    /\ Http.StatusCode w = statusCode
    /\ Errors.code_of w = effective_code statusCode.
Proof.
  eexists. split; [reflexivity |]. split; [reflexivity |].
  cbn. apply error_code_effective.
Qed.

(** C3, as stated, fails: a status 408 error and a status 422 error are
    both answered with the code UNKNOWN_ERROR, where the table gives
    REQUEST_TIMEOUT and UNPROCESSABLE_ENTITY. *)
Lemma HandleError_408_422_unknown :
  (Errors.code_of <$> Errors.written
     (Errors.HandleError sanitizing sample_runtime sample_request (Some "deadline exceeded") 408))
    = Some "UNKNOWN_ERROR"
  /\ spec_code 408 = Some "REQUEST_TIMEOUT"
  /\ (Errors.code_of <$> Errors.written
        (Errors.HandleError sanitizing sample_runtime sample_request (Some "bad entity") 422))
       = Some "UNKNOWN_ERROR"
  /\ spec_code 422 = Some "UNPROCESSABLE_ENTITY".
Proof. repeat split; reflexivity. Qed.

(** C2 at a failing input: with [sanitize_secrets] on, the message
    "invalid Password for admin" contains the sensitive key "password"
    up to letter case, and the envelope [HandleError] writes still
    carries it unchanged; the lower-case spelling is redacted. *)
Theorem sanitizeMessage_keeps_other_case :
  Middleware.ErrorConfig.SanitizeSecrets (Errors.config sanitizing) = true
  /\ (Errors.message_of <$> Errors.written
        (Errors.HandleError sanitizing sample_runtime sample_request
           (Some "invalid Password for admin") 401))
       = Some "invalid Password for admin"
  /\ Strings.Contains (Strings.ToLower "invalid Password for admin") "password" = true
  /\ Errors.sanitizeMessage "invalid password for admin" = "invalid [REDACTED] for admin".
Proof. repeat split; vm_compute; reflexivity. Qed.

(** ** Error recovery: what the sanitizer does remove *)

Lemma lower_byte_fixes_lower (c : ascii) : is_lower c = true -> Strings.lower_byte c = c.
Proof.
  unfold is_lower, Strings.lower_byte. intros H.
  apply andb_true_iff in H as [H1 H2]. apply Nat.leb_le in H1.
  destruct (Nat.leb_spec (nat_of_ascii c) 90); [lia |]. by rewrite andb_false_r.
Qed.

Lemma prefix_cons (a b : ascii) (p s : string) :
  String.prefix (String a p) (String b s) = true <-> a = b /\ String.prefix p s = true.
Proof.
  cbn. destruct (ascii_dec a b) as [-> | Hne]; split; try done.
  - by intros [_ H].
  - by intros [? _].
Qed.

Lemma prefix_ToLower (p s : string) :
  all_lower p = true -> String.prefix p s = true -> String.prefix p (Strings.ToLower s) = true.
Proof.
  revert s. induction p as [| a p IH]; intros s Hlow Hpre.
  - by destruct s.
  - destruct s as [| b s]; [done |].
    cbn [all_lower] in Hlow. apply andb_true_iff in Hlow as [Ha Hp].
    apply prefix_cons in Hpre as [<- Hpre].
    cbn [Strings.ToLower]. apply prefix_cons. split; [| by apply IH].
    symmetry. by apply lower_byte_fixes_lower.
Qed.

Lemma Contains_ToLower (p s : string) :
  all_lower p = true -> Strings.Contains s p = true ->
  Strings.Contains (Strings.ToLower s) p = true.
Proof.
  intros Hlow. induction s as [| c s IH]; cbn [Strings.Contains Strings.ToLower].
  - unfold Strings.HasPrefix. rewrite !orb_false_r. by apply prefix_ToLower.
  - unfold Strings.HasPrefix. intros H. apply orb_true_iff in H as [H | H].
    + apply orb_true_iff. left. by apply (prefix_ToLower p (String c s)).
    + apply orb_true_iff. right. by apply IH.
Qed.

Section Replacement.

Variables (old new : string).
Hypothesis new_no_lower : no_lower new = true.
Hypothesis new_not_empty : new <> "".

(** A lower-case word that starts the replaced text starts the original
    text at the same place. *)
Lemma prefix_replace_from (p s : string) :
  all_lower p = true ->
  String.prefix p (Strings.replace_from old new 0 s) = true -> String.prefix p s = true.
Proof.
  revert s. induction p as [| a p IH]; intros s Hlow Hpre; [by destruct s |].
  cbn [all_lower] in Hlow. apply andb_true_iff in Hlow as [Ha Hp].
  destruct s as [| b s]; [done |].
  cbn [Strings.replace_from] in Hpre.
  destruct (Strings.HasPrefix (String b s) old).
  - destruct new as [| r new']; [done |].
    cbn [no_lower] in new_no_lower. apply andb_true_iff in new_no_lower as [Hr _].
    change (String r new' ++ ?x) with (String r (new' ++ x)) in Hpre.
    apply prefix_cons in Hpre as [-> _].
    by rewrite Ha in Hr.
  - apply prefix_cons in Hpre as [-> Hpre]. apply prefix_cons. split; [done |].
    by apply IH.
Qed.

(** No lower-case word occurs across or inside the inserted text. *)
Lemma Contains_skip_new (p t : string) :
  all_lower p = true -> p <> "" ->
  Strings.Contains (new ++ t) p = Strings.Contains t p.
Proof.
  intros Hlow Hne. clear new_not_empty. revert new_no_lower.
  induction new as [| r new' IH]; intros Hnew; [done |].
  cbn [no_lower] in Hnew. apply andb_true_iff in Hnew as [Hr Hnew'].
  change (String r new' ++ t) with (String r (new' ++ t)).
  cbn [Strings.Contains]. rewrite IH by done.
  destruct p as [| a p']; [done |].
  cbn [all_lower] in Hlow. apply andb_true_iff in Hlow as [Ha _].
  unfold Strings.HasPrefix at 1. cbn [String.prefix].
  destruct (ascii_dec a r) as [-> | _]; [| done].
  by rewrite Ha in Hr.
Qed.

(** A lower-case word that occurs in the replaced text occurs in the
    original text. *)
Lemma Contains_replace_from (p s : string) (skip : nat) :
  all_lower p = true -> p <> "" ->
  Strings.Contains (Strings.replace_from old new skip s) p = true ->
  Strings.Contains s p = true.
Proof.
  intros Hlow Hne. revert skip. induction s as [| c s IH]; intros skip; [done |].
  destruct skip as [| k].
  - cbn [Strings.replace_from].
    destruct (Strings.HasPrefix (String c s) old) eqn:Hmatch.
    + rewrite Contains_skip_new by done. intros H. apply IH in H.
      cbn [Strings.Contains]. by rewrite H, orb_true_r.
    + intros H. cbn [Strings.Contains] in H. apply orb_true_iff in H as [H | H].
      * cbn [Strings.Contains]. apply orb_true_iff. left.
        unfold Strings.HasPrefix in *. apply prefix_replace_from; [done |].
        cbn [Strings.replace_from]. unfold Strings.HasPrefix. by rewrite Hmatch.
      * apply IH in H. cbn [Strings.Contains]. by rewrite H, orb_true_r.
  - cbn [Strings.replace_from]. intros H. apply IH in H.
    cbn [Strings.Contains]. by rewrite H, orb_true_r.
Qed.

(** The replaced word itself no longer occurs. *)
Lemma Contains_replace_from_old (s : string) (skip : nat) :
  all_lower old = true -> old <> "" ->
  Strings.Contains (Strings.replace_from old new skip s) old = false.
Proof.
  intros Hlow Hne. revert skip. induction s as [| c s IH]; intros skip.
  - cbn. destruct old; [done | by destruct skip].
  - destruct skip as [| k]; cbn [Strings.replace_from]; [| apply IH].
    destruct (Strings.HasPrefix (String c s) old) eqn:Hmatch.
    + rewrite Contains_skip_new by done. apply IH.
    + cbn [Strings.Contains]. rewrite IH, orb_false_r.
      destruct (Strings.HasPrefix (String c (Strings.replace_from old new 0 s)) old)
        eqn:Hpre; [| done].
      unfold Strings.HasPrefix in *.
      rewrite <- Hmatch. symmetry. apply prefix_replace_from; [done |].
      cbn [Strings.replace_from]. unfold Strings.HasPrefix. by rewrite Hmatch.
Qed.

End Replacement.

Lemma sanitize_step_removes (s pattern : string) :
  all_lower pattern = true -> pattern <> "" ->
  Strings.Contains (Errors.sanitize_step s pattern) pattern = false.
Proof.
  intros Hlow Hne. unfold Errors.sanitize_step.
  destruct (Strings.Contains (Strings.ToLower s) pattern) eqn:Hc.
  - unfold Strings.ReplaceAll. destruct pattern as [| a p]; [done |].
    by apply Contains_replace_from_old.
  - destruct (Strings.Contains s pattern) eqn:Hs; [| done].
    apply (Contains_ToLower pattern s Hlow) in Hs. by rewrite Hs in Hc.
Qed.

Lemma sanitize_step_adds_nothing (s pattern p : string) :
  pattern <> "" -> all_lower p = true -> p <> "" ->
  Strings.Contains s p = false ->
  Strings.Contains (Errors.sanitize_step s pattern) p = false.
Proof.
  intros Hpat Hlow Hne Habsent. unfold Errors.sanitize_step.
  destruct (Strings.Contains (Strings.ToLower s) pattern); [| done].
  unfold Strings.ReplaceAll. destruct pattern as [| a q]; [done |].
  destruct (Strings.Contains (Strings.replace_from (String a q) "[REDACTED]" 0 s) p) eqn:Hc;
    [| done].
  apply Contains_replace_from in Hc; [by rewrite Hc in Habsent | done ..].
Qed.

Lemma sanitize_fold_keeps_absent (patterns : list string) (s p : string) :
  Forall (fun q => q <> "") patterns ->
  all_lower p = true -> p <> "" ->
  Strings.Contains s p = false ->
  Strings.Contains (foldl Errors.sanitize_step s patterns) p = false.
Proof.
  intros Hpats Hlow Hne. revert s. induction Hpats as [| q rest Hq _ IH]; intros s Habsent;
    [done |].
  cbn [foldl]. apply IH. by apply sanitize_step_adds_nothing.
Qed.

Lemma sanitize_fold_removes (patterns : list string) (s p : string) :
  Forall (fun q => all_lower q = true /\ q <> "") patterns ->
  p ∈ patterns ->
  Strings.Contains (foldl Errors.sanitize_step s patterns) p = false.
Proof.
  intros Hpats. revert s. induction Hpats as [| q rest [Hq Hqne] Hrest IH]; intros s Hin.
  - by apply elem_of_nil in Hin.
  - cbn [foldl]. apply elem_of_cons in Hin as [-> | Hin]; [| by apply IH].
    apply sanitize_fold_keeps_absent; [| done | done | by apply sanitize_step_removes].
    eapply Forall_impl; [exact Hrest |]. by intros ? [_ ?].
Qed.

(** X1: whatever the message, no sensitive key is left in it in its
    exact lower-case spelling, be it in the response envelope or in the
    log. *)
Theorem sanitizeMessage_removes_lower_case (message pattern : string) :
  pattern ∈ Errors.sensitivePatterns ->
  Strings.Contains (Errors.sanitizeMessage message) pattern = false.
Proof.
  apply sanitize_fold_removes.
  unfold Errors.sensitivePatterns. repeat constructor; done.
Qed.

(** A message with three sensitive keys in lower case. *)
Lemma sanitizeMessage_removes_lower_case_witness :
  Strings.Contains (Errors.sanitizeMessage "bad token: secret key mismatch") "token" = false
  /\ Errors.sanitizeMessage "bad token: secret key mismatch"
     = "bad [REDACTED]: [REDACTED] [REDACTED] mismatch".
Proof.
  split.
  - apply sanitizeMessage_removes_lower_case. unfold Errors.sensitivePatterns.
    apply list_elem_of_In. cbn. tauto.
  - vm_compute. reflexivity.
Defined.

(** ** Configuration updates *)

(** [UpdateConfig] never fails and never consults [ValidateConfig]:
    whatever configuration it is given becomes the active one of the
    manager and of every component. *)
Lemma UpdateConfig_applies (m : Manager.Manager) (c : Middleware.MiddlewareConfig) :
  exists m',
    Manager.UpdateConfig m c = (m', None)
    /\ Manager.GetConfig m' = c
    /\ Auth.config (Manager.auth m') = Middleware.Auth c
    /\ Auth.jwtKey (Manager.auth m') = Middleware.AuthConfig.Secret (Middleware.Auth c)
    /\ Validation.config (Manager.validation m') = Middleware.Validation c
    /\ Response.config (Manager.response m') = Middleware.Response c
    /\ Sync.config (Manager.sync m') = Middleware.Sync c
    /\ Claude.config (Manager.claude m') = Middleware.Claude c
    /\ Errors.config (Manager.errors m') = Middleware.Errors c.
Proof. eexists. repeat split; reflexivity. Qed.

(** C7 at a failing input: the construction path refuses the default
    configuration with an empty secret, but the same configuration sent
    to PUT /middleware/config is answered with success and replaces the
    active configuration, the signing key included. *)
Theorem handleUpdateMiddlewareConfig_skips_validation :
  Middleware.ValidateConfig empty_secret_config
    = Some "auth secret cannot be empty when auth is enabled"
  /\ Manager.CreateEnhancedServer empty_secret_config
       = inr "auth secret cannot be empty when auth is enabled"
  /\ Manager.GetConfig running_manager = Middleware.CreateDefaultConfig
  /\ exists m',
       Manager.handleUpdateMiddlewareConfig running_manager sample_runtime sample_request
         (inl empty_secret_config)
         = (Manager.Updated "Configuration updated successfully", m')
       /\ Manager.GetConfig m' = empty_secret_config
       /\ Auth.jwtKey (Manager.auth m') = "".
Proof.
  split; [reflexivity |]. split; [reflexivity |]. split; [reflexivity |].
  eexists. split; [reflexivity |]. split; reflexivity.
Qed.

(** ** Request validation: the size limit *)

(** C10: a request is rejected for its size exactly when
    [max_request_size] is positive and the declared Content-Length
    exceeds it; a request whose Content-Length is unknown (-1) or not
    positive passes the size check whatever its body is, and an enabled
    validator answers a size rejection with 400 VALIDATION_ERROR. *)
Theorem validateRequestSize_declared_length (v : Validation.ValidationMiddleware)
    (r : Http.Request) :
  (is_Some (Validation.validateRequestSize v r)
   <-> (0 < Middleware.ValidationConfig.MaxRequestSize (Validation.config v)
        /\ Middleware.ValidationConfig.MaxRequestSize (Validation.config v)
           < Http.ContentLength r)%Z)
  /\ ((Http.ContentLength r <= 0)%Z -> Validation.validateRequestSize v r = None)
  /\ (forall unmarshal rt err,
        Validation.enabled v = true ->
        Validation.validateRequestSize v r = Some err ->
        Validation.Handler unmarshal v rt r = inl (Validation.writeBadRequest rt err)).
Proof.
  unfold Validation.validateRequestSize.
  split; [| split].
  - destruct (Z.ltb_spec 0 (Middleware.ValidationConfig.MaxRequestSize (Validation.config v)));
      destruct (Z.ltb_spec (Middleware.ValidationConfig.MaxRequestSize (Validation.config v))
                  (Http.ContentLength r)); cbn; split;
      intros H1; try (by eexists); try lia; try (by destruct H1 as [? [=]]).
  - intros Hle.
    destruct (Z.ltb_spec 0 (Middleware.ValidationConfig.MaxRequestSize (Validation.config v)));
      destruct (Z.ltb_spec (Middleware.ValidationConfig.MaxRequestSize (Validation.config v))
                  (Http.ContentLength r)); cbn; try reflexivity; lia.
  - intros unmarshal rt err Hen Herr. unfold Validation.Handler.
    rewrite Hen. cbn. unfold Validation.validateRequestSize. rewrite Herr. reflexivity.
Qed.

(** ** Session garbage collection *)

(** Deleting while ranging: after the loop has visited the entries of
    [visited], the map [acc] it started from has lost exactly the visited
    sessions that are older than the cutoff. *)
Lemma cleanup_fold_lookup (cutoff : Z) (acc visited : gmap string Claude.ClaudeSession)
    (sessionID : string) :
  map_fold (Claude.cleanup_step cutoff) acc visited !! sessionID
  = match visited !! sessionID with
    | Some session =>
        if (Claude.LastActivity session <? cutoff)%Z then None else acc !! sessionID
    | None => acc !! sessionID
    end.
Proof.
  revert sessionID.
  apply (map_fold_weak_ind
           (fun r visited => forall sessionID,
              r !! sessionID
              = match visited !! sessionID with
                | Some session =>
                    if (Claude.LastActivity session <? cutoff)%Z then None
                    else acc !! sessionID
                | None => acc !! sessionID
                end)).
  - intros sessionID. by rewrite lookup_empty.
  - intros i x m r Hfresh IH sessionID. unfold Claude.cleanup_step.
    destruct (decide (i = sessionID)) as [-> | Hne].
    + rewrite lookup_insert_eq.
      destruct (Claude.LastActivity x <? cutoff)%Z.
      * by rewrite lookup_delete_eq.
      * by rewrite IH, Hfresh.
    + rewrite lookup_insert_ne by done.
      destruct (Claude.LastActivity x <? cutoff)%Z.
      * rewrite lookup_delete_ne by done. apply IH.
      * apply IH.
Qed.

(** What a run of the collector leaves of every session. *)
Lemma CleanupSessions_lookup (c : Claude.ClaudeMiddleware) (rt : Runtime) (maxAge : Z)
    (sessionID : string) :
  Claude.sessions (Claude.CleanupSessions c rt maxAge) !! sessionID
  = match Claude.sessions c !! sessionID with
    | Some session =>
        if (maxAge <? now rt - Claude.LastActivity session)%Z then None else Some session
    | None => None
    end.
Proof.
  unfold Claude.CleanupSessions. cbn. rewrite cleanup_fold_lookup.
  destruct (Claude.sessions c !! sessionID) as [session |] eqn:Hs; [| done].
  destruct (Z.ltb_spec (Claude.LastActivity session) (now rt - maxAge));
    destruct (Z.ltb_spec maxAge (now rt - Claude.LastActivity session)); try done; lia.
Qed.

(** C8: a run of the periodic collector (period 5 minutes, idle
    threshold 30 minutes) removes exactly the sessions whose last
    activity lies more than the threshold before the instant the run
    reads the clock; a session whose last activity is within the
    threshold stays, and no session is added or altered. *)
Theorem performCleanup_evicts_exactly_idle (m : Manager.Manager) (rt : Runtime)
    (sessionID : string) :
  Claude.enabled (Manager.claude m) = true ->
  Manager.cleanup_period = (5 * 60 * 1000000000)%Z
  /\ Manager.idle_threshold = (30 * 60 * 1000000000)%Z
  /\ Claude.GetSession (Manager.claude (Manager.performCleanup m rt)) sessionID
     = match Claude.GetSession (Manager.claude m) sessionID with
       | Some session =>
           if (Manager.idle_threshold <? now rt - Claude.LastActivity session)%Z
           then None else Some session
       | None => None
       end
  /\ (forall session,
        Claude.GetSession (Manager.claude m) sessionID = Some session ->
        (now rt - Claude.LastActivity session <= Manager.idle_threshold)%Z ->
        Claude.GetSession (Manager.claude (Manager.performCleanup m rt)) sessionID
        = Some session)
  /\ (forall session,
        Claude.GetSession (Manager.claude m) sessionID = Some session ->
        (Manager.idle_threshold < now rt - Claude.LastActivity session)%Z ->
        Claude.GetSession (Manager.claude (Manager.performCleanup m rt)) sessionID = None).
Proof.
  intros Hen. split; [reflexivity |]. split; [reflexivity |].
  assert (Hlookup :
    Claude.GetSession (Manager.claude (Manager.performCleanup m rt)) sessionID
    = match Claude.GetSession (Manager.claude m) sessionID with
      | Some session =>
          if (Manager.idle_threshold <? now rt - Claude.LastActivity session)%Z
          then None else Some session
      | None => None
      end).
  { unfold Manager.performCleanup, Claude.GetSession. rewrite Hen. cbn.
    apply CleanupSessions_lookup. }
  split; [exact Hlookup |]. split.
  - intros session Hs Hwithin. rewrite Hlookup, Hs.
    destruct (Z.ltb_spec Manager.idle_threshold (now rt - Claude.LastActivity session));
      [lia | done].
  - intros session Hs Hold. rewrite Hlookup, Hs.
    destruct (Z.ltb_spec Manager.idle_threshold (now rt - Claude.LastActivity session));
      [done | lia].
Qed.

(** A session idle for 31 minutes goes, one idle for 29 minutes stays. *)
Lemma performCleanup_evicts_exactly_idle_witness :
  Claude.GetSession
    (Manager.claude (Manager.performCleanup manager_with_sessions sample_runtime)) "old" = None
  /\ is_Some (Claude.GetSession
       (Manager.claude (Manager.performCleanup manager_with_sessions sample_runtime)) "recent").
Proof.
  split.
  - destruct (performCleanup_evicts_exactly_idle manager_with_sessions sample_runtime "old")
      as (_ & _ & H & _); [reflexivity |].
    rewrite H. reflexivity.
  - destruct (performCleanup_evicts_exactly_idle manager_with_sessions sample_runtime "recent")
      as (_ & _ & H & _); [reflexivity |].
    rewrite H. by eexists.
Defined.

(** ** Sessions: deletion *)

(** X3: deleting a session twice answers 204 both times, and the
    second deletion changes nothing. *)
Theorem handleDeleteSession_idempotent (c : Claude.ClaudeMiddleware) (sessionID : string) :
  sessionID <> "" ->
  (Claude.handleDeleteSession c sessionID).1 = 204%Z
  /\ Claude.GetSession (Claude.handleDeleteSession c sessionID).2 sessionID = None
  /\ Claude.handleDeleteSession (Claude.handleDeleteSession c sessionID).2 sessionID
     = (204%Z, (Claude.handleDeleteSession c sessionID).2).
Proof.
  intros Hne. unfold Claude.handleDeleteSession, Claude.GetSession.
  rewrite bool_decide_eq_false_2 by done. cbn.
  split; [done |]. split; [by rewrite lookup_delete_eq |].
  unfold Claude.set_sessions. cbn. by rewrite delete_delete_eq.
Qed.

(** Deleting a stored session: 204, and a later lookup answers 404. *)
Lemma handleDeleteSession_idempotent_witness :
  (Claude.handleDeleteSession (Manager.claude manager_with_sessions) "old").1 = 204%Z
  /\ Claude.handleGetSession
       (Claude.handleDeleteSession (Manager.claude manager_with_sessions) "old").2 "old"
     = Http.StatusNotFound.
Proof.
  assert (Hne : "old" <> "") by discriminate.
  destruct (handleDeleteSession_idempotent (Manager.claude manager_with_sessions) "old" Hne)
    as (H204 & Hgone & _).
  split; [exact H204 |].
  unfold Claude.handleGetSession. rewrite bool_decide_eq_false_2 by done.
  unfold Claude.GetSession in Hgone. by rewrite Hgone.
Defined.

(** ** Forwarding with retry *)

Lemma calls_schedule_from (request : nat -> Claude.HttpRequest.t) (k n : nat) :
  Claude.calls (schedule_from request k n) = n.
Proof.
  revert k. induction n as [| n IH]; intros k; [done |].
  cbn. destruct n as [| n]; [done |]. cbn [Claude.calls]. by rewrite IH.
Qed.

Lemma attempts_pos (outcome : nat -> Claude.DoResult) (k budget : nat) :
  0 < budget -> 0 < attempts outcome k budget.
Proof.
  destruct budget; [lia |]. intros _. cbn. destruct (Claude.settled (outcome k)); lia.
Qed.

(** When no attempt is answered with a status below 500 the whole budget
    is used. *)
Lemma attempts_all_failed (outcome : nat -> Claude.DoResult) (k budget : nat) :
  (forall j, k <= j -> Claude.settled (outcome j) = false) ->
  attempts outcome k budget = budget.
Proof.
  revert k. induction budget as [| b IH]; intros k Hfail; [done |].
  cbn. rewrite Hfail by lia. f_equal. apply IH. intros j Hj. apply Hfail. lia.
Qed.

(** The loop, from any iteration on: with [fuel] iterations left before
    the bound [MaxRetries] is passed, it makes its calls with the request
    object as the calls before left it, sleeps between them, and ends
    with the outcome of its last call. *)
Lemma retry_loop_schedule (Do : Claude.Client) (MaxRetries : Z) (h0 : Claude.HttpRequest.t)
    (fuel k : nat) (last : option Claude.DoResult) (trace : list Claude.Event) :
  Claude.calls trace = k ->
  (Z.of_nat k + Z.of_nat fuel = MaxRetries + 1)%Z ->
  Claude.retry_loop Do MaxRetries fuel (Z.of_nat k) (request_at Do h0 k) last trace
  = (match fuel with
     | O => last
     | S _ => Some (outcome_at Do h0 (k + attempts (outcome_at Do h0) k fuel - 1))
     end,
     (rev (schedule_from (request_at Do h0) k (attempts (outcome_at Do h0) k fuel))
      ++ trace)%list).
Proof.
  revert k last trace. induction fuel as [| fuel IH]; intros k last trace Hcalls Hsum; [done |].
  cbn [Claude.retry_loop attempts].
  destruct (Z.leb_spec (Z.of_nat k) MaxRetries) as [_ | Hgt]; [| lia].
  rewrite Hcalls. fold (outcome_at Do h0 k).
  destruct (Claude.settled (outcome_at Do h0 k)) eqn:Hk.
  - cbn. by replace (k + 1 - 1) with k by lia.
  - destruct fuel as [| fuel].
    + destruct (Z.ltb_spec (Z.of_nat k) MaxRetries) as [Hlt | _]; [lia |].
      cbn. by replace (k + 1 - 1) with k by lia.
    + destruct (Z.ltb_spec (Z.of_nat k) MaxRetries) as [_ | Hge]; [| lia].
      replace (Z.of_nat k + 1)%Z with (Z.of_nat (S k)) by lia.
      change (Do k (request_at Do h0 k)).2 with (request_at Do h0 (S k)).
      rewrite IH; [| cbn; by rewrite Hcalls | lia].
      pose proof (attempts_pos (outcome_at Do h0) (S k) (S fuel)).
      replace (S k + attempts (outcome_at Do h0) (S k) (S fuel) - 1)
        with (k + S (attempts (outcome_at Do h0) (S k) (S fuel)) - 1) by lia.
      f_equal.
      cbn [schedule_from].
      destruct (attempts (outcome_at Do h0) (S k) (S fuel)) as [| n] eqn:Hn; [lia |].
      cbn [rev]. rewrite <- !app_assoc. cbn.
      replace (Z.of_nat (S k)) with (Z.of_nat k + 1)%Z by lia. done.
Qed.

(** More fuel than the bound allows changes nothing: the loop is the
    one the source writes. *)
Lemma retry_loop_fuel_enough (Do : Claude.Client) (MaxRetries : Z)
    (fuel extra : nat) (i : Z) (httpReq : Claude.HttpRequest.t)
    (last : option Claude.DoResult) (trace : list Claude.Event) :
  (MaxRetries + 1 - i <= Z.of_nat fuel)%Z ->
  Claude.retry_loop Do MaxRetries (fuel + extra) i httpReq last trace
  = Claude.retry_loop Do MaxRetries fuel i httpReq last trace.
Proof.
  revert i httpReq last trace. induction fuel as [| fuel IH]; intros i httpReq last trace Hle.
  - cbn. destruct extra as [| extra]; [done |]. cbn.
    destruct (Z.leb_spec i MaxRetries); [lia | done].
  - cbn. destruct (Z.leb_spec i MaxRetries); [| done].
    destruct (Claude.settled _); [done |]. apply IH. lia.
Qed.

(** [forwardToClaudeCode] once the payload is encoded and the request
    built, for a [max_retries] that is not negative: the result is
    computed from the outcome of the last call. *)
Lemma forwardToClaudeCode_unfold (decode : string -> option Claude.ClaudeResponse.t)
    (Marshal : Claude.Payload.t -> string + string) (ParseURL : string -> error)
    (c : Claude.ClaudeMiddleware) (rt : Runtime) (Do : Claude.Client)
    (session : Claude.ClaudeSession) (req : Claude.ClaudeRequest.t) (jsonData : string) :
  Marshal (payload_of session req) = inl jsonData ->
  ParseURL (Middleware.ClaudeConfig.APIEndpoint (Claude.config c)) = None ->
  (0 <= Middleware.ClaudeConfig.MaxRetries (Claude.config c))%Z ->
  let h0 := built_request (Middleware.ClaudeConfig.APIEndpoint (Claude.config c)) jsonData in
  let n := attempts (outcome_at Do h0) 0
             (Z.to_nat (Middleware.ClaudeConfig.MaxRetries (Claude.config c) + 1)) in
  Claude.forwardToClaudeCode decode Marshal ParseURL c rt Do session req
  = (Done (outcome_of decode rt (outcome_at Do h0 (n - 1))),
     (schedule_from (request_at Do h0) 0 n ++ closing (outcome_at Do h0 (n - 1)))%list).
Proof.
  intros Hmarshal Hurl Hmr h0 n. unfold Claude.forwardToClaudeCode.
  fold (payload_of session req). rewrite Hmarshal.
  unfold Claude.NewRequest. rewrite Hurl.
  set (mr := Middleware.ClaudeConfig.MaxRetries (Claude.config c)) in *.
  change (Claude.Header_Set _ "User-Agent" "AgentAPI/1.0") with (request_at Do h0 0).
  change 0%Z with (Z.of_nat 0).
  rewrite (retry_loop_schedule Do mr h0 (Z.to_nat (mr + 1)) 0 None []); [| done | lia].
  fold n. destruct (Z.to_nat (mr + 1)) as [| fuel] eqn:Hfuel; [lia |].
  rewrite app_nil_r. cbn [Nat.add].
  unfold outcome_of, closing, Http.StatusOK.
  destruct (outcome_at Do h0 (n - 1)) as [e | status body].
  - by rewrite rev_involutive, app_nil_r.
  - cbn [rev]. rewrite rev_involutive.
    f_equal. destruct (status =? 200)%Z; cbn; [| done]. by destruct (decode body).
Qed.

(** With a [max_retries] that is not negative [forwardToClaudeCode]
    returns, with a reply or an error. *)
Lemma forwardToClaudeCode_returns (decode : string -> option Claude.ClaudeResponse.t)
    (Marshal : Claude.Payload.t -> string + string) (ParseURL : string -> error)
    (c : Claude.ClaudeMiddleware) (rt : Runtime) (Do : Claude.Client)
    (session : Claude.ClaudeSession) (req : Claude.ClaudeRequest.t) :
  (0 <= Middleware.ClaudeConfig.MaxRetries (Claude.config c))%Z ->
  exists res, (Claude.forwardToClaudeCode decode Marshal ParseURL c rt Do session req).1 = Done res.
Proof.
  intros Hmr.
  destruct (Marshal (payload_of session req)) as [jsonData | e] eqn:Hmarshal.
  - destruct (ParseURL (Middleware.ClaudeConfig.APIEndpoint (Claude.config c)))
      as [e |] eqn:Hurl.
    + unfold Claude.forwardToClaudeCode. fold (payload_of session req).
      rewrite Hmarshal. unfold Claude.NewRequest. rewrite Hurl. by eexists.
    + rewrite (forwardToClaudeCode_unfold decode Marshal ParseURL c rt Do session req jsonData)
        by done.
      by eexists.
  - unfold Claude.forwardToClaudeCode. fold (payload_of session req).
    rewrite Hmarshal. by eexists.
Qed.

(** With a negative [max_retries] the loop body never runs: no call is
    made, [resp] and [err] are both nil, and the deferred
    [resp.Body.Close()] dereferences the nil response. *)
Lemma forwardToClaudeCode_negative_retries (decode : string -> option Claude.ClaudeResponse.t)
    (Marshal : Claude.Payload.t -> string + string) (ParseURL : string -> error)
    (c : Claude.ClaudeMiddleware) (rt : Runtime) (Do : Claude.Client)
    (session : Claude.ClaudeSession) (req : Claude.ClaudeRequest.t) (jsonData : string) :
  Marshal (payload_of session req) = inl jsonData ->
  ParseURL (Middleware.ClaudeConfig.APIEndpoint (Claude.config c)) = None ->
  (Middleware.ClaudeConfig.MaxRetries (Claude.config c) < 0)%Z ->
  Claude.forwardToClaudeCode decode Marshal ParseURL c rt Do session req
  = (Panicked NilPointerDereference, []).
Proof.
  intros Hmarshal Hurl Hneg. unfold Claude.forwardToClaudeCode.
  fold (payload_of session req). rewrite Hmarshal.
  unfold Claude.NewRequest. rewrite Hurl.
  replace (Z.to_nat (Middleware.ClaudeConfig.MaxRetries (Claude.config c) + 1)) with 0 by lia.
  reflexivity.
Qed.

(** Once the first call has consumed the body, the request object stays
    consumed, and every later call is refused by the client. *)
Lemma request_at_consumed (Do : Claude.Client) (h0 : Claude.HttpRequest.t)
    (r0 : Claude.DoResult) (refusal : Claude.HttpRequest.t -> string) :
  (0 < Claude.HttpRequest.ContentLength h0)%Z ->
  Do 0 h0 = (r0, consumed h0) ->
  (forall k h,
     Claude.HttpRequest.Body h = "" -> (0 < Claude.HttpRequest.ContentLength h)%Z ->
     Do k h = (Claude.TransportError (refusal h), h)) ->
  forall k,
    request_at Do h0 (S k) = consumed h0
    /\ outcome_at Do h0 (S k) = Claude.TransportError (refusal (consumed h0)).
Proof.
  intros Hlen Hfirst Hrefuse.
  assert (Hreq : forall k, request_at Do h0 (S k) = consumed h0).
  { induction k as [| k IH].
    - cbn. by rewrite Hfirst.
    - change (request_at Do h0 (S (S k))) with (Do (S k) (request_at Do h0 (S k))).2.
      rewrite IH, Hrefuse; done. }
  intros k. split; [apply Hreq |].
  unfold outcome_at. rewrite Hreq, Hrefuse; done.
Qed.

Lemma bodies_schedule_from (request : nat -> Claude.HttpRequest.t) (k n : nat) :
  bodies (schedule_from request k n)
  = map (fun j => Claude.HttpRequest.Body (request j)) (seq k n).
Proof.
  revert k. induction n as [| n IH]; intros k; [done |].
  cbn [schedule_from seq map bodies]. f_equal.
  destruct n as [| n]; [done |]. cbn [bodies]. apply IH.
Qed.

Lemma bodies_consumed (request : nat -> Claude.HttpRequest.t) (k n : nat) :
  (forall j, Claude.HttpRequest.Body (request (S j)) = "") ->
  map (fun j => Claude.HttpRequest.Body (request j)) (seq (S k) n) = replicate n "".
Proof.
  intros Hempty. revert k. induction n as [| n IH]; intros k; [done |].
  cbn [seq map replicate]. rewrite Hempty. f_equal. apply IH.
Qed.

(** C6: the loop hands the one request object it built to every
    [c.client.Do] and never rewinds its body. With a client that reads
    the body of the request it sends to its end, and that refuses a
    request declaring a length with no byte left, a first attempt that
    fails after the request was sent (a reply of status 500 or more, or
    an error) leaves nothing to send: the backend has received the
    payload once, each of the [max_retries] further attempts is made
    with an empty body and fails in the client, and the caller gets
    that failure, whatever the backend would have answered to a second
    request. *)
Theorem forwardToClaudeCode_resends_consumed_request
    (decode : string -> option Claude.ClaudeResponse.t)
    (Marshal : Claude.Payload.t -> string + string) (ParseURL : string -> error)
    (c : Claude.ClaudeMiddleware) (rt : Runtime) (Do : Claude.Client)
    (session : Claude.ClaudeSession) (req : Claude.ClaudeRequest.t) (jsonData : string)
    (r0 : Claude.DoResult) (refusal : Claude.HttpRequest.t -> string) :
  Marshal (payload_of session req) = inl jsonData ->
  (0 < Z.of_nat (String.length jsonData))%Z ->
  ParseURL (Middleware.ClaudeConfig.APIEndpoint (Claude.config c)) = None ->
  (1 <= Middleware.ClaudeConfig.MaxRetries (Claude.config c))%Z ->
  Do 0 (built_request (Middleware.ClaudeConfig.APIEndpoint (Claude.config c)) jsonData)
  = (r0, consumed (built_request (Middleware.ClaudeConfig.APIEndpoint (Claude.config c))
                     jsonData)) ->
  Claude.settled r0 = false ->
  (forall k h,
     Claude.HttpRequest.Body h = "" -> (0 < Claude.HttpRequest.ContentLength h)%Z ->
     Do k h = (Claude.TransportError (refusal h), h)) ->
  (Claude.forwardToClaudeCode decode Marshal ParseURL c rt Do session req).1
  = Done (inr ("failed to send request: "
               ++ refusal (consumed (built_request
                                       (Middleware.ClaudeConfig.APIEndpoint (Claude.config c))
                                       jsonData))))
  /\ Z.of_nat (Claude.calls
                 (Claude.forwardToClaudeCode decode Marshal ParseURL c rt Do session req).2)
     = (Middleware.ClaudeConfig.MaxRetries (Claude.config c) + 1)%Z
  /\ bodies (Claude.forwardToClaudeCode decode Marshal ParseURL c rt Do session req).2
     = jsonData :: replicate (Z.to_nat (Middleware.ClaudeConfig.MaxRetries (Claude.config c))) "".
Proof.
  intros Hmarshal Hlen Hurl Hmr Hfirst Hfailed Hrefuse.
  assert (Hmr0 : (0 <= Middleware.ClaudeConfig.MaxRetries (Claude.config c))%Z) by lia.
  rewrite (forwardToClaudeCode_unfold decode Marshal ParseURL c rt Do session req jsonData
             Hmarshal Hurl Hmr0).
  set (mr := Middleware.ClaudeConfig.MaxRetries (Claude.config c)) in *.
  set (h0 := built_request (Middleware.ClaudeConfig.APIEndpoint (Claude.config c)) jsonData)
    in *.
  pose proof (request_at_consumed Do h0 r0 refusal Hlen Hfirst Hrefuse) as Hlater.
  assert (Hzero : outcome_at Do h0 0 = r0) by (unfold outcome_at; cbn; by rewrite Hfirst).
  assert (Hall : forall j, 0 <= j -> Claude.settled (outcome_at Do h0 j) = false).
  { intros [| j] _; [by rewrite Hzero |]. by rewrite (proj2 (Hlater j)). }
  rewrite (attempts_all_failed _ 0 _ Hall).
  destruct (Z.to_nat (mr + 1)) as [| [| m]] eqn:Hfuel; [lia | lia |].
  replace (S (S m) - 1) with (S m) by lia.
  rewrite (proj2 (Hlater m)). cbn [fst snd closing outcome_of].
  rewrite app_nil_r. split; [done |]. split.
  - rewrite calls_schedule_from. lia.
  - rewrite bodies_schedule_from.
    change (seq 0 (S (S m))) with (0 :: seq 1 (S m)). cbn [map request_at].
    replace (Z.to_nat mr) with (S m) by lia.
    f_equal. apply bodies_consumed. intros j. by rewrite (proj1 (Hlater j)).
Qed.

(** Scenario S5 with the default [max_retries] of 3, behind such a
    client: the backend answers the first request with 502 and would
    answer the third with 200, but it receives one request only; the
    three retries are refused by the client and the caller gets the
    error of the client, not the third reply. *)
Lemma forwardToClaudeCode_resends_consumed_request_witness :
  (Claude.forwardToClaudeCode sample_decode sample_Marshal any_url default_claude
     sample_runtime (sending_client flaky_backend) (idle_session 0) sample_message_request).1
  = Done (inr ("failed to send request: "
               ++ short_body (consumed (built_request "http://localhost:8080/api/claude"
                                          "{s1:hello}"))))
  /\ bodies
       (Claude.forwardToClaudeCode sample_decode sample_Marshal any_url default_claude
          sample_runtime (sending_client flaky_backend) (idle_session 0)
          sample_message_request).2
     = ["{s1:hello}"; ""; ""; ""]
  /\ (Claude.forwardToClaudeCode sample_decode sample_Marshal any_url default_claude
        sample_runtime (sending_client flaky_backend) (idle_session 0)
        sample_message_request).2
     = [Claude.Called (built_request "http://localhost:8080/api/claude" "{s1:hello}");
        Claude.Slept 1000000000;
        Claude.Called (consumed (built_request "http://localhost:8080/api/claude"
                                   "{s1:hello}"));
        Claude.Slept 2000000000;
        Claude.Called (consumed (built_request "http://localhost:8080/api/claude"
                                   "{s1:hello}"));
        Claude.Slept 3000000000;
        Claude.Called (consumed (built_request "http://localhost:8080/api/claude"
                                   "{s1:hello}"))].
Proof.
  destruct (forwardToClaudeCode_resends_consumed_request sample_decode sample_Marshal any_url
              default_claude sample_runtime (sending_client flaky_backend) (idle_session 0)
              sample_message_request "{s1:hello}" (Claude.Reply 502 "bad gateway") short_body)
    as (Hresult & _ & Hbodies).
  - reflexivity.
  - vm_compute. reflexivity.
  - reflexivity.
  - vm_compute. discriminate.
  - vm_compute. reflexivity.
  - reflexivity.
  - intros k h Hbody Hlen. unfold sending_client.
    rewrite bool_decide_eq_true_2 by done.
    destruct (Z.ltb_spec 0 (Claude.HttpRequest.ContentLength h)); [done | lia].
  - split; [exact Hresult |]. split; [exact Hbodies |]. vm_compute. reflexivity.
Defined.

(** ** Request validation: JSON bodies *)

Lemma rune_count_le_length (s : string) : rune_count s <= String.length s.
Proof.
  induction s as [| c s IH]; cbn; [lia |].
  destruct (is_continuation c); lia.
Qed.

Lemma has_long_string_mono (f g : string -> nat) (limit : Z) (j : JSON) :
  (forall s, f s <= g s) ->
  has_long_string f limit j = true -> has_long_string g limit j = true.
Proof.
  intros Hfg. induction j as [| b | n | s | items IH | fields IH] using JSON_nested_ind;
    cbn; try done.
  - intros H. apply Z.ltb_lt in H. apply Z.ltb_lt. specialize (Hfg s). lia.
  - induction IH as [| x rest Hx _ IHrest]; [done |].
    intros H. apply orb_true_iff in H as [H | H]; apply orb_true_iff; auto.
  - induction IH as [| [k x] rest Hx _ IHrest]; [done |].
    intros H. apply orb_true_iff in H as [H | H]; apply orb_true_iff; auto.
Qed.

Lemma fails_iff_step (v : error) (e l ae al : bool) (P : Prop) :
  (is_Some v <-> e || l = true) ->
  (P <-> ae || al = true) ->
  (match v with Some _ => True | None => P end) <-> (e || ae) || (l || al) = true.
Proof.
  intros Hv HP. destruct v as [err |].
  - destruct Hv as [Hv _]. specialize (Hv (ltac:(by eexists))).
    apply orb_true_iff in Hv as [-> | ->]; cbn; [done |].
    by rewrite orb_true_r.
  - assert (e = false /\ l = false) as [-> ->].
    { destruct e, l; try done; destruct Hv as [_ Hv]; by destruct (Hv eq_refl) as [? [=]]. }
    cbn. exact HP.
Qed.

Lemma validateJSONStructure_fails_iff (j : JSON) :
  is_Some (Validation.validateJSONStructure j)
  <-> has_empty_key j || has_long_string String.length 10000 j = true.
Proof.
  induction j as [| b | n | s | items IH | fields IH] using JSON_nested_ind;
    cbn -[Z.of_nat].
  - split; [by intros [? [=]] | done].
  - split; [by intros [? [=]] | done].
  - split; [by intros [? [=]] | done].
  - destruct (10000 <? Z.of_nat (String.length s))%Z; split; try done;
      first [by eexists | by intros [? [=]]].
  - induction IH as [| x rest Hx _ IHrest].
    + split; [by intros [? [=]] | done].
    + rewrite <- (fails_iff_step _ _ _ _ _ _ Hx IHrest).
      by destruct (Validation.validateJSONStructure x).
  - induction IH as [| [k x] rest Hx _ IHrest].
    + split; [by intros [? [=]] | done].
    + cbn -[Z.of_nat] in Hx. case_bool_decide as Hk.
      * split; [done | by eexists].
      * cbn -[Z.of_nat]. rewrite <- (fails_iff_step _ _ _ _ _ _ Hx IHrest).
        by destruct (Validation.validateJSONStructure x).
Qed.

Lemma length_zero_iff (s : string) : (String.length s =? 0)%nat = true <-> s = "".
Proof. destruct s; cbn; split; done. Qed.

(** When [validateAndBufferJSON] accepts: the body was read, it is what
    is returned, and unless it is empty it parses and, in strict mode,
    passes [validateJSONStructure]. *)
Lemma validateAndBufferJSON_accepts (unmarshal : string -> option JSON)
    (v : Validation.ValidationMiddleware) (r : Http.Request) (buffered : string) :
  Validation.validateAndBufferJSON unmarshal v r = inl buffered
  <-> Http.Body r = inl buffered
      /\ (buffered = ""
          \/ exists j, unmarshal buffered = Some j
               /\ (Middleware.ValidationConfig.StrictMode (Validation.config v) = true ->
                   Validation.validateJSONStructure j = None)).
Proof.
  unfold Validation.validateAndBufferJSON.
  destruct (Http.Body r) as [body | e]; [| split; [done | by intros [[=] _]]].
  destruct (String.length body =? 0)%nat eqn:Hlen.
  { apply length_zero_iff in Hlen as ->. split.
    - intros [= <-]. split; [done | by left].
    - by intros [[= <-] _]. }
  assert (Hne : body <> "") by (intros ->; done).
  destruct (unmarshal body) as [j |] eqn:Hj.
  - destruct (Middleware.ValidationConfig.StrictMode (Validation.config v)).
    + destruct (Validation.validateJSONStructure j) as [err |] eqn:Hvj.
      * split; [done |]. intros [[= <-] [-> | (j' & Hj' & Hok)]]; [done |].
        rewrite Hj in Hj'. injection Hj' as <-. rewrite Hvj in Hok. by specialize (Hok eq_refl).
      * split.
        -- intros [= <-]. split; [done |]. right. exists j. by split.
        -- by intros [[= <-] _].
    + split.
      * intros [= <-]. split; [done |]. right. exists j. by split.
      * by intros [[= <-] _].
  - split; [done |]. intros [[= <-] [-> | (j' & Hj' & _)]]; [done |].
    by rewrite Hj in Hj'.
Qed.

(** Whatever the validator answers itself is a 400 VALIDATION_ERROR. *)
Lemma Handler_rejects_with_400 (unmarshal : string -> option JSON)
    (v : Validation.ValidationMiddleware) (rt : Runtime) (r : Http.Request) (w : Http.Written) :
  Validation.Handler unmarshal v rt r = inl w ->
  Http.StatusCode w = 400%Z /\ Errors.code_of w = "VALIDATION_ERROR".
Proof.
  unfold Validation.Handler.
  destruct (negb (Validation.enabled v)); [done |].
  destruct (Validation.validateRequestSize v r); [by intros [= <-] |].
  destruct (if Middleware.ValidationConfig.ValidateHeaders (Validation.config v)
            then Validation.validateHeaders v r else None); [by intros [= <-] |].
  destruct (if bool_decide (Http.Method r = "POST") || bool_decide (Http.Method r = "PUT")
            then Validation.validateContentType r else None); [by intros [= <-] |].
  destruct (Validation.hasJSONBody r); [| done].
  destruct (Validation.validateAndBufferJSON unmarshal v r); [done | by intros [= <-]].
Qed.

(** An enabled validator hands a request with a JSON body on only after
    [validateAndBufferJSON] accepted it, and then with the bytes it
    read. *)
Lemma Handler_passes_json (unmarshal : string -> option JSON)
    (v : Validation.ValidationMiddleware) (rt : Runtime) (r r' : Http.Request) :
  Validation.enabled v = true ->
  Validation.hasJSONBody r = true ->
  Validation.Handler unmarshal v rt r = inr r' ->
  exists buffered,
    Validation.validateAndBufferJSON unmarshal v r = inl buffered
    /\ Http.Body r' = inl buffered.
Proof.
  intros Hen Hjson. unfold Validation.Handler. rewrite Hen, Hjson. cbn [negb].
  destruct (Validation.validateRequestSize v r); [done |].
  destruct (if Middleware.ValidationConfig.ValidateHeaders (Validation.config v)
            then Validation.validateHeaders v r else None); [done |].
  destruct (if bool_decide (Http.Method r = "POST") || bool_decide (Http.Method r = "PUT")
            then Validation.validateContentType r else None); [done |].
  destruct (Validation.validateAndBufferJSON unmarshal v r) as [buffered | err]; [| done].
  intros [= <-]. by exists buffered.
Qed.

(** C9, as amended: for every request with a JSON content type and a
    positive declared Content-Length (what the enabled validator treats
    as carrying a JSON body), (1) a body that cannot be read, and a non-empty body that
    does not parse, are rejected; (2) in strict mode a body whose parsed
    value has an empty object key anywhere, or a string value of more
    than 10,000 characters anywhere, is rejected, for every way of
    counting characters that gives at most the number of bytes (the
    runes of [rune_count] among them); (3) every rejection is
    a 400 VALIDATION_ERROR; (4) a request that is handed on carries
    exactly the bytes that were read, and unless they are empty they
    parsed and, in strict mode, hold no empty key and no string of more
    than 10,000 bytes. *)
Theorem Handler_validates_and_buffers_json (unmarshal : string -> option JSON)
    (v : Validation.ValidationMiddleware) (rt : Runtime) (r : Http.Request) :
  Validation.enabled v = true ->
  Validation.hasJSONBody r = true ->
  (forall e, Http.Body r = inr e -> is_Some (answered (Validation.Handler unmarshal v rt r)))
  /\ (forall body,
        Http.Body r = inl body -> body <> "" -> unmarshal body = None ->
        is_Some (answered (Validation.Handler unmarshal v rt r)))
  /\ (forall (characters : string -> nat) body j,
        (forall s, characters s <= String.length s) ->
        Middleware.ValidationConfig.StrictMode (Validation.config v) = true ->
        Http.Body r = inl body -> body <> "" -> unmarshal body = Some j ->
        has_empty_key j = true \/ has_long_string characters 10000 j = true ->
        is_Some (answered (Validation.Handler unmarshal v rt r)))
  /\ (forall w,
        Validation.Handler unmarshal v rt r = inl w ->
        Http.StatusCode w = 400%Z /\ Errors.code_of w = "VALIDATION_ERROR")
  /\ (forall r',
        Validation.Handler unmarshal v rt r = inr r' ->
        exists body,
          Http.Body r = inl body /\ Http.Body r' = inl body
          /\ (body = ""
              \/ exists j, unmarshal body = Some j
                   /\ (Middleware.ValidationConfig.StrictMode (Validation.config v) = true ->
                       has_empty_key j = false
                       /\ has_long_string String.length 10000 j = false))).
Proof.
  intros Hen Hjson.
  assert (Hpass : forall r', Validation.Handler unmarshal v rt r = inr r' ->
            exists body, Http.Body r = inl body /\ Http.Body r' = inl body
              /\ (body = ""
                  \/ exists j, unmarshal body = Some j
                       /\ (Middleware.ValidationConfig.StrictMode (Validation.config v) = true ->
                           Validation.validateJSONStructure j = None))).
  { intros r' Hr'. destruct (Handler_passes_json _ _ _ _ _ Hen Hjson Hr') as (b & Hb & Hbody).
    apply validateAndBufferJSON_accepts in Hb as [Hread Hparsed]. by exists b. }
  assert (Hrej : forall (P : Prop),
            (forall r', Validation.Handler unmarshal v rt r = inr r' -> P -> False) -> P ->
            is_Some (answered (Validation.Handler unmarshal v rt r))).
  { intros P HP p. destruct (Validation.Handler unmarshal v rt r) as [w | r'] eqn:Hh.
    - by eexists.
    - destruct (HP r' eq_refl p). }
  split; [| split; [| split; [| split]]].
  - intros e He. apply (Hrej True); [| done]. intros r' Hr' _.
    destruct (Hpass r' Hr') as (b & Hb & _). by rewrite He in Hb.
  - intros body Hbody Hne Hnone. apply (Hrej True); [| done]. intros r' Hr' _.
    destruct (Hpass r' Hr') as (b & Hb & _ & [-> | (j & Hj & _)]).
    + rewrite Hbody in Hb. by injection Hb as ->.
    + rewrite Hbody in Hb. injection Hb as ->. by rewrite Hnone in Hj.
  - intros characters body j Hchars Hstrict Hbody Hne Hj Hbad.
    apply (Hrej True); [| done]. intros r' Hr' _.
    destruct (Hpass r' Hr') as (b & Hb & _ & [-> | (j' & Hj' & Hok)]).
    + rewrite Hbody in Hb. by injection Hb as ->.
    + rewrite Hbody in Hb. injection Hb as ->. rewrite Hj in Hj'. injection Hj' as <-.
      specialize (Hok Hstrict).
      assert (Hfail : is_Some (Validation.validateJSONStructure j)).
      { apply validateJSONStructure_fails_iff. apply orb_true_iff.
        destruct Hbad as [Hk | Hl]; [by left | right].
        by apply (has_long_string_mono characters). }
      rewrite Hok in Hfail. by destruct Hfail as [? [=]].
  - intros w. apply Handler_rejects_with_400.
  - intros r' Hr'. destruct (Hpass r' Hr') as (b & Hb & Hb' & Hparsed).
    exists b. split; [done |]. split; [done |].
    destruct Hparsed as [-> | (j & Hj & Hok)]; [by left | right].
    exists j. split; [done |]. intros Hstrict. specialize (Hok Hstrict).
    destruct (has_empty_key j || has_long_string String.length 10000 j) eqn:Hb2.
    + apply validateJSONStructure_fails_iff in Hb2. rewrite Hok in Hb2.
      by destruct Hb2 as [? [=]].
    + by apply orb_false_iff in Hb2.
Qed.

(** In strict mode an object with an empty key is rejected and an array
    of numbers is handed on with its bytes. *)
Lemma Handler_validates_and_buffers_json_witness :
  is_Some (answered (Validation.Handler sample_unmarshal strict_validator sample_runtime
                      (json_post empty_key_body)))
  /\ (exists r',
        Validation.Handler sample_unmarshal strict_validator sample_runtime (json_post "[1]")
        = inr r' /\ Http.Body r' = inl "[1]").
Proof.
  split.
  - destruct (Handler_validates_and_buffers_json sample_unmarshal strict_validator
                sample_runtime (json_post empty_key_body) eq_refl eq_refl)
      as (_ & _ & Hstrict & _).
    apply (Hstrict rune_count empty_key_body (JObject [("", JNumber 1)]));
      [apply rune_count_le_length | reflexivity | reflexivity | discriminate
      | reflexivity | by left].
  - eexists. split; reflexivity.
Defined.

(** C9, as stated, fails: in strict mode a JSON payload with an empty
    object key that arrives without a declared length is neither read
    nor parsed, and is handed on. *)
Lemma Handler_skips_undeclared_length :
  Middleware.ValidationConfig.StrictMode (Validation.config strict_validator) = true
  /\ Http.Get (chunked_json_post empty_key_body) "Content-Type" = "application/json"
  /\ Http.Body (chunked_json_post empty_key_body) = inl empty_key_body
  /\ (has_empty_key <$> sample_unmarshal empty_key_body) = Some true
  /\ answered (Validation.Handler sample_unmarshal strict_validator sample_runtime
                 (chunked_json_post empty_key_body)) = None
  /\ (Http.Body <$> forwarded
        (Validation.Handler sample_unmarshal strict_validator sample_runtime
           (chunked_json_post empty_key_body))) = Some (inl empty_key_body).
Proof. repeat split; vm_compute; reflexivity. Qed.

(** ** Authentication *)

(** What [jwt.Parse] has established of a token it returns. *)
Lemma Parse_valid (decode : string -> option Jwt.Token) (now : Z) (tokenString : string)
    (keyFunc : Jwt.Token -> string + string) (token : Jwt.Token) :
  Jwt.Parse decode now tokenString keyFunc = inl token ->
  decode tokenString = Some token
  /\ keyFunc token = inl (Jwt.SignedWith token)
  /\ (forall cv, Jwt.Claims token !! "exp" = Some cv ->
        exists exp, cv = Jwt.CNumber exp /\ (now < exp * Middleware.second)%Z)
  /\ (forall cv, Jwt.Claims token !! "nbf" = Some cv ->
        exists nbf, cv = Jwt.CNumber nbf /\ (nbf * Middleware.second <= now)%Z).
Proof.
  unfold Jwt.Parse.
  destruct (decode tokenString) as [t |]; [| done].
  destruct (keyFunc t) as [key | e] eqn:Hkey; [| done].
  case_bool_decide as Hsig; [| done].
  destruct (Jwt.validate_claims now (Jwt.Claims t)) as [e |] eqn:Hclaims; [done |].
  intros [= <-]. split; [done |]. split; [by rewrite Hsig |].
  unfold Jwt.validate_claims, Jwt.numeric_date in Hclaims.
  split.
  - intros cv Hcv. rewrite Hcv in Hclaims. destruct cv as [s | exp |]; try done.
    exists exp. split; [done |].
    destruct (Z.ltb_spec now (exp * Middleware.second)); [done |]. done.
  - intros cv Hcv. rewrite Hcv in Hclaims.
    destruct (Jwt.Claims t !! "exp") as [[s | exp |] |]; try done.
    + destruct (now <? exp * Middleware.second)%Z; [| done].
      destruct cv as [s | nbf |]; try done. exists nbf. split; [done |].
      destruct (Z.ltb_spec now (nbf * Middleware.second)); [done | lia].
    + destruct cv as [s | nbf |]; try done. exists nbf. split; [done |].
      destruct (Z.ltb_spec now (nbf * Middleware.second)); [done | lia].
Qed.

(** What [validateJWT] has established of a token it accepts. *)
Lemma validateJWT_accepts (decode : string -> option Jwt.Token) (a : Auth.AuthMiddleware)
    (rt : Runtime) (tokenString userID : string) :
  Auth.validateJWT decode a rt tokenString = inl userID ->
  exists token,
    decode tokenString = Some token
    /\ Jwt.is_HMAC (Jwt.Method token) = true
    /\ Jwt.SignedWith token = Auth.jwtKey a
    /\ Jwt.Claims token !! "user_id" = Some (Jwt.CString userID)
    /\ (forall cv, Jwt.Claims token !! "exp" = Some cv ->
          exists exp, cv = Jwt.CNumber exp /\ (now rt < exp * Middleware.second)%Z).
Proof.
  unfold Auth.validateJWT.
  destruct (Jwt.Parse decode (now rt) tokenString (Auth.keyFunc a)) as [token | e] eqn:Hparse;
    [| done].
  apply Parse_valid in Hparse as (Hdec & Hkey & Hexp & _).
  destruct (Jwt.Claims token !! "user_id") as [[u | |] |] eqn:Hu; try done.
  intros [= <-]. exists token. unfold Auth.keyFunc in Hkey.
  destruct (Jwt.is_HMAC (Jwt.Method token)); [| done].
  injection Hkey as Hkey. by repeat split.
Qed.

(** Whatever the authenticator answers itself is a 401 UNAUTHORIZED. *)
Lemma Handler_rejects_with_401 (decode : string -> option Jwt.Token) (a : Auth.AuthMiddleware)
    (rt : Runtime) (r : Http.Request) (w : Http.Written) :
  Auth.Handler decode a rt r = inl w ->
  Http.StatusCode w = 401%Z /\ Errors.code_of w = "UNAUTHORIZED".
Proof.
  unfold Auth.Handler. destruct (negb (Auth.enabled a)); [done |].
  destruct (Auth.extractToken a r); [| by intros [= <-]].
  destruct (Auth.validateToken decode a rt s); [done | by intros [= <-]].
Qed.

(** C5, as amended: an enabled authenticator hands a request on only
    with a credential it accepted. Under bearer mode that is a token from
    the Authorization header that decodes, is signed with an HMAC method
    under the configured secret, carries a string [user_id] claim (the
    principal bound to the request) and, when it carries an [exp] claim,
    one that lies in the future; [iss] and [iat] are not examined and
    [exp] may be absent. Under api_key mode a key that is not in the
    registry is always rejected. Every rejection is a 401 UNAUTHORIZED. *)
Theorem Handler_accepts_only_verified (decode : string -> option Jwt.Token)
    (a : Auth.AuthMiddleware) (rt : Runtime) (r : Http.Request) :
  Auth.enabled a = true ->
  (forall r',
     Middleware.AuthConfig.Type_ (Auth.config a) = "bearer" ->
     Auth.Handler decode a rt r = inr r' ->
     exists tokenString token userID,
       Auth.extractToken a r = inl tokenString
       /\ decode tokenString = Some token
       /\ Jwt.is_HMAC (Jwt.Method token) = true
       /\ Jwt.SignedWith token = Auth.jwtKey a
       /\ Jwt.Claims token !! "user_id" = Some (Jwt.CString userID)
       /\ (forall cv, Jwt.Claims token !! "exp" = Some cv ->
             exists exp, cv = Jwt.CNumber exp /\ (now rt < exp * Middleware.second)%Z)
       /\ (Middleware.UserID <$> Http.Context r') = Some userID)
  /\ (forall key,
        Middleware.AuthConfig.Type_ (Auth.config a) = "api_key" ->
        Auth.extractToken a r = inl key ->
        Auth.apiKeys a !! key = None ->
        is_Some (answered (Auth.Handler decode a rt r)))
  /\ (forall w,
        Auth.Handler decode a rt r = inl w ->
        Http.StatusCode w = 401%Z /\ Errors.code_of w = "UNAUTHORIZED").
Proof.
  intros Hen. split; [| split].
  - intros r' Hbearer. unfold Auth.Handler. rewrite Hen. cbn [negb].
    destruct (Auth.extractToken a r) as [tokenString | e] eqn:Hext; [| done].
    unfold Auth.validateToken. rewrite Hbearer. cbn.
    destruct (Auth.validateJWT decode a rt tokenString) as [userID | e] eqn:Hjwt; [| done].
    intros [= <-].
    apply validateJWT_accepts in Hjwt as (token & Hdec & Hhmac & Hsig & Huser & Hexp).
    exists tokenString, token, userID. by repeat split.
  - intros key Hmode Hext Hmiss. unfold Auth.Handler. rewrite Hen, Hext. cbn [negb].
    unfold Auth.validateToken, Auth.validateAPIKey. rewrite Hmode, Hmiss. cbn. by eexists.
  - intros w. apply Handler_rejects_with_401.
Qed.

(** Under api_key mode an unknown key is rejected and a registered one binds its principal. *)
Lemma Handler_accepts_only_verified_witness :
  Auth.enabled api_key_auth = true
  /\ is_Some (answered (Auth.Handler sample_token_decode api_key_auth sample_runtime
                          (api_key_request "ffff0000")))
  /\ (Http.Context <$> forwarded
        (Auth.Handler sample_token_decode api_key_auth sample_runtime
           (api_key_request "0123abcd")))
     = Some (Some {| Middleware.RequestID := fresh_id sample_runtime;
                     Middleware.UserID := "alice"; Middleware.AgentID := "" |}).
Proof.
  split; [reflexivity |]. split.
  - destruct (Handler_accepts_only_verified sample_token_decode api_key_auth sample_runtime
                (api_key_request "ffff0000") eq_refl) as (_ & Hkey & _).
    apply (Hkey "ffff0000"); reflexivity.
  - reflexivity.
Defined.

(** C5, as stated, fails: under bearer mode with issuer "agentapi", a
    token that carries neither [iss] nor [exp] nor [iat], and a token of
    another issuer, are both accepted. *)
Lemma Handler_accepts_without_iss_exp_iat :
  Middleware.AuthConfig.Type_ (Auth.config default_auth) = "bearer"
  /\ Middleware.AuthConfig.Issuer (Auth.config default_auth) = "agentapi"
  /\ Jwt.Claims bare_token !! "iss" = None
  /\ Jwt.Claims bare_token !! "exp" = None
  /\ Jwt.Claims bare_token !! "iat" = None
  /\ Auth.validateJWT sample_token_decode default_auth sample_runtime "bare" = inl "mallory"
  /\ answered (Auth.Handler sample_token_decode default_auth sample_runtime
                 (bearer_request "bare")) = None
  /\ Jwt.Claims foreign_token !! "iss" = Some (Jwt.CString "someone-else")
  /\ Auth.validateJWT sample_token_decode default_auth sample_runtime "foreign" = inl "mallory"
  /\ answered (Auth.Handler sample_token_decode default_auth sample_runtime
                 (bearer_request "foreign")) = None.
Proof. repeat split; vm_compute; reflexivity. Qed.

(** ** The hub: filtering and delivery *)

Lemma shouldReceiveMessage_iff (client : Sync.Client) (message : Sync.SyncMessage) :
  Sync.shouldReceiveMessage client message = true
  <-> (Sync.SyncMessage.UserID message = "" /\ Sync.SyncMessage.AgentID message = "")
      \/ (Sync.SyncMessage.UserID message <> ""
          /\ Sync.Client.UserID client = Sync.SyncMessage.UserID message)
      \/ (Sync.SyncMessage.AgentID message <> ""
          /\ Sync.Client.AgentID client = Sync.SyncMessage.AgentID message).
Proof.
  unfold Sync.shouldReceiveMessage.
  repeat case_bool_decide; cbn; split; try done; try tauto; try (intros _; tauto).
Qed.

Lemma every_target_matches_selected (client : Sync.Client) (message : Sync.SyncMessage) :
  every_target_matches client message = true ->
  Sync.shouldReceiveMessage client message = true.
Proof.
  unfold every_target_matches, Sync.shouldReceiveMessage.
  repeat case_bool_decide; cbn; done.
Qed.

Lemma one_target_agrees (client : Sync.Client) (message : Sync.SyncMessage) :
  Sync.SyncMessage.UserID message = "" \/ Sync.SyncMessage.AgentID message = "" ->
  Sync.shouldReceiveMessage client message = every_target_matches client message.
Proof.
  unfold every_target_matches, Sync.shouldReceiveMessage.
  intros [H | H]; rewrite H; repeat case_bool_decide; cbn; try done; congruence.
Qed.

(** The loop of [broadcastMessage] over the entries [visited], started
    in [s0]: it does not panic, every visited client is left as
    [delivered] says, the dropped ones are no longer registered, and
    nothing else changes. *)
Lemma broadcast_fold (message : Sync.SyncMessage) (s0 : Sync.SyncMiddleware)
    (visited : gmap string Sync.loc) :
  (forall id p, visited !! id = Some p -> entry_ok s0 id p) ->
  exists s',
    map_fold (Sync.broadcast_step message) (Done s0) visited = Done s'
    /\ Sync.config s' = Sync.config s0
    /\ Sync.enabled s' = Sync.enabled s0
    /\ Sync.broadcast s' = Sync.broadcast s0
    /\ (forall p,
          Sync.heap s' !! p
          = match Sync.heap s0 !! p with
            | Some client =>
                if bool_decide (visited !! Sync.Client.ID client = Some p)
                then Some (delivered message client) else Some client
            | None => None
            end)
    /\ (forall id,
          Sync.clients s' !! id
          = match visited !! id with
            | Some p =>
                match Sync.heap s0 !! p with
                | Some client =>
                    if dropped message client then None else Sync.clients s0 !! id
                | None => Sync.clients s0 !! id
                end
            | None => Sync.clients s0 !! id
            end).
Proof.
  revert visited.
  apply (map_fold_weak_ind
    (fun r vis =>
       (forall id p, vis !! id = Some p -> entry_ok s0 id p) ->
       exists s',
         r = Done s'
         /\ Sync.config s' = Sync.config s0
         /\ Sync.enabled s' = Sync.enabled s0
         /\ Sync.broadcast s' = Sync.broadcast s0
         /\ (forall p,
               Sync.heap s' !! p
               = match Sync.heap s0 !! p with
                 | Some client =>
                     if bool_decide (vis !! Sync.Client.ID client = Some p)
                     then Some (delivered message client) else Some client
                 | None => None
                 end)
         /\ (forall id,
               Sync.clients s' !! id
               = match vis !! id with
                 | Some p =>
                     match Sync.heap s0 !! p with
                     | Some client =>
                         if dropped message client then None else Sync.clients s0 !! id
                     | None => Sync.clients s0 !! id
                     end
                 | None => Sync.clients s0 !! id
                 end))).
  - intros _. exists s0. repeat split; try done.
    intros p. destruct (Sync.heap s0 !! p) as [client |]; [| done].
    rewrite lookup_empty. by case_bool_decide.
  - intros i x m r Hfresh IH Hok.
    destruct IH as (s' & -> & Hcfg & Hen & Hbc & Hheap & Hreg).
    { intros id p Hidp. apply Hok. rewrite lookup_insert_ne; [done |].
      by intros ->; rewrite Hfresh in Hidp. }
    destruct (Hok i x) as (client & Hclient & Hid & Hopen); [by rewrite lookup_insert_eq |].
    assert (Hcur : Sync.heap s' !! x = Some client).
    { rewrite Hheap, Hclient, Hid, Hfresh. by case_bool_decide. }
    assert (Hother : forall p, p <> x ->
              Sync.heap s' !! p
              = match Sync.heap s0 !! p with
                | Some client0 =>
                    if bool_decide (<[i:=x]> m !! Sync.Client.ID client0 = Some p)
                    then Some (delivered message client0) else Some client0
                | None => None
                end).
    { intros p Hp. rewrite Hheap. destruct (Sync.heap s0 !! p) as [c0 |]; [| done].
      destruct (decide (Sync.Client.ID c0 = i)) as [-> | Hne].
      - rewrite lookup_insert_eq, Hfresh. repeat case_bool_decide; congruence.
      - by rewrite lookup_insert_ne. }
    assert (Hregother : forall id, id <> i ->
              Sync.clients s' !! id
              = match <[i:=x]> m !! id with
                | Some p =>
                    match Sync.heap s0 !! p with
                    | Some client0 =>
                        if dropped message client0 then None else Sync.clients s0 !! id
                    | None => Sync.clients s0 !! id
                    end
                | None => Sync.clients s0 !! id
                end).
    { intros id Hne. rewrite Hreg. by rewrite lookup_insert_ne. }
    cbn. unfold Sync.deref. rewrite Hcur. cbn.
    unfold delivered, dropped in *.
    destruct (Sync.shouldReceiveMessage client message) eqn:Hsel.
    + unfold Sync.send_or_drop, Sync.try_send, Sync.close_chan. rewrite Hopen.
      destruct (decide (length (Sync.buf (Sync.Client.Send client))
                        < Sync.cap (Sync.Client.Send client))) as [Hroom | Hfull].
      * eexists. split; [reflexivity |]. cbn. repeat split; try done.
        -- intros p. destruct (decide (p = x)) as [-> | Hp].
           ++ rewrite lookup_insert_eq, Hclient, Hid, lookup_insert_eq.
              rewrite bool_decide_eq_true_2 by done. rewrite Hsel.
              by destruct (decide _).
           ++ rewrite lookup_insert_ne by done. by apply Hother.
        -- intros id. destruct (decide (id = i)) as [-> | Hne].
           ++ rewrite Hreg, Hfresh, lookup_insert_eq, Hclient, Hsel.
              by rewrite bool_decide_eq_true_2.
           ++ by apply Hregother.
      * cbn. eexists. split; [reflexivity |]. cbn. repeat split; try done.
        -- intros p. destruct (decide (p = x)) as [-> | Hp].
           ++ rewrite lookup_insert_eq, Hclient, Hid, lookup_insert_eq.
              rewrite bool_decide_eq_true_2 by done. rewrite Hsel.
              by destruct (decide _).
           ++ rewrite lookup_insert_ne by done. by apply Hother.
        -- intros id. rewrite Hid. destruct (decide (id = i)) as [-> | Hne].
           ++ rewrite lookup_delete_eq, lookup_insert_eq, Hclient, Hsel.
              by rewrite bool_decide_eq_false_2.
           ++ rewrite lookup_delete_ne by done. by apply Hregother.
    + exists s'. repeat split; try done.
      * intros p. destruct (decide (p = x)) as [-> | Hp].
        -- rewrite Hcur, Hclient, Hid, lookup_insert_eq.
           rewrite bool_decide_eq_true_2 by done. by rewrite Hsel.
        -- by apply Hother.
      * intros id. destruct (decide (id = i)) as [-> | Hne].
        -- by rewrite Hreg, Hfresh, lookup_insert_eq, Hclient, Hsel.
        -- by apply Hregother.
Qed.

(** [broadcastMessage] on a sound registry, client by client. *)
Lemma broadcastMessage_spec (s : Sync.SyncMiddleware) (message : Sync.SyncMessage) :
  registry_ok s ->
  exists s',
    Sync.broadcastMessage s message = Done s'
    /\ forall id p client,
         Sync.clients s !! id = Some p ->
         Sync.heap s !! p = Some client ->
         Sync.heap s' !! p = Some (delivered message client)
         /\ Sync.clients s' !! id = (if dropped message client then None else Some p).
Proof.
  intros Hok. unfold Sync.broadcastMessage.
  destruct (broadcast_fold message s (Sync.clients s) Hok)
    as (s' & Hrun & _ & _ & _ & Hheap & Hreg).
  exists s'. split; [done |].
  intros id p client Hidp Hclient.
  destruct (Hok id p Hidp) as (client' & Hclient' & Hid & _).
  rewrite Hclient in Hclient'. injection Hclient' as <-.
  split.
  - rewrite Hheap, Hclient, Hid, Hidp. by rewrite bool_decide_eq_true_2.
  - rewrite Hreg, Hidp, Hclient. by destruct (dropped message client).
Qed.

Lemma hub_with_A_and_B_clients :
  Sync.clients hub_with_A_and_B = {[ "client_A" := 1; "client_B" := 2 ]}.
Proof. vm_compute. reflexivity. Qed.

Lemma hub_with_A_and_B_ok : registry_ok hub_with_A_and_B.
Proof.
  intros id p. rewrite hub_with_A_and_B_clients.
  intros H. apply lookup_insert_Some in H as [[<- <-] | [_ H]].
  - eexists. split; [vm_compute; reflexivity |]. split; reflexivity.
  - apply lookup_singleton_Some in H as [<- <-].
    eexists. split; [vm_compute; reflexivity |]. split; reflexivity.
Qed.

(** C1, as amended: on a registry whose entries point to clients with
    open queues, a broadcast does not panic and treats every registered
    connection by the filter: a message with both targets empty selects
    every connection; otherwise a connection is selected if and only if
    at least one non-empty target equals its corresponding field, so a
    message whose only target is the subject S selects exactly the
    connections whose subject is S. A connection that is not selected is
    left untouched; a selected one gets the message at the end of its
    queue, or, when its queue is full, is closed and unregistered. *)
Theorem broadcastMessage_filters (s : Sync.SyncMiddleware) (message : Sync.SyncMessage) :
  registry_ok s ->
  exists s',
    Sync.broadcastMessage s message = Done s'
    /\ forall id p client,
         Sync.clients s !! id = Some p ->
         Sync.heap s !! p = Some client ->
         (Sync.SyncMessage.UserID message = "" -> Sync.SyncMessage.AgentID message = "" ->
          Sync.shouldReceiveMessage client message = true)
         /\ (Sync.shouldReceiveMessage client message = true
             <-> (Sync.SyncMessage.UserID message = "" /\ Sync.SyncMessage.AgentID message = "")
                 \/ (Sync.SyncMessage.UserID message <> ""
                     /\ Sync.Client.UserID client = Sync.SyncMessage.UserID message)
                 \/ (Sync.SyncMessage.AgentID message <> ""
                     /\ Sync.Client.AgentID client = Sync.SyncMessage.AgentID message))
         /\ (Sync.SyncMessage.UserID message = "" -> Sync.SyncMessage.AgentID message <> "" ->
             (Sync.shouldReceiveMessage client message = true
              <-> Sync.Client.AgentID client = Sync.SyncMessage.AgentID message))
         /\ (Sync.shouldReceiveMessage client message = false ->
             Sync.heap s' !! p = Some client /\ Sync.clients s' !! id = Some p)
         /\ (Sync.shouldReceiveMessage client message = true ->
             length (Sync.buf (Sync.Client.Send client)) < Sync.cap (Sync.Client.Send client) ->
             Sync.heap s' !! p
             = Some (Sync.with_Send client
                       {| Sync.buf := Sync.buf (Sync.Client.Send client) ++ [message];
                          Sync.cap := Sync.cap (Sync.Client.Send client);
                          Sync.closed := false |})
             /\ Sync.clients s' !! id = Some p)
         /\ (Sync.shouldReceiveMessage client message = true ->
             Sync.cap (Sync.Client.Send client) <= length (Sync.buf (Sync.Client.Send client)) ->
             Sync.heap s' !! p
             = Some (Sync.with_Send client
                       {| Sync.buf := Sync.buf (Sync.Client.Send client);
                          Sync.cap := Sync.cap (Sync.Client.Send client);
                          Sync.closed := true |})
             /\ Sync.clients s' !! id = None).
Proof.
  intros Hok. destruct (broadcastMessage_spec s message Hok) as (s' & Hrun & Hspec).
  exists s'. split; [done |].
  intros id p client Hidp Hclient.
  destruct (Hspec id p client Hidp Hclient) as [Hheap Hreg].
  unfold delivered in Hheap. unfold dropped in Hreg.
  split; [| split; [| split; [| split; [| split]]]].
  - intros Hu Ha. apply shouldReceiveMessage_iff. by left.
  - apply shouldReceiveMessage_iff.
  - intros Hu Ha. rewrite shouldReceiveMessage_iff. split.
    + intros [[_ H] | [[H _] | [_ H]]]; done.
    + intros H. right. right. done.
  - intros Hsel. rewrite Hsel in Hheap, Hreg. done.
  - intros Hsel Hroom. rewrite Hsel in Hheap, Hreg.
    destruct (decide _) as [_ | Hn] in Hheap; [| lia].
    rewrite bool_decide_eq_true_2 in Hreg by done. done.
  - intros Hsel Hfull. rewrite Hsel in Hheap, Hreg.
    destruct (decide _) as [Hn | _] in Hheap; [lia |].
    rewrite bool_decide_eq_false_2 in Hreg by lia. done.
Qed.

(** Scenario S3: A, subscribed to x, gets the status of x; B, subscribed
    to y, gets nothing. *)
Lemma broadcastMessage_filters_witness :
  exists s',
    Sync.broadcastMessage hub_with_A_and_B status_of_x = Done s'
    /\ pending_of_kind s' 1 "agent_status" = 1
    /\ pending_of_kind s' 2 "agent_status" = 0
    /\ Sync.GetClientCount s' = 2.
Proof.
  destruct (broadcastMessage_filters hub_with_A_and_B status_of_x hub_with_A_and_B_ok)
    as (s' & Hrun & Hspec).
  exists s'. split; [exact Hrun |].
  assert (Hs' : s' = run_result hub_with_A_and_B
                       (Sync.broadcastMessage hub_with_A_and_B status_of_x))
    by (by rewrite Hrun).
  rewrite Hs'. vm_compute. repeat split; reflexivity.
Defined.

(** C1, as stated, fails: a message targeted at principal u1 and subject
    a1 is delivered to a connection of principal u1 whose subject is a2,
    although its non-empty subject target does not match. *)
Lemma shouldReceiveMessage_any_target :
  every_target_matches client_u1_a2 message_u1_a1 = false
  /\ Sync.shouldReceiveMessage client_u1_a2 message_u1_a1 = true
  /\ (Sync.buf <$> (Sync.Client.Send <$>
        (Sync.heap (run_result hub_with_u1_a2
                      (Sync.broadcastMessage hub_with_u1_a2 message_u1_a1)) !! 1)))
     = Some [message_u1_a1].
Proof. repeat split; vm_compute; reflexivity. Qed.

(** Scenario S3 through the public API: [BroadcastAgentStatus] followed
    by the hub taking the message is the broadcast of [status_of_x]. *)
Lemma BroadcastAgentStatus_is_broadcast :
  Sync.runHub_broadcast
    (Sync.BroadcastAgentStatus (runtime_at 5 "") hub_with_A_and_B "x" "running" "ok")
  = Sync.broadcastMessage hub_with_A_and_B status_of_x.
Proof. vm_compute. reflexivity. Qed.

(** ** The hub: the registry invariant *)

Lemma registry_ok_pointer (s : Sync.SyncMiddleware) (id : string) (p : Sync.loc)
    (client : Sync.Client) :
  registry_ok s ->
  Sync.clients s !! id = Some p ->
  Sync.heap s !! p = Some client ->
  Sync.Client.ID client = id /\ Sync.closed (Sync.Client.Send client) = false.
Proof.
  intros Hok Hid Hp. destruct (Hok id p Hid) as (c & Hc & Hcid & Hopen).
  rewrite Hp in Hc. by injection Hc as <-.
Qed.

Ltac hub_fields :=
  cbn [Sync.heap Sync.clients Sync.config Sync.enabled Sync.broadcast
       Sync.set_client Sync.set_clients Sync.push_broadcast] in *.

(** An empty hub satisfies the invariant. *)
Lemma NewSyncMiddleware_ok (c : Middleware.SyncConfig.t) :
  registry_ok (Sync.NewSyncMiddleware c).
Proof. intros id p H. cbn in H. by rewrite lookup_empty in H. Qed.

(** Registering a client whose queue is open keeps the invariant, be
    the welcome message enqueued or the client dropped at once. *)
Lemma registerClient_ok (t : Z) (s : Sync.SyncMiddleware) (p : Sync.loc)
    (client : Sync.Client) :
  registry_ok s ->
  Sync.heap s !! p = Some client ->
  Sync.closed (Sync.Client.Send client) = false ->
  exists s', Sync.registerClient t s p = Done s' /\ registry_ok s'.
Proof.
  intros Hok Hp Hopen. unfold Sync.registerClient, Sync.deref. rewrite Hp. cbn.
  unfold Sync.send_or_drop, Sync.try_send, Sync.close_chan. rewrite Hopen.
  assert (Hothers : forall id q, Sync.clients s !! id = Some q -> id <> Sync.Client.ID client ->
            q <> p).
  { intros id q Hid Hne ->. destruct (registry_ok_pointer s id p client Hok Hid Hp). done. }
  destruct (decide _) as [Hroom | Hfull]; cbn.
  - eexists. split; [reflexivity |]. intros id q. cbn.
    destruct (decide (id = Sync.Client.ID client)) as [-> | Hne].
    + rewrite lookup_insert_eq. intros [= <-]. eexists. hub_fields.
      rewrite lookup_insert_eq. by repeat split.
    + rewrite lookup_insert_ne by done. intros Hid.
      destruct (Hok id q Hid) as (c & Hc & Hcid & Hcopen).
      exists c. hub_fields. rewrite lookup_insert_ne; [done |]. intros <-. by eapply Hothers.
  - eexists. split; [reflexivity |]. intros id q. cbn.
    destruct (decide (id = Sync.Client.ID client)) as [-> | Hne].
    + rewrite lookup_delete_eq. done.
    + rewrite lookup_delete_ne, lookup_insert_ne by done. intros Hid.
      destruct (Hok id q Hid) as (c & Hc & Hcid & Hcopen).
      exists c. hub_fields. rewrite lookup_insert_ne; [done |]. intros <-. by eapply Hothers.
Qed.

(** Unregistering a client keeps the invariant and closes its queue at
    most once: a client that is no longer registered is left alone. *)
Lemma unregisterClient_ok (s : Sync.SyncMiddleware) (p : Sync.loc) (client : Sync.Client) :
  registry_ok s ->
  Sync.heap s !! p = Some client ->
  Sync.clients s !! Sync.Client.ID client = Some p
  \/ Sync.clients s !! Sync.Client.ID client = None ->
  exists s',
    Sync.unregisterClient s p = Done s'
    /\ registry_ok s'
    /\ Sync.clients s' !! Sync.Client.ID client = None.
Proof.
  intros Hok Hp Hreg. unfold Sync.unregisterClient, Sync.deref. rewrite Hp. cbn.
  destruct Hreg as [Hreg | Hreg]; rewrite Hreg.
  - destruct (registry_ok_pointer s _ p client Hok Hreg Hp) as [_ Hopen].
    unfold Sync.close_chan. rewrite Hopen. cbn.
    eexists. split; [reflexivity |]. split; [| cbn; by rewrite lookup_delete_eq].
    intros id q. cbn.
    destruct (decide (id = Sync.Client.ID client)) as [-> | Hne].
    + by rewrite lookup_delete_eq.
    + rewrite lookup_delete_ne by done. intros Hid.
      destruct (Hok id q Hid) as (c & Hc & Hcid & Hcopen).
      exists c. hub_fields. rewrite lookup_insert_ne; [done |]. intros <-.
      destruct (registry_ok_pointer s id p client Hok Hid Hp). done.
  - exists s. by repeat split.
Qed.

(** A broadcast keeps the invariant and never panics on it. *)
Lemma broadcastMessage_ok (s : Sync.SyncMiddleware) (message : Sync.SyncMessage) :
  registry_ok s ->
  exists s', Sync.broadcastMessage s message = Done s' /\ registry_ok s'.
Proof.
  intros Hok. unfold Sync.broadcastMessage.
  destruct (broadcast_fold message s (Sync.clients s) Hok)
    as (s' & Hrun & _ & _ & _ & Hheap & Hreg).
  exists s'. split; [done |].
  intros id p Hid. rewrite Hreg in Hid.
  destruct (Sync.clients s !! id) as [q |] eqn:Hq; [| done].
  destruct (Hok id q Hq) as (c & Hc & Hcid & Hopen).
  rewrite Hc in Hid. destruct (dropped message c) eqn:Hdrop; [done |].
  injection Hid as <-.
  exists (delivered message c). rewrite Hheap, Hc, Hcid, Hq.
  rewrite bool_decide_eq_true_2 by done. split; [done |].
  unfold delivered, dropped in *.
  destruct (Sync.shouldReceiveMessage c message); [| done].
  destruct (decide _) as [Hroom | Hfull]; [done |].
  cbn in Hdrop. by rewrite bool_decide_eq_false_2 in Hdrop.
Qed.

(** A client message keeps the invariant unless it is a ping: a
    subscription changes no queue and anything else goes to the
    broadcast channel. A ping keeps it when the queue has room. *)
Lemma handleClientMessage_ok (t : Z) (s : Sync.SyncMiddleware) (p : Sync.loc)
    (client : Sync.Client) (message : Sync.SyncMessage) :
  registry_ok s ->
  Sync.heap s !! p = Some client ->
  Sync.SyncMessage.Type_ message <> "ping"
  \/ (Sync.closed (Sync.Client.Send client) = false
      /\ length (Sync.buf (Sync.Client.Send client)) < Sync.cap (Sync.Client.Send client)) ->
  exists s', Sync.handleClientMessage t s p message = Done s' /\ registry_ok s'.
Proof.
  intros Hok Hp Hcase. unfold Sync.handleClientMessage, Sync.deref. rewrite Hp. cbn.
  assert (Hupd : forall c',
            Sync.Client.ID c' = Sync.Client.ID client ->
            Sync.closed (Sync.Client.Send c') = Sync.closed (Sync.Client.Send client) ->
            registry_ok (Sync.set_client s p c')).
  { intros c' Hid' Hclosed' id q Hid. cbn in Hid.
    destruct (Hok id q Hid) as (c & Hc & Hcid & Hopen).
    destruct (decide (q = p)) as [-> | Hne].
    - exists c'. cbn. rewrite lookup_insert_eq. rewrite Hp in Hc. injection Hc as <-.
      split; [done |]. split; congruence.
    - exists c. cbn. by rewrite lookup_insert_ne. }
  case_bool_decide as Hping.
  - destruct Hcase as [Hne | [Hopen Hroom]]; [done |].
    unfold Sync.try_send. rewrite Hopen.
    destruct (decide _) as [_ | Hfull]; [| lia].
    eexists. split; [reflexivity |]. by apply Hupd.
  - case_bool_decide as Hsub.
    + eexists. split; [reflexivity |]. unfold Sync.handleSubscription. cbn.
      destruct (Sync.SyncMessage.Data message) as [| data | data]; try done.
      destruct (data !! "agent_id") as [[agentID |] |]; try done.
      by apply Hupd.
    + eexists. split; [reflexivity |]. intros id q Hid. cbn in Hid.
      destruct (Hok id q Hid) as (c & Hc & Hcid & Hopen). by exists c.
Qed.

(** The defect behind [ping_on_full_queue_closes_twice], in general: on
    a sound registry, a ping from a registered client whose queue is
    full leaves the client registered with a closed queue, and its
    unregistration panics. *)
Lemma ping_on_full_queue_breaks_registry (t : Z) (s : Sync.SyncMiddleware) (p : Sync.loc)
    (client : Sync.Client) (message : Sync.SyncMessage) :
  registry_ok s ->
  Sync.heap s !! p = Some client ->
  Sync.clients s !! Sync.Client.ID client = Some p ->
  Sync.cap (Sync.Client.Send client) <= length (Sync.buf (Sync.Client.Send client)) ->
  Sync.SyncMessage.Type_ message = "ping" ->
  exists s',
    Sync.handleClientMessage t s p message = Done s'
    /\ Sync.clients s' !! Sync.Client.ID client = Some p
    /\ ~ registry_ok s'
    /\ Sync.unregisterClient s' p = Panicked CloseOfClosedChannel.
Proof.
  intros Hok Hp Hreg Hfull Hping.
  destruct (registry_ok_pointer s _ p client Hok Hreg Hp) as [_ Hopen].
  unfold Sync.handleClientMessage, Sync.deref. rewrite Hp. cbn.
  rewrite Hping. cbn. unfold Sync.try_send, Sync.close_chan. rewrite Hopen.
  destruct (decide _) as [Hroom | _]; [lia |]. cbn.
  eexists. split; [reflexivity |]. hub_fields. split; [done |]. split.
  - intros Hok'. destruct (Hok' _ p Hreg) as (c & Hc & _ & Hcopen).
    hub_fields. rewrite lookup_insert_eq in Hc. injection Hc as <-. done.
  - unfold Sync.unregisterClient, Sync.deref. hub_fields.
    rewrite lookup_insert_eq. cbn. by rewrite Hreg.
Qed.

(** X2: every hub operation started on a registry whose connections
    have open queues runs without a panic and leaves such a registry,
    with one exception: a ping is only known to do so when the sender's
    queue has room. *)
Theorem hub_operations_keep_registry_ok (s : Sync.SyncMiddleware) :
  registry_ok s ->
  (forall t p client,
     Sync.heap s !! p = Some client ->
     Sync.closed (Sync.Client.Send client) = false ->
     exists s', Sync.registerClient t s p = Done s' /\ registry_ok s')
  /\ (forall p client,
        Sync.heap s !! p = Some client ->
        Sync.clients s !! Sync.Client.ID client = Some p
        \/ Sync.clients s !! Sync.Client.ID client = None ->
        exists s',
          Sync.unregisterClient s p = Done s'
          /\ registry_ok s'
          /\ Sync.clients s' !! Sync.Client.ID client = None)
  /\ (forall message,
        exists s', Sync.broadcastMessage s message = Done s' /\ registry_ok s')
  /\ (forall t p client message,
        Sync.heap s !! p = Some client ->
        Sync.SyncMessage.Type_ message <> "ping"
        \/ (Sync.closed (Sync.Client.Send client) = false
            /\ length (Sync.buf (Sync.Client.Send client))
               < Sync.cap (Sync.Client.Send client)) ->
        exists s', Sync.handleClientMessage t s p message = Done s' /\ registry_ok s').
Proof.
  intros Hok. split; [| split; [| split]].
  - intros t p client. by apply registerClient_ok.
  - intros p client. by apply unregisterClient_ok.
  - intros message. by apply broadcastMessage_ok.
  - intros t p client message. by apply handleClientMessage_ok.
Qed.

(** A broadcast on the hub of A and B leaves a sound registry. *)
Lemma hub_operations_keep_registry_ok_witness :
  exists s',
    Sync.broadcastMessage hub_with_A_and_B status_of_x = Done s' /\ registry_ok s'.
Proof.
  destruct (hub_operations_keep_registry_ok hub_with_A_and_B hub_with_A_and_B_ok)
    as (_ & _ & Hbroadcast & _).
  exact (Hbroadcast status_of_x).
Defined.

(** ** The hub: closing a connection *)

(** C4 at a failing input: a ping that meets a full queue closes the
    queue and leaves the connection registered; the unregistration that
    follows when its reader exits closes the queue a second time, and a
    broadcast before that sends on the closed queue: both panic. A
    connection dropped by a broadcast is closed and unregistered
    together, and its later unregistration changes nothing. *)
Theorem ping_on_full_queue_closes_twice :
  (exists s,
     after_ping = Done s
     /\ (Sync.closed <$> (Sync.Client.Send <$> Sync.heap s !! 1)) = Some true
     /\ Sync.clients s !! "client_A" = Some 1
     /\ Sync.unregisterClient s 1 = Panicked CloseOfClosedChannel
     /\ Sync.broadcastMessage s heartbeat = Panicked SendOnClosedChannel)
  /\ (exists s,
        after_broadcast = Done s
        /\ (Sync.closed <$> (Sync.Client.Send <$> Sync.heap s !! 1)) = Some true
        /\ Sync.clients s !! "client_A" = None
        /\ Sync.unregisterClient s 1 = Done s).
Proof.
  split.
  - eexists. split; [vm_compute; reflexivity |]. repeat split; vm_compute; reflexivity.
  - eexists. split; [vm_compute; reflexivity |]. repeat split; vm_compute; reflexivity.
Qed.

(** Scenario S4: a subscriber that stops reading is unregistered by the
    second broadcast that finds its queue full, and the third broadcast
    runs without it. *)
Lemma slow_consumer_is_dropped :
  Sync.GetClientCount (run_result hub_of_capacity_1 (after_broadcasts 1)) = 1
  /\ Sync.GetClientCount (run_result hub_of_capacity_1 (after_broadcasts 2)) = 0
  /\ (exists s, after_broadcasts 3 = Done s /\ Sync.GetClientCount s = 0).
Proof.
  split; [vm_compute; reflexivity |]. split; [vm_compute; reflexivity |].
  eexists. split; vm_compute; reflexivity.
Qed.

(** The event-stream path has the same defect: a subscriber dropped by
    a broadcast has its queue closed, and the cleanup deferred by
    [handleSSE] closes it again when the request ends. *)
Lemma sse_cleanup_after_drop_closes_twice :
  exists s,
    sse_after_broadcasts 2 = Done s
    /\ Sync.clients s !! "client_E" = None
    /\ (Sync.closed <$> (Sync.Client.Send <$> Sync.heap s !! 1)) = Some true
    /\ Sync.handleSSE_deferred s 1 = Panicked CloseOfClosedChannel.
Proof.
  eexists. split; [vm_compute; reflexivity |]. repeat split; vm_compute; reflexivity.
Qed.

(** ** Error recovery: fixed points of the sanitizer *)

Lemma replace_from_absent (old new s : string) :
  Strings.Contains s old = false -> Strings.replace_from old new 0 s = s.
Proof.
  induction s as [|c s IH]; [done|].
  cbn [Strings.Contains Strings.replace_from].
  intros [Hp Hc]%orb_false_iff. rewrite Hp. by rewrite IH.
Qed.

Lemma sanitize_step_absent (s pattern : string) :
  pattern <> "" -> Strings.Contains s pattern = false -> Errors.sanitize_step s pattern = s.
Proof.
  intros Hne Habs. unfold Errors.sanitize_step.
  destruct (Strings.Contains (Strings.ToLower s) pattern); [|done].
  unfold Strings.ReplaceAll. destruct pattern; [done|].
  by apply replace_from_absent.
Qed.

Lemma sanitize_fold_absent (patterns : list string) (s : string) :
  Forall (fun q => q <> "") patterns ->
  (forall p, p ∈ patterns -> Strings.Contains s p = false) ->
  foldl Errors.sanitize_step s patterns = s.
Proof.
  induction patterns as [|q patterns IH] in s |- *; [done|].
  intros [Hq Hrest]%Forall_cons Habs. cbn [foldl].
  rewrite sanitize_step_absent; [|done|apply Habs; left].
  apply IH; [done|]. intros p Hp. apply Habs. by right.
Qed.

Lemma sensitivePatterns_lower :
  Forall (fun q => all_lower q = true /\ q <> "") Errors.sensitivePatterns.
Proof. repeat constructor; done. Qed.

Lemma sensitivePatterns_not_empty : Forall (fun q => q <> "") Errors.sensitivePatterns.
Proof. repeat constructor; done. Qed.

(** X4: [sanitizeMessage] returns a message unchanged exactly when the
    message contains none of the six sensitive words in their lower-case
    spelling, and sanitizing twice gives what sanitizing once gives. *)
Theorem sanitizeMessage_fixed_points (message : string) :
  (Errors.sanitizeMessage message = message
   <-> forall pattern, pattern ∈ Errors.sensitivePatterns ->
         Strings.Contains message pattern = false)
  /\ Errors.sanitizeMessage (Errors.sanitizeMessage message) = Errors.sanitizeMessage message.
Proof.
  assert (Hclean : forall m pattern, pattern ∈ Errors.sensitivePatterns ->
            Strings.Contains (Errors.sanitizeMessage m) pattern = false).
  { intros m pattern Hin. by apply sanitize_fold_removes; [apply sensitivePatterns_lower|]. }
  assert (Hfix : forall m,
            (forall pattern, pattern ∈ Errors.sensitivePatterns ->
               Strings.Contains m pattern = false) ->
            Errors.sanitizeMessage m = m).
  { intros m Habs. by apply sanitize_fold_absent; [apply sensitivePatterns_not_empty|]. }
  split; [split|].
  - intros Heq pattern Hin. rewrite <- Heq. by apply Hclean.
  - apply Hfix.
  - apply Hfix. intros pattern Hin. by apply Hclean.
Qed.
(** ** Error recovery: the response writer and panics *)

Lemma handleErrorStatus_logError (e : Errors.ErrorMiddleware) (statusCode : Z) :
  Errors.handleErrorStatus e statusCode
  = Errors.logError e ("HTTP " ++ pretty statusCode ++ " error").
Proof.
  unfold Errors.handleErrorStatus, Errors.logError.
  by destruct (Middleware.ErrorConfig.LogErrors (Errors.config e)).
Qed.

Lemma logError_length (e : Errors.ErrorMiddleware) (message : string) :
  length (Errors.logError e message) <= 1.
Proof.
  unfold Errors.logError.
  destruct (Middleware.ErrorConfig.LogErrors _), (Middleware.ErrorConfig.SanitizeSecrets _);
    cbn; lia.
Qed.

Lemma writer_calls_fold (e : Errors.ErrorMiddleware) (calls : list Errors.WriterCall)
    (ew : Errors.Wrapped) :
  Errors.passed (foldl (Errors.call e) ew calls) = (Errors.passed ew ++ calls)%list
  /\ Errors.lines (foldl (Errors.call e) ew calls)
     = (Errors.lines ew
        ++ if Errors.ErrorResponseWriter.written (Errors.writer ew) then []
           else match first_status calls with
                | Some statusCode =>
                    if (400 <=? statusCode)%Z
                    then Errors.logError e ("HTTP " ++ pretty statusCode ++ " error")
                    else []
                | None => []
                end)%list
  /\ Errors.ErrorResponseWriter.written (Errors.writer (foldl (Errors.call e) ew calls))
     = Errors.ErrorResponseWriter.written (Errors.writer ew)
       || bool_decide (is_Some (first_status calls)).
Proof.
  induction calls as [|c calls IH] in ew |- *.
  - cbn. rewrite ?app_nil_r. split; [done|]. split.
    + destruct (Errors.ErrorResponseWriter.written _); by rewrite app_nil_r.
    + by rewrite orb_false_r.
  - cbn [foldl]. destruct (IH (Errors.call e ew c)) as (Hp & Hl & Hw).
    rewrite Hp, Hl, Hw. clear IH Hp Hl Hw.
    destruct c as [statusCode|data]; cbn.
    + rewrite <- !app_assoc. split; [done|]. split.
      * rewrite app_nil_r, handleErrorStatus_logError.
        destruct (Errors.ErrorResponseWriter.written (Errors.writer ew));
          rewrite ?andb_false_r, ?andb_true_r; cbn; [by rewrite app_nil_r|].
        by destruct (400 <=? statusCode)%Z.
      * by rewrite orb_true_r.
    + rewrite <- !app_assoc. done.
Qed.

(** X5: an [ErrorResponseWriter] passes every call on to the writer it
    wraps, in order, and logs at most one line for a response: the line
    for status n, when the first [WriteHeader] call of the handler carries
    a status n of 400 or more. A later [WriteHeader] logs nothing, and a
    [Write] made before the first [WriteHeader] does not mark the
    response as written. *)
Theorem ErrorResponseWriter_logs_first_status (e : Errors.ErrorMiddleware)
    (calls : list Errors.WriterCall) :
  let ew := foldl (Errors.call e) Errors.new_writer calls in
  Errors.passed ew = calls
  /\ Errors.lines ew
     = match first_status calls with
       | Some statusCode =>
           if (400 <=? statusCode)%Z
           then Errors.logError e ("HTTP " ++ pretty statusCode ++ " error")
           else []
       | None => []
       end
  /\ length (Errors.lines ew) <= 1
  /\ (Errors.ErrorResponseWriter.written (Errors.writer ew) = true
      <-> is_Some (first_status calls)).
Proof.
  intros ew. destruct (writer_calls_fold e calls Errors.new_writer) as (Hp & Hl & Hw).
  fold ew in Hp, Hl, Hw. cbn in Hp, Hl, Hw.
  split; [done|]. split; [done|]. split.
  - rewrite Hl. destruct (first_status calls) as [statusCode|]; [|cbn; lia].
    destruct (400 <=? statusCode)%Z; [apply logError_length|cbn; lia].
  - rewrite Hw. apply bool_decide_eq_true.
Qed.

(** X6: when the next handler panics under an enabled error layer, the
    calls it made on the writer stay as they were, the layer answers 500
    with the code INTERNAL_SERVER_ERROR and the fixed message, whatever
    the panic value and the configuration, and the panic value goes to
    the log only. A disabled error layer lets the panic through. *)
Theorem Handler_recovers_panics (e : Errors.ErrorMiddleware) (rt : Runtime) (r : Http.Request)
    (calls : list Errors.WriterCall) (recovered : string) :
  (Errors.enabled e = true ->
   exists out w,
     Errors.Handler e rt r calls (Some recovered) = inl out
     /\ Errors.to_writer out = calls
     /\ Errors.recovery out = Some w
     /\ Http.StatusCode w = 500%Z
     /\ Errors.code_of w = "INTERNAL_SERVER_ERROR"
     /\ Errors.message_of w = "Internal server error"
     /\ Errors.to_logger out
        = (Errors.lines (foldl (Errors.call e) Errors.new_writer calls)
           ++ Errors.logError e ("Panic recovered: " ++ recovered))%list)
  /\ (Errors.enabled e = false ->
      Errors.Handler e rt r calls (Some recovered) = inr recovered).
Proof.
  split; intros Hen; unfold Errors.Handler; rewrite Hen; cbn [negb]; [|done].
  eexists _, _. split; [reflexivity|]. cbn [Errors.to_writer Errors.recovery Errors.to_logger].
  split; [apply (writer_calls_fold e calls Errors.new_writer)|].
  split; [reflexivity|]. split; [reflexivity|]. split; [reflexivity|].
  split; [|reflexivity].
  unfold Errors.message_of, Errors.recoverPanic, Errors.writeErrorResponse. cbn.
  by destruct (Middleware.ErrorConfig.SanitizeSecrets (Errors.config e)).
Qed.

(** ** Configuration: validation and the example server *)

Lemma getEnvOrDefault_cases (env : gmap string string) (key defaultValue : string) :
  (exists v, env !! key = Some v /\ v <> "" /\ Example.getEnvOrDefault env key defaultValue = v)
  \/ ((env !! key = None \/ env !! key = Some "")
      /\ Example.getEnvOrDefault env key defaultValue = defaultValue).
Proof.
  unfold Example.getEnvOrDefault.
  destruct (env !! key) as [v|] eqn:Hv; cbn.
  - case_bool_decide as Hempty.
    + right. subst v. eauto.
    + left. eauto.
  - right. eauto.
Qed.

(** X7: [ValidateConfig] accepts a configuration exactly when every
    enabled component passes its checks: a non-empty secret and one of
    the two supported types for authentication, a positive size limit for
    validation, a positive buffer size and heartbeat interval for the
    hub, a non-empty endpoint and a positive timeout for the session
    layer. A disabled component is not looked at. *)
Theorem ValidateConfig_accepts_iff (c : Middleware.MiddlewareConfig) :
  Middleware.ValidateConfig c = None
  <-> (Middleware.AuthConfig.Enabled (Middleware.Auth c) = true ->
       Middleware.AuthConfig.Secret (Middleware.Auth c) <> ""
       /\ (Middleware.AuthConfig.Type_ (Middleware.Auth c) = "bearer"
           \/ Middleware.AuthConfig.Type_ (Middleware.Auth c) = "api_key"))
      /\ (Middleware.ValidationConfig.Enabled (Middleware.Validation c) = true ->
          (0 < Middleware.ValidationConfig.MaxRequestSize (Middleware.Validation c))%Z)
      /\ (Middleware.SyncConfig.Enabled (Middleware.Sync c) = true ->
          (0 < Middleware.SyncConfig.BufferSize (Middleware.Sync c))%Z
          /\ (0 < Middleware.SyncConfig.HeartbeatInterval (Middleware.Sync c))%Z)
      /\ (Middleware.ClaudeConfig.Enabled (Middleware.Claude c) = true ->
          Middleware.ClaudeConfig.APIEndpoint (Middleware.Claude c) <> ""
          /\ (0 < Middleware.ClaudeConfig.TimeoutSeconds (Middleware.Claude c))%Z).
Proof.
  unfold Middleware.ValidateConfig.
  destruct (Middleware.AuthConfig.Enabled _), (Middleware.ValidationConfig.Enabled _),
    (Middleware.SyncConfig.Enabled _), (Middleware.ClaudeConfig.Enabled _);
    cbn [andb negb];
    repeat (case_bool_decide; cbn [andb negb]);
    repeat (match goal with |- context [(?a <=? ?b)%Z] => destruct (Z.leb_spec a b) end;
            cbn [andb negb]);
    split; try done; try (intros; repeat split; intros; try done; try lia; auto; fail);
    intros (Ha & Hv & Hs & Hc);
    try (destruct (Ha eq_refl) as [? [?|?]]; done);
    try (specialize (Hv eq_refl); lia);
    try (destruct (Hs eq_refl); lia);
    try (destruct (Hc eq_refl); done || lia).
Qed.

(** X8: whatever the process environment, the configuration [main]
    builds passes [ValidateConfig], so [main] creates its server, with
    all six components in the chain and a non-empty signing key. The key
    is JWT_SECRET when that variable is set and not empty, and the
    built-in demonstration secret when it is unset or empty. *)
Theorem main_configuration_is_valid (env : gmap string string) :
  Middleware.ValidateConfig (Example.config env) = None
  /\ exists m,
       Example.main env = inl m
       /\ Manager.GetConfig m = Example.config env
       /\ Manager.chain m = ["errors"; "response"; "auth"; "validation"; "sync"; "claude"]
       /\ Auth.jwtKey (Manager.auth m) <> ""
       /\ (forall v, env !! "JWT_SECRET" = Some v -> v <> "" ->
             Auth.jwtKey (Manager.auth m) = v)
       /\ (env !! "JWT_SECRET" = None \/ env !! "JWT_SECRET" = Some "" ->
           Auth.jwtKey (Manager.auth m) = "demo-secret-change-in-production").
Proof.
  assert (Hvalid : Middleware.ValidateConfig (Example.config env) = None).
  { apply ValidateConfig_accepts_iff. cbn.
    repeat split; try lia; try (by left).
    - destruct (getEnvOrDefault_cases env "JWT_SECRET" "demo-secret-change-in-production")
        as [(v & _ & Hne & ->)|[_ ->]]; done.
    - destruct (getEnvOrDefault_cases env "CLAUDE_API_ENDPOINT"
                  "http://localhost:8080/api/claude") as [(v & _ & Hne & ->)|[_ ->]]; done. }
  split; [done|].
  unfold Example.main, Manager.CreateEnhancedServer. rewrite Hvalid.
  eexists. split; [reflexivity|]. split; [reflexivity|]. split; [reflexivity|].
  cbn.
  destruct (getEnvOrDefault_cases env "JWT_SECRET" "demo-secret-change-in-production")
    as [(v & Hv & Hne & ->)|[Hunset ->]].
  - split; [done|]. split; [congruence|].
    intros [H|H]; congruence.
  - split; [done|]. split; [|done].
    intros v Hv Hne. destruct Hunset; congruence.
Qed.

(** ** The hub: connections and audiences *)

(** X9: with a positive buffer size, a WebSocket connection is
    registered under the identifier generated for it, takes its user and
    agent from the request context (empty without one), and has exactly
    the welcome message in an open queue of the configured capacity. *)
Theorem handleWebSocket_registers (rt : Runtime) (s : Sync.SyncMiddleware) (p : Sync.loc)
    (r : Http.Request) :
  (0 < Middleware.SyncConfig.BufferSize (Sync.config s))%Z ->
  exists s' client,
    Sync.handleWebSocket rt s p r = Done s'
    /\ Sync.clients s' = <[fresh_id rt := p]> (Sync.clients s)
    /\ Sync.heap s' = <[p := client]> (Sync.heap s)
    /\ Sync.Client.ID client = fresh_id rt
    /\ Sync.Client.UserID client = default "" (Middleware.UserID <$> Http.Context r)
    /\ Sync.Client.AgentID client = default "" (Middleware.AgentID <$> Http.Context r)
    /\ (Sync.SyncMessage.Type_ <$> Sync.buf (Sync.Client.Send client)) = ["welcome"]
    /\ Sync.closed (Sync.Client.Send client) = false
    /\ Z.of_nat (Sync.cap (Sync.Client.Send client))
       = Middleware.SyncConfig.BufferSize (Sync.config s).
Proof.
  intros Hsize. unfold Sync.handleWebSocket, Sync.make_chan.
  destruct (Z.ltb_spec (Middleware.SyncConfig.BufferSize (Sync.config s)) 0); [lia|].
  cbn [run_bind]. unfold Sync.registerClient, Sync.deref.
  cbn [Sync.heap Sync.set_client]. rewrite lookup_insert_eq. cbn [run_bind].
  unfold Sync.send_or_drop, Sync.try_send. cbn [Sync.Client.Send Sync.closed Sync.buf Sync.cap].
  destruct (decide _) as [_|Hfull]; [|cbn in Hfull; lia].
  eexists _, _. split; [reflexivity|].
  cbn [Sync.clients Sync.heap Sync.set_client Sync.set_clients Sync.Client.ID Sync.with_Send
       Sync.Client.UserID Sync.Client.AgentID Sync.Client.Send Sync.buf Sync.closed Sync.cap].
  split; [done|]. split; [by rewrite insert_insert_eq|]. split; [done|].
  split; [by destruct (Http.Context r)|]. split; [by destruct (Http.Context r)|].
  split; [done|]. split; [done|]. cbn. lia.
Qed.

Lemma handleWebSocket_registers_witness :
  exists s',
    Sync.handleWebSocket (runtime_at 1 "client_A") (Manager.sync running_manager) 1 ws_request
    = Done s'
    /\ Sync.GetClientCount s' = 1
    /\ pending_of_kind s' 1 "welcome" = 1.
Proof.
  destruct (handleWebSocket_registers (runtime_at 1 "client_A") (Manager.sync running_manager)
              1 ws_request) as (s' & client & Hrun & _); [by vm_compute|].
  exists s'. split; [exact Hrun|].
  assert (Hs' : s' = run_result (Manager.sync running_manager)
                       (Sync.handleWebSocket (runtime_at 1 "client_A")
                          (Manager.sync running_manager) 1 ws_request))
    by (by rewrite Hrun).
  rewrite Hs'. split; vm_compute; reflexivity.
Defined.

Lemma untargeted_client_audience (client : Sync.Client) (message : Sync.SyncMessage) :
  Sync.Client.UserID client = "" -> Sync.Client.AgentID client = "" ->
  Sync.shouldReceiveMessage client message = true
  <-> Sync.SyncMessage.UserID message = "" /\ Sync.SyncMessage.AgentID message = "".
Proof.
  intros Hu Ha. rewrite shouldReceiveMessage_iff, Hu, Ha. split.
  - intros [H|[[Hne Heq]|[Hne Heq]]]; [done|by destruct Hne|by destruct Hne].
  - by left.
Qed.

(** X10: an event-stream connection is registered with an empty queue
    and no user or agent, so it is selected for a message exactly when the
    message names neither a user nor an agent: the agent status and
    message updates of a named agent never reach it, while errors and
    heartbeats always do. *)
Theorem handleSSE_client_audience (rt : Runtime) (s : Sync.SyncMiddleware) (p : Sync.loc) :
  (0 <= Middleware.SyncConfig.BufferSize (Sync.config s))%Z ->
  exists s' client,
    Sync.handleSSE rt s p = Done s'
    /\ Sync.clients s' = <[fresh_id rt := p]> (Sync.clients s)
    /\ Sync.heap s' = <[p := client]> (Sync.heap s)
    /\ Sync.Client.ID client = fresh_id rt
    /\ Sync.buf (Sync.Client.Send client) = []
    /\ (forall message,
          Sync.shouldReceiveMessage client message = true
          <-> Sync.SyncMessage.UserID message = "" /\ Sync.SyncMessage.AgentID message = "")
    /\ (forall rt' s0 agentID status text message,
          agentID <> "" ->
          last (Sync.broadcast (Sync.BroadcastAgentStatus rt' s0 agentID status text))
          = Some message ->
          Sync.shouldReceiveMessage client message = false)
    /\ (forall rt' s0 messageID content status agentID message,
          agentID <> "" ->
          last (Sync.broadcast
                  (Sync.BroadcastMessageUpdate rt' s0 messageID content status agentID))
          = Some message ->
          Sync.shouldReceiveMessage client message = false)
    /\ (forall rt' s0 code text details message,
          last (Sync.broadcast (Sync.BroadcastError rt' s0 code text details)) = Some message ->
          Sync.shouldReceiveMessage client message = true)
    /\ (forall rt' s0 message,
          last (Sync.broadcast (Sync.sendHeartbeat rt' s0)) = Some message ->
          Sync.shouldReceiveMessage client message = true).
Proof.
  intros Hsize. unfold Sync.handleSSE, Sync.make_chan.
  destruct (Z.ltb_spec (Middleware.SyncConfig.BufferSize (Sync.config s)) 0); [lia|].
  cbn [run_bind]. eexists _, _. split; [reflexivity|].
  cbn [Sync.clients Sync.heap Sync.set_client Sync.set_clients].
  split; [done|]. split; [done|]. split; [done|]. split; [done|].
  match goal with |- (forall m, Sync.shouldReceiveMessage ?c m = true <-> _) /\ _ =>
    assert (Haud : forall m, Sync.shouldReceiveMessage c m = true
                     <-> Sync.SyncMessage.UserID m = "" /\ Sync.SyncMessage.AgentID m = "")
      by (intros m; by apply untargeted_client_audience)
  end.
  split; [exact Haud|].
  assert (Hnot : forall c m, (Sync.shouldReceiveMessage c m = true
                     <-> Sync.SyncMessage.UserID m = "" /\ Sync.SyncMessage.AgentID m = "") ->
                   Sync.SyncMessage.AgentID m <> "" -> Sync.shouldReceiveMessage c m = false).
  { intros c m Hiff Hne. destruct (Sync.shouldReceiveMessage c m); [|done].
    destruct Hne. by apply Hiff. }
  repeat split.
  - intros rt' s0 agentID status text message Hne Hlast.
    unfold Sync.BroadcastAgentStatus, Sync.push_broadcast in Hlast. cbn in Hlast.
    rewrite last_snoc in Hlast. injection Hlast as <-. by apply Hnot.
  - intros rt' s0 messageID content status agentID message Hne Hlast.
    unfold Sync.BroadcastMessageUpdate, Sync.push_broadcast in Hlast. cbn in Hlast.
    rewrite last_snoc in Hlast. injection Hlast as <-. by apply Hnot.
  - intros rt' s0 code text details message Hlast.
    unfold Sync.BroadcastError, Sync.push_broadcast in Hlast. cbn in Hlast.
    rewrite last_snoc in Hlast. injection Hlast as <-. by apply Haud.
  - intros rt' s0 message Hlast.
    unfold Sync.sendHeartbeat, Sync.push_broadcast in Hlast. cbn in Hlast.
    rewrite last_snoc in Hlast. injection Hlast as <-. by apply Haud.
Qed.

Lemma handleSSE_client_audience_witness :
  exists s',
    Sync.handleSSE (runtime_at 1 "client_E") small_hub 1 = Done s'
    /\ Sync.GetClientCount s' = 1
    /\ pending_of_kind
         (run_result s' (Sync.runHub_broadcast
                           (Sync.BroadcastAgentStatus (runtime_at 2 "") s' "x" "running" "ok")))
         1 "agent_status" = 0
    /\ pending_of_kind
         (run_result s' (Sync.runHub_broadcast (Sync.sendHeartbeat (runtime_at 2 "") s')))
         1 "heartbeat" = 1.
Proof.
  destruct (handleSSE_client_audience (runtime_at 1 "client_E") small_hub 1)
    as (s' & client & Hrun & _); [by vm_compute|].
  exists s'. split; [exact Hrun|].
  assert (Hs' : s' = run_result small_hub (Sync.handleSSE (runtime_at 1 "client_E") small_hub 1))
    by (by rewrite Hrun).
  rewrite Hs'. repeat split; vm_compute; reflexivity.
Defined.

(** X11: a subscribe message whose data is an object with a string
    agent_id sets the agent of the sender to it and records it under
    subscribed_agent, leaving identifier, user and queue as they were; the
    client is then selected for the untargeted messages, for those of its
    user and for those of that agent, and no longer for those of the
    agent it had before. Any other subscribe message changes nothing. *)
Theorem subscribe_selects_agent (t : Z) (s : Sync.SyncMiddleware) (p : Sync.loc)
    (client : Sync.Client) (message : Sync.SyncMessage) :
  Sync.heap s !! p = Some client ->
  Sync.SyncMessage.Type_ message = "subscribe" ->
  (forall data agentID,
     Sync.SyncMessage.Data message = Sync.PMap data ->
     data !! "agent_id" = Some (Sync.FString agentID) ->
     exists client',
       Sync.handleClientMessage t s p message = Done (Sync.set_client s p client')
       /\ Sync.Client.AgentID client' = agentID
       /\ Sync.Client.Metadata client'
          = <["subscribed_agent" := agentID]> (Sync.Client.Metadata client)
       /\ Sync.Client.ID client' = Sync.Client.ID client
       /\ Sync.Client.UserID client' = Sync.Client.UserID client
       /\ Sync.Client.Send client' = Sync.Client.Send client
       /\ forall m,
            Sync.shouldReceiveMessage client' m = true
            <-> (Sync.SyncMessage.UserID m = "" /\ Sync.SyncMessage.AgentID m = "")
                \/ (Sync.SyncMessage.UserID m <> ""
                    /\ Sync.Client.UserID client = Sync.SyncMessage.UserID m)
                \/ (Sync.SyncMessage.AgentID m <> "" /\ Sync.SyncMessage.AgentID m = agentID))
  /\ ((forall data, Sync.SyncMessage.Data message = Sync.PMap data ->
         forall agentID, data !! "agent_id" <> Some (Sync.FString agentID)) ->
      Sync.handleClientMessage t s p message = Done s).
Proof.
  intros Hp Hty.
  assert (Hrun : Sync.handleClientMessage t s p message
                 = Done (Sync.handleSubscription s p client
                           {| Sync.SyncMessage.Type_ := Sync.SyncMessage.Type_ message;
                              Sync.SyncMessage.Data := Sync.SyncMessage.Data message;
                              Sync.SyncMessage.Timestamp := t;
                              Sync.SyncMessage.ClientID := Sync.Client.ID client;
                              Sync.SyncMessage.UserID := Sync.Client.UserID client;
                              Sync.SyncMessage.AgentID := Sync.SyncMessage.AgentID message |})).
  { unfold Sync.handleClientMessage, Sync.deref. rewrite Hp. cbn [run_bind Sync.SyncMessage.Type_].
    rewrite Hty. by rewrite bool_decide_eq_false_2, bool_decide_eq_true_2. }
  rewrite Hrun. unfold Sync.handleSubscription. cbn [Sync.SyncMessage.Data]. split.
  - intros data agentID Hdata Hagent. rewrite Hdata, Hagent.
    eexists. split; [reflexivity|]. cbn [Sync.Client.AgentID Sync.Client.Metadata Sync.Client.ID
                                         Sync.Client.UserID Sync.Client.Send].
    do 5 (split; [done|]). intros m. rewrite shouldReceiveMessage_iff.
    cbn [Sync.Client.AgentID Sync.Client.UserID].
    split; (intros [H|[H|[Hne Heq]]]; [by left|by right; left|right; right; done]).
  - intros Hnone. destruct (Sync.SyncMessage.Data message) as [|data|fields]; [done| |done].
    destruct (data !! "agent_id") as [[agentID|]|] eqn:Hagent; [|done|done].
    by destruct (Hnone data eq_refl agentID).
Qed.

Lemma subscribe_selects_agent_witness :
  (exists client',
     Sync.handleClientMessage 6 hub_with_A_and_B 2 (subscribe_to "x")
     = Done (Sync.set_client hub_with_A_and_B 2 client')
     /\ Sync.Client.AgentID client' = "x")
  /\ pending_of_kind
       (run_result hub_with_A_and_B
          (run_bind (Sync.handleClientMessage 6 hub_with_A_and_B 2 (subscribe_to "x"))
             (fun s => Sync.broadcastMessage s status_of_x)))
       2 "agent_status" = 1.
Proof.
  split; [|vm_compute; reflexivity].
  assert (Hheap : Sync.heap hub_with_A_and_B !! 2
                  = Some (default client_u1_a2 (Sync.heap hub_with_A_and_B !! 2)))
    by (vm_compute; reflexivity).
  pose proof (subscribe_selects_agent 6 hub_with_A_and_B 2 _ (subscribe_to "x") Hheap eq_refl)
    as [Hsub _].
  destruct (Hsub {[ "agent_id" := Sync.FString "x" ]} "x" eq_refl eq_refl)
    as (client' & Hrun & Hagent & _).
  by exists client'.
Defined.

(** X12: a client message that is neither a ping nor a subscribe is put
    on the broadcast channel with the identifier and the user of the
    sender and the time of receipt, whatever the client wrote in these
    fields; type, data and agent are kept. Since the user field is also
    the user filter, the message of a client with a user goes to the
    clients of that user and to the subscribers of the named agent only. *)
Theorem handleClientMessage_stamps_sender (t : Z) (s : Sync.SyncMiddleware) (p : Sync.loc)
    (client : Sync.Client) (message : Sync.SyncMessage) :
  Sync.heap s !! p = Some client ->
  Sync.SyncMessage.Type_ message <> "ping" ->
  Sync.SyncMessage.Type_ message <> "subscribe" ->
  exists stamped,
    Sync.handleClientMessage t s p message = Done (Sync.push_broadcast s stamped)
    /\ Sync.SyncMessage.ClientID stamped = Sync.Client.ID client
    /\ Sync.SyncMessage.UserID stamped = Sync.Client.UserID client
    /\ Sync.SyncMessage.Timestamp stamped = t
    /\ Sync.SyncMessage.Type_ stamped = Sync.SyncMessage.Type_ message
    /\ Sync.SyncMessage.Data stamped = Sync.SyncMessage.Data message
    /\ Sync.SyncMessage.AgentID stamped = Sync.SyncMessage.AgentID message
    /\ forall other,
         Sync.shouldReceiveMessage other stamped = true
         <-> (Sync.Client.UserID client = "" /\ Sync.SyncMessage.AgentID message = "")
             \/ (Sync.Client.UserID client <> ""
                 /\ Sync.Client.UserID other = Sync.Client.UserID client)
             \/ (Sync.SyncMessage.AgentID message <> ""
                 /\ Sync.Client.AgentID other = Sync.SyncMessage.AgentID message).
Proof.
  intros Hp Hping Hsub. unfold Sync.handleClientMessage, Sync.deref.
  rewrite Hp. cbn [run_bind Sync.SyncMessage.Type_].
  rewrite !bool_decide_eq_false_2 by done.
  eexists. split; [reflexivity|]. cbn [Sync.SyncMessage.ClientID Sync.SyncMessage.UserID
    Sync.SyncMessage.Timestamp Sync.SyncMessage.Type_ Sync.SyncMessage.Data
    Sync.SyncMessage.AgentID].
  do 6 (split; [done|]). intros other. rewrite shouldReceiveMessage_iff.
  cbn [Sync.SyncMessage.UserID Sync.SyncMessage.AgentID]. done.
Qed.

Lemma handleClientMessage_stamps_sender_witness :
  exists stamped,
    Sync.handleClientMessage 7 hub_with_u1_a2 1 message_u1_a1
    = Done (Sync.push_broadcast hub_with_u1_a2 stamped)
    /\ Sync.SyncMessage.ClientID stamped = "client_1"
    /\ Sync.SyncMessage.UserID stamped = "u1".
Proof.
  destruct (handleClientMessage_stamps_sender 7 hub_with_u1_a2 1 client_u1_a2 message_u1_a1)
    as (stamped & Hrun & Hid & Huser & _); [reflexivity|done|done|].
  by exists stamped.
Defined.

(** X13: registering a client whose identifier is free and whose open
    queue has room adds one registry entry and queues the welcome message;
    unregistering it then restores the registry, closes the queue with
    what was queued still in it, and a second unregister does nothing. *)
Theorem register_then_unregister (t : Z) (s : Sync.SyncMiddleware) (p : Sync.loc)
    (client : Sync.Client) :
  Sync.heap s !! p = Some client ->
  Sync.closed (Sync.Client.Send client) = false ->
  length (Sync.buf (Sync.Client.Send client)) < Sync.cap (Sync.Client.Send client) ->
  Sync.clients s !! Sync.Client.ID client = None ->
  exists s1 s2 client2,
    Sync.registerClient t s p = Done s1
    /\ Sync.clients s1 = <[Sync.Client.ID client := p]> (Sync.clients s)
    /\ Sync.GetClientCount s1 = S (Sync.GetClientCount s)
    /\ Sync.unregisterClient s1 p = Done s2
    /\ Sync.clients s2 = Sync.clients s
    /\ Sync.GetClientCount s2 = Sync.GetClientCount s
    /\ Sync.heap s2 !! p = Some client2
    /\ Sync.closed (Sync.Client.Send client2) = true
    /\ (Sync.SyncMessage.Type_ <$> Sync.buf (Sync.Client.Send client2))
       = ((Sync.SyncMessage.Type_ <$> Sync.buf (Sync.Client.Send client)) ++ ["welcome"])%list
    /\ Sync.unregisterClient s2 p = Done s2.
Proof.
  intros Hp Hopen Hroom Hfresh.
  unfold Sync.registerClient, Sync.deref. rewrite Hp. cbn [run_bind].
  unfold Sync.send_or_drop, Sync.try_send. rewrite Hopen.
  destruct (decide _) as [_|]; [|done].
  eexists _, _, _. split; [reflexivity|].
  cbn [Sync.clients Sync.set_client Sync.set_clients].
  split; [done|]. split; [unfold Sync.GetClientCount; cbn; by rewrite map_size_insert_None|].
  unfold Sync.unregisterClient, Sync.deref.
  cbn [Sync.heap Sync.clients Sync.set_client Sync.set_clients].
  rewrite lookup_insert_eq. cbn [run_bind Sync.with_Send Sync.Client.ID].
  rewrite lookup_insert_eq. unfold Sync.close_chan.
  cbn [Sync.Client.Send Sync.closed run_bind].
  split; [reflexivity|].
  cbn [Sync.clients Sync.heap Sync.set_client Sync.set_clients Sync.GetClientCount].
  rewrite delete_insert_eq, delete_id by done.
  split; [done|]. split; [done|].
  rewrite lookup_insert_eq. split; [reflexivity|].
  cbn [Sync.with_Send Sync.Client.Send Sync.closed Sync.buf Sync.Client.ID].
  split; [done|]. split; [by rewrite fmap_app|].
  cbn [run_bind Sync.Client.ID Sync.with_Send]. by rewrite Hfresh.
Qed.

Lemma register_then_unregister_witness :
  exists s1 s2,
    Sync.registerClient 1 (Sync.set_client small_hub 1 client_u1_a2) 1 = Done s1
    /\ Sync.GetClientCount s1 = 1
    /\ Sync.unregisterClient s1 1 = Done s2
    /\ Sync.GetClientCount s2 = 0.
Proof.
  destruct (register_then_unregister 1 (Sync.set_client small_hub 1 client_u1_a2) 1 client_u1_a2)
    as (s1 & s2 & client2 & Hreg & _ & Hcount1 & Hunreg & _ & Hcount2 & _);
    [reflexivity|reflexivity|cbn; lia|reflexivity|].
  exists s1, s2. by rewrite Hcount1, Hcount2.
Defined.

(** ** Authentication: keys, headers and issued tokens *)

(** X14: the API key store: a key added is validated to its user, a key
    removed is refused, neither changes the verdict on another key,
    removing a key that was added to a store without it restores the
    store, and reconfiguring the authenticator keeps the keys. *)
Theorem api_key_store_round_trip (a : Auth.AuthMiddleware) (apiKey userID other : string) :
  Auth.validateAPIKey (Auth.AddAPIKey a apiKey userID) apiKey = inl userID
  /\ (other <> apiKey ->
      Auth.validateAPIKey (Auth.AddAPIKey a apiKey userID) other = Auth.validateAPIKey a other)
  /\ Auth.validateAPIKey (Auth.RemoveAPIKey a apiKey) apiKey = inr "invalid API key"
  /\ (other <> apiKey ->
      Auth.validateAPIKey (Auth.RemoveAPIKey a apiKey) other = Auth.validateAPIKey a other)
  /\ (Auth.apiKeys a !! apiKey = None ->
      Auth.apiKeys (Auth.RemoveAPIKey (Auth.AddAPIKey a apiKey userID) apiKey) = Auth.apiKeys a)
  /\ (forall c,
        Auth.validateAPIKey (Auth.Configure a (Middleware.OfAuth c)).1 other
        = Auth.validateAPIKey a other).
Proof.
  unfold Auth.validateAPIKey, Auth.AddAPIKey, Auth.RemoveAPIKey. cbn [Auth.apiKeys].
  split; [by rewrite lookup_insert_eq|].
  split; [intros Hne; by rewrite lookup_insert_ne|].
  split; [by rewrite lookup_delete_eq|].
  split; [intros Hne; by rewrite lookup_delete_ne|].
  split; [intros Hnone; by rewrite delete_insert_eq, delete_id|].
  done.
Qed.

(** X15: under API key authentication the key is the X-API-Key header,
    or the api_key query parameter when that header is empty; the request
    is handed on with the user registered for the key, and answered 401
    when the key is not registered. *)
Theorem Handler_api_key (decode : string -> option Jwt.Token) (a : Auth.AuthMiddleware)
    (rt : Runtime) (r : Http.Request) (key : string) :
  Auth.enabled a = true ->
  Middleware.AuthConfig.Type_ (Auth.config a) = "api_key" ->
  key <> "" ->
  Http.Get r "X-API-Key" = key
  \/ (Http.Get r "X-API-Key" = "" /\ Http.QueryGet r "api_key" = key) ->
  Auth.extractToken a r = inl key
  /\ Auth.Handler decode a rt r
     = match Auth.apiKeys a !! key with
       | Some userID => inr (Auth.with_user rt r userID)
       | None => inl (Auth.writeUnauthorized rt "invalid API key")
       end.
Proof.
  intros Hen Hty Hne Hkey.
  assert (Hextract : Auth.extractToken a r = inl key).
  { unfold Auth.extractToken. rewrite Hty. cbn.
    rewrite (bool_decide_eq_false_2 ("api_key" = "bearer")) by done.
    rewrite (bool_decide_eq_true_2 ("api_key" = "api_key")) by done.
    destruct Hkey as [<-|[-> <-]].
    - by rewrite !(bool_decide_eq_false_2 (Http.Get r "X-API-Key" = "")) by done.
    - rewrite (bool_decide_eq_true_2 ("" = "")) by done.
      by rewrite (bool_decide_eq_false_2 (Http.QueryGet r "api_key" = "")) by done. }
  split; [done|].
  unfold Auth.Handler. rewrite Hen, Hextract. cbn [negb].
  unfold Auth.validateToken. rewrite Hty. cbn.
  rewrite (bool_decide_eq_false_2 ("api_key" = "bearer")) by done.
  rewrite (bool_decide_eq_true_2 ("api_key" = "api_key")) by done.
  unfold Auth.validateAPIKey.
  by destruct (Auth.apiKeys a !! key).
Qed.

Lemma Handler_api_key_witness :
  Auth.Handler sample_token_decode api_key_auth sample_runtime (api_key_request "0123abcd")
  = inr (Auth.with_user sample_runtime (api_key_request "0123abcd") "alice")
  /\ Auth.Handler sample_token_decode api_key_auth sample_runtime (api_key_request "ffff0000")
     = inl (Auth.writeUnauthorized sample_runtime "invalid API key").
Proof.
  split.
  - by destruct (Handler_api_key sample_token_decode api_key_auth sample_runtime
                   (api_key_request "0123abcd") "0123abcd") as [_ ->]; [done|done|done|left|].
  - by destruct (Handler_api_key sample_token_decode api_key_auth sample_runtime
                   (api_key_request "ffff0000") "ffff0000") as [_ ->]; [done|done|done|left|].
Defined.

Lemma append_empty (s : string) : "" ++ s = s.
Proof. reflexivity. Qed.

Lemma append_String (c : ascii) (a s : string) : String c a ++ s = String c (a ++ s).
Proof. reflexivity. Qed.

Lemma cut_at_app (sep : ascii) (a b : string) :
  has_byte sep a = false -> Strings.cut_at sep (a ++ String sep b) = Some (a, b).
Proof.
  induction a as [|c a IH]; cbn [has_byte].
  - intros _. rewrite append_empty. cbn [Strings.cut_at]. by rewrite Ascii.eqb_refl.
  - intros [Hc Ha]%orb_false_iff. rewrite append_String. cbn [Strings.cut_at].
    rewrite Hc, IH; done.
Qed.

Lemma cut_at_Some (sep : ascii) (s a b : string) :
  Strings.cut_at sep s = Some (a, b) -> s = a ++ String sep b /\ has_byte sep a = false.
Proof.
  induction s as [|c s IH] in a |- *; cbn [Strings.cut_at]; [done|].
  destruct (Ascii.eqb c sep) eqn:Hc.
  - intros [= <- <-]. apply Ascii.eqb_eq in Hc as ->. done.
  - destruct (Strings.cut_at sep s) as [[a' b']|]; [|done].
    intros [= <- <-]. destruct (IH a' eq_refl) as [-> Ha].
    rewrite append_String. cbn [has_byte]. by rewrite Hc, Ha.
Qed.

Lemma lower_byte_space (c : ascii) :
  Ascii.eqb (Strings.lower_byte c) " " = Ascii.eqb c " ".
Proof. destruct c as [[] [] [] [] [] [] [] []]; reflexivity. Qed.

Lemma has_byte_space_ToLower (s : string) :
  has_byte " " (Strings.ToLower s) = has_byte " " s.
Proof.
  induction s as [|c s IH]; cbn [Strings.ToLower has_byte]; [done|].
  by rewrite lower_byte_space, IH.
Qed.

Lemma extractToken_bearer_scheme (a : Auth.AuthMiddleware) (r : Http.Request)
    (scheme token : string) :
  Middleware.AuthConfig.Type_ (Auth.config a) = "bearer" ->
  Http.Get r "Authorization" = scheme ++ " " ++ token ->
  Strings.ToLower scheme = "bearer" ->
  Auth.extractToken a r = inl token.
Proof.
  intros Hty Heq Hscheme. unfold Auth.extractToken. rewrite Hty. cbn zeta.
  rewrite (bool_decide_eq_true_2 ("bearer" = "bearer")) by done.
  unfold Strings.SplitN2.
  assert (Hspace : has_byte " " scheme = false)
    by (by rewrite <- has_byte_space_ToLower, Hscheme).
  rewrite Heq. rewrite bool_decide_eq_false_2 by (by destruct scheme).
  change (scheme ++ " " ++ token) with (scheme ++ String " " token).
  rewrite cut_at_app by done. by rewrite bool_decide_eq_true_2.
Qed.

(** X16: under bearer authentication [extractToken] yields a token
    exactly when the Authorization header is a scheme, one space and the
    token, the scheme being the word bearer in any letter case; the token
    is everything after the first space. An empty header is reported as
    missing, and a header without a space is refused. *)
Theorem extractToken_bearer (a : Auth.AuthMiddleware) (r : Http.Request) (token : string) :
  Middleware.AuthConfig.Type_ (Auth.config a) = "bearer" ->
  (Auth.extractToken a r = inl token
   <-> exists scheme,
         Http.Get r "Authorization" = scheme ++ " " ++ token
         /\ Strings.ToLower scheme = "bearer")
  /\ (Http.Get r "Authorization" = "" ->
      Auth.extractToken a r = inr "missing authorization header")
  /\ (has_byte " " (Http.Get r "Authorization") = false ->
      exists e, Auth.extractToken a r = inr e).
Proof.
  intros Hty. split; [split|].
  - unfold Auth.extractToken. rewrite Hty. cbn zeta.
    rewrite (bool_decide_eq_true_2 ("bearer" = "bearer")) by done.
    unfold Strings.SplitN2.
    case_bool_decide as Hempty; [done|].
    destruct (Strings.cut_at " " (Http.Get r "Authorization")) as [[scheme rest]|] eqn:Hcut;
      [|done].
    case_bool_decide as Hscheme; [|done]. intros [= <-].
    apply cut_at_Some in Hcut as [Heq _]. by exists scheme.
  - intros (scheme & Heq & Hscheme). by apply (extractToken_bearer_scheme a r scheme).
  - unfold Auth.extractToken. rewrite Hty. cbn zeta.
    rewrite (bool_decide_eq_true_2 ("bearer" = "bearer")) by done.
    unfold Strings.SplitN2. split.
    + intros ->. done.
    + intros Hnone. case_bool_decide; [by eexists|].
      destruct (Strings.cut_at " " (Http.Get r "Authorization")) as [[scheme rest]|] eqn:Hcut;
        [|by eexists].
      apply cut_at_Some in Hcut as [Heq Hs]. rewrite Heq in Hnone.
      exfalso. clear -Hnone.
      induction scheme as [|c s IH].
      * rewrite append_empty in Hnone. cbn [has_byte] in Hnone.
        by rewrite Ascii.eqb_refl in Hnone.
      * rewrite append_String in Hnone. cbn [has_byte] in Hnone.
        apply orb_false_iff in Hnone as [_ ?]. auto.
Qed.

Lemma extractToken_bearer_witness :
  Auth.extractToken default_auth (bearer_request "abc def") = inl "abc def".
Proof.
  apply (extractToken_bearer default_auth (bearer_request "abc def") "abc def"); [done|].
  by exists "Bearer".
Defined.

Lemma issued_token_claims (a : Auth.AuthMiddleware) (rt : Runtime) (userID : string) :
  Jwt.Claims (Auth.issued_token a rt userID) !! "user_id" = Some (Jwt.CString userID)
  /\ Jwt.Claims (Auth.issued_token a rt userID) !! "exp"
     = Some (Jwt.CNumber ((now rt + Middleware.AuthConfig.Expiration (Auth.config a))
                          / Middleware.second))
  /\ Jwt.Claims (Auth.issued_token a rt userID) !! "nbf" = None.
Proof. unfold Auth.issued_token. cbn [Jwt.Claims]. by simplify_map_eq. Qed.

Lemma validate_issued_claims (a : Auth.AuthMiddleware) (rt : Runtime) (userID : string)
    (t : Z) :
  Jwt.validate_claims t (Jwt.Claims (Auth.issued_token a rt userID))
  = if (t <? expiry a rt)%Z then None else Some "token has invalid claims: token is expired".
Proof.
  destruct (issued_token_claims a rt userID) as (_ & Hexp & Hnbf).
  unfold Jwt.validate_claims, Jwt.numeric_date. rewrite Hexp, Hnbf. done.
Qed.

Lemma validateJWT_issued (encode : Jwt.Token -> string) (decode : string -> option Jwt.Token)
    (a a' : Auth.AuthMiddleware) (rt rt' : Runtime) (userID : string) :
  decode (Auth.GenerateJWT encode a rt userID) = Some (Auth.issued_token a rt userID) ->
  Auth.validateJWT decode a' rt' (Auth.GenerateJWT encode a rt userID)
  = if bool_decide (Auth.jwtKey a = Auth.jwtKey a')
    then if (now rt' <? expiry a rt)%Z
         then inl userID
         else inr "invalid token: token has invalid claims: token is expired"
    else inr "invalid token: token signature is invalid".
Proof.
  intros Hdecode. unfold Auth.validateJWT, Jwt.Parse. rewrite Hdecode. unfold Auth.keyFunc.
  cbn [Auth.issued_token Jwt.Method Jwt.is_HMAC Jwt.SignedWith].
  case_bool_decide; [|done].
  change (Jwt.validate_claims (now rt') _)
    with (Jwt.validate_claims (now rt') (Jwt.Claims (Auth.issued_token a rt userID))).
  rewrite validate_issued_claims. destruct (now rt' <? expiry a rt)%Z; [|done].
  destruct (issued_token_claims a rt userID) as (Huser & _ & _).
  change (Jwt.Claims _ !! "user_id")
    with (Jwt.Claims (Auth.issued_token a rt userID) !! "user_id").
  by rewrite Huser.
Qed.

(** X17: a token [GenerateJWT] issued at one instant is accepted, as
    the user it was issued for, at every instant before its expiry, which
    is the issue time plus the configured expiration rounded down to a
    whole second, and refused from the expiry on; it is refused by an
    authenticator holding another key. *)
Theorem GenerateJWT_validity_window (encode : Jwt.Token -> string)
    (decode : string -> option Jwt.Token) (a : Auth.AuthMiddleware) (rt rt' : Runtime)
    (userID : string) :
  decode (Auth.GenerateJWT encode a rt userID) = Some (Auth.issued_token a rt userID) ->
  ((now rt' < expiry a rt)%Z ->
   Auth.validateJWT decode a rt' (Auth.GenerateJWT encode a rt userID) = inl userID)
  /\ ((expiry a rt <= now rt')%Z ->
      exists e, Auth.validateJWT decode a rt' (Auth.GenerateJWT encode a rt userID) = inr e)
  /\ (now rt + Middleware.AuthConfig.Expiration (Auth.config a) - Middleware.second
      < expiry a rt
      <= now rt + Middleware.AuthConfig.Expiration (Auth.config a))%Z
  /\ (forall a',
        Auth.jwtKey a' <> Auth.jwtKey a ->
        exists e, Auth.validateJWT decode a' rt' (Auth.GenerateJWT encode a rt userID) = inr e).
Proof.
  intros Hdecode. repeat split.
  - intros Hfresh. rewrite (validateJWT_issued encode decode a a rt rt' userID Hdecode).
    rewrite bool_decide_eq_true_2 by done.
    by destruct (Z.ltb_spec (now rt') (expiry a rt)); [|lia].
  - intros Hlate. rewrite (validateJWT_issued encode decode a a rt rt' userID Hdecode).
    rewrite bool_decide_eq_true_2 by done.
    destruct (Z.ltb_spec (now rt') (expiry a rt)); [lia|]. by eexists.
  - unfold expiry, Middleware.second.
    pose proof (Z.mod_pos_bound (now rt + Middleware.AuthConfig.Expiration (Auth.config a))
                  1000000000 ltac:(lia)).
    pose proof (Z.div_mod (now rt + Middleware.AuthConfig.Expiration (Auth.config a))
                  1000000000 ltac:(lia)).
    lia.
  - unfold expiry, Middleware.second.
    pose proof (Z.mod_pos_bound (now rt + Middleware.AuthConfig.Expiration (Auth.config a))
                  1000000000 ltac:(lia)).
    pose proof (Z.div_mod (now rt + Middleware.AuthConfig.Expiration (Auth.config a))
                  1000000000 ltac:(lia)).
    lia.
  - intros a' Hkey. rewrite (validateJWT_issued encode decode a a' rt rt' userID Hdecode).
    rewrite bool_decide_eq_false_2 by done. by eexists.
Qed.

Lemma GenerateJWT_validity_window_witness :
  Auth.validateJWT
    (one_token_decode "t1" (Auth.issued_token default_auth sample_runtime "alice"))
    default_auth
    (runtime_at (now sample_runtime + 23 * Middleware.hour) "")
    (Auth.GenerateJWT (one_token_encode "t1") default_auth sample_runtime "alice")
  = inl "alice".
Proof.
  by apply (GenerateJWT_validity_window (one_token_encode "t1")
              (one_token_decode "t1" (Auth.issued_token default_auth sample_runtime "alice"))
              default_auth sample_runtime
              (runtime_at (now sample_runtime + 23 * Middleware.hour) "") "alice").
Defined.

(** X18: [handleLogin] issues a token for every pair of a non-empty user
    name and a non-empty password, without any check of the password; a
    request carrying that token as a bearer token is handed on as that
    user until the token expires, and [handleRefresh] answers it with a
    new token for the same user. *)
Theorem handleLogin_accepts_any_password (encode : Jwt.Token -> string)
    (decode : string -> option Jwt.Token) (m : Manager.Manager) (rt rt' : Runtime)
    (r : Http.Request) (username password : string) :
  Auth.enabled (Manager.auth m) = true ->
  Middleware.AuthConfig.Type_ (Auth.config (Manager.auth m)) = "bearer" ->
  username <> "" ->
  password <> "" ->
  decode (encode (Auth.issued_token (Manager.auth m) rt username))
  = Some (Auth.issued_token (Manager.auth m) rt username) ->
  (now rt' < expiry (Manager.auth m) rt)%Z ->
  exists token,
    Manager.handleLogin encode m rt r (inl (username, password))
    = Manager.TokenIssued token username
        (Middleware.AuthConfig.Expiration (Middleware.Auth (Manager.GetConfig m)))
    /\ (forall r',
          Http.Get r' "Authorization" = "Bearer " ++ token ->
          Auth.Handler decode (Manager.auth m) rt' r' = inr (Auth.with_user rt' r' username))
    /\ (forall r',
          Http.Get r' "Authorization" = "Bearer " ++ token ->
          exists token',
            Manager.handleRefresh decode encode m rt' r'
            = Manager.TokenIssued token' username
                (Middleware.AuthConfig.Expiration (Middleware.Auth (Manager.GetConfig m)))).
Proof.
  intros Hen Hty Huser Hpass Hdecode Hfresh.
  exists (Auth.GenerateJWT encode (Manager.auth m) rt username).
  assert (Hauth : forall r',
            Http.Get r' "Authorization"
            = "Bearer " ++ Auth.GenerateJWT encode (Manager.auth m) rt username ->
            Auth.extractToken (Manager.auth m) r'
            = inl (Auth.GenerateJWT encode (Manager.auth m) rt username)
            /\ Auth.validateToken decode (Manager.auth m) rt'
                 (Auth.GenerateJWT encode (Manager.auth m) rt username) = inl username).
  { intros r' Hheader. split.
    - by apply (extractToken_bearer_scheme (Manager.auth m) r' "Bearer").
    - unfold Auth.validateToken. rewrite Hty. cbn zeta.
      rewrite (bool_decide_eq_true_2 ("bearer" = "bearer")) by done.
      rewrite (validateJWT_issued encode decode (Manager.auth m) (Manager.auth m) rt rt'
                 username Hdecode).
      rewrite bool_decide_eq_true_2 by done.
      by destruct (Z.ltb_spec (now rt') (expiry (Manager.auth m) rt)); [|lia]. }
  split; [|split].
  - unfold Manager.handleLogin. by rewrite !bool_decide_eq_false_2.
  - intros r' Hheader. destruct (Hauth r' Hheader) as [Hextract Hvalid].
    unfold Auth.Handler. by rewrite Hen, Hextract, Hvalid.
  - intros r' Hheader. destruct (Hauth r' Hheader) as [Hextract Hvalid].
    unfold Manager.handleRefresh, Auth.AuthenticateRequest. rewrite Hextract, Hvalid.
    by eexists.
Qed.

Lemma handleLogin_accepts_any_password_witness :
  exists token,
    Manager.handleLogin (one_token_encode "t1") running_manager sample_runtime sample_request
      (inl ("alice", "not her password"))
    = Manager.TokenIssued token "alice" (24 * Middleware.hour)
    /\ Auth.Handler
         (one_token_decode "t1"
            (Auth.issued_token (Manager.auth running_manager) sample_runtime "alice"))
         (Manager.auth running_manager) sample_runtime (bearer_request token)
       = inr (Auth.with_user sample_runtime (bearer_request token) "alice").
Proof.
  destruct (handleLogin_accepts_any_password (one_token_encode "t1")
              (one_token_decode "t1"
                 (Auth.issued_token (Manager.auth running_manager) sample_runtime "alice"))
              running_manager sample_runtime sample_runtime sample_request
              "alice" "not her password")
    as (token & Hlogin & Hhandler & _); [done|done|done|done|done|by vm_compute|].
  exists token. split; [exact Hlogin|].
  apply Hhandler. unfold bearer_request, Http.Get. cbn [Http.Header].
  by rewrite lookup_singleton_eq.
Defined.

(** ** Request validation: message and agent requests *)

(** X19: [ValidateMessageRequest] accepts the fields of a message
    exactly when content is a string of 1 to 10000 bytes and type is
    absent or one of the strings user and raw; any other field is
    ignored, and a content it accepts passes the strict-mode check of
    [validateJSONStructure]. *)
Theorem ValidateMessageRequest_accepts_iff (data : gmap string JSON) :
  (Validation.ValidateMessageRequest data = None
   <-> (exists content,
          data !! "content" = Some (JString content)
          /\ (1 <= Z.of_nat (String.length content) <= 10000)%Z)
       /\ (data !! "type" = None
           \/ data !! "type" = Some (JString "user")
           \/ data !! "type" = Some (JString "raw")))
  /\ (forall key value,
        key <> "content" -> key <> "type" ->
        Validation.ValidateMessageRequest (<[key := value]> data)
        = Validation.ValidateMessageRequest data)
  /\ (Validation.ValidateMessageRequest data = None ->
      forall content,
        data !! "content" = Some content -> Validation.validateJSONStructure content = None).
Proof.
  assert (Hiff : Validation.ValidateMessageRequest data = None
            <-> (exists content,
                   data !! "content" = Some (JString content)
                   /\ (1 <= Z.of_nat (String.length content) <= 10000)%Z)
                /\ (data !! "type" = None
                    \/ data !! "type" = Some (JString "user")
                    \/ data !! "type" = Some (JString "raw"))).
  { unfold Validation.ValidateMessageRequest.
    destruct (data !! "content") as [[| | |content| |]|];
      try (split; [done|]; intros [(c & [=] & _) _]; done).
    destruct (Nat.eqb_spec (String.length content) 0) as [Hzero|Hpos].
    { split; [done|]. intros [(c & [= <-] & Hlen) _]. lia. }
    destruct (Z.ltb_spec 10000 (Z.of_nat (String.length content))) as [Hlong|Hshort].
    { split; [done|]. intros [(c & [= <-] & Hlen) _]. lia. }
    assert (Hcontent : exists c, Some (JString content) = Some (JString c)
                         /\ (1 <= Z.of_nat (String.length c) <= 10000)%Z)
      by (exists content; split; [done|lia]).
    destruct (data !! "type") as [[| | |typeStr| |]|];
      try (split; [done|]; intros [_ [|[|]]]; done).
    - cbn [existsb]. repeat case_bool_decide; subst; cbn [orb];
        split; try done; try (intros _; split; auto; fail).
      intros [_ [|[[=]|[=]]]]; done.
    - split; [|done]. intros _. split; auto. }
  split; [exact Hiff|]. split.
  - intros key value Hc Ht. unfold Validation.ValidateMessageRequest.
    by rewrite !lookup_insert_ne by done.
  - intros Hok content Hcontent. apply Hiff in Hok as [(c & Hc & Hlen) _].
    rewrite Hcontent in Hc. injection Hc as ->. cbn [Validation.validateJSONStructure].
    destruct (Z.ltb_spec 10000 (Z.of_nat (String.length c))); [lia|done].
Qed.

(** X20: [ValidateAgentRequest] accepts the fields of a request exactly
    when agent_id is absent or a string of 1 to 100 bytes; any other
    field is ignored. *)
Theorem ValidateAgentRequest_accepts_iff (data : gmap string JSON) :
  (Validation.ValidateAgentRequest data = None
   <-> data !! "agent_id" = None
       \/ exists agentID,
            data !! "agent_id" = Some (JString agentID)
            /\ 1 <= String.length agentID <= 100)
  /\ (forall key value,
        key <> "agent_id" ->
        Validation.ValidateAgentRequest (<[key := value]> data)
        = Validation.ValidateAgentRequest data).
Proof.
  split.
  - unfold Validation.ValidateAgentRequest.
    destruct (data !! "agent_id") as [[| | |agentID| |]|];
      try (split; [done|]; intros [|(c & [=] & _)]; done).
    + destruct (Nat.eqb_spec (String.length agentID) 0) as [Hzero|Hpos].
      { split; [done|]. intros [|(c & [= <-] & Hlen)]; [done|lia]. }
      destruct (Nat.ltb_spec 100 (String.length agentID)) as [Hlong|Hshort].
      { split; [done|]. intros [|(c & [= <-] & Hlen)]; [done|lia]. }
      split; [|done]. intros _. right. exists agentID. split; [done|lia].
    + split; [|done]. by left.
  - intros key value Hne. unfold Validation.ValidateAgentRequest.
    by rewrite lookup_insert_ne.
Qed.

(** ** Request validation: what is handed on *)

Lemma Handler_forwards (unmarshal : string -> option JSON)
    (v : Validation.ValidationMiddleware) (rt : Runtime) (r r' : Http.Request) :
  Validation.Handler unmarshal v rt r = inr r' ->
  r' = if Validation.enabled v then Validation.addValidationContext rt r else r.
Proof.
  unfold Validation.Handler. destruct (Validation.enabled v); cbn [negb]; [|by intros [= <-]].
  destruct (Validation.validateRequestSize v r); [done|].
  destruct (if Middleware.ValidationConfig.ValidateHeaders _ then _ else _); [done|].
  destruct (if _ || _ then _ else _); [done|].
  destruct (Validation.hasJSONBody r); [|by intros [= <-]].
  destruct (Validation.validateAndBufferJSON unmarshal v r) as [body|err] eqn:Hbuf; [|done].
  intros [= <-]. apply validateAndBufferJSON_accepts in Hbuf as [Hbody _].
  unfold Validation.addValidationContext, Http.with_Body. cbn. by rewrite Hbody.
Qed.

(** X21: a request the validator hands on is the request it received:
    method, path, headers, query, declared length and body are the same,
    and a request context that was present is kept, so the user the
    authenticator attached is still attached after validation. *)
Theorem Handler_keeps_request (unmarshal : string -> option JSON)
    (v : Validation.ValidationMiddleware) (rt : Runtime) (r r' : Http.Request) :
  Validation.Handler unmarshal v rt r = inr r' ->
  Http.Method r' = Http.Method r
  /\ Http.Path r' = Http.Path r
  /\ Http.Header r' = Http.Header r
  /\ Http.Query r' = Http.Query r
  /\ Http.ContentLength r' = Http.ContentLength r
  /\ Http.Body r' = Http.Body r
  /\ (forall reqCtx, Http.Context r = Some reqCtx -> Http.Context r' = Some reqCtx)
  /\ (forall decode a rt0 r0,
        Auth.enabled a = true ->
        Auth.Handler decode a rt0 r0 = inr r ->
        exists userID,
          Auth.AuthenticateRequest decode a rt0 r0 = inl userID
          /\ (Middleware.UserID <$> Http.Context r') = Some userID).
Proof.
  intros Hrun. apply Handler_forwards in Hrun.
  assert (Hfields : Http.Method r' = Http.Method r /\ Http.Path r' = Http.Path r
            /\ Http.Header r' = Http.Header r /\ Http.Query r' = Http.Query r
            /\ Http.ContentLength r' = Http.ContentLength r /\ Http.Body r' = Http.Body r
            /\ (forall reqCtx, Http.Context r = Some reqCtx -> Http.Context r' = Some reqCtx)).
  { rewrite Hrun. destruct (Validation.enabled v); [|done].
    unfold Validation.addValidationContext. cbn. do 6 (split; [done|]).
    by intros reqCtx ->. }
  destruct Hfields as (Hm & Hp & Hh & Hq & Hl & Hb & Hc).
  do 6 (split; [done|]). split; [exact Hc|].
  intros decode a rt0 r0 Hen. unfold Auth.Handler, Auth.AuthenticateRequest.
  rewrite Hen. cbn [negb].
  destruct (Auth.extractToken a r0) as [token|]; [|done].
  destruct (Auth.validateToken decode a rt0 token) as [userID|]; [|done].
  intros [= <-]. exists userID. split; [done|].
  by rewrite (Hc _ eq_refl).
Qed.

Lemma Handler_keeps_request_witness :
  exists r',
    Validation.Handler sample_unmarshal strict_validator sample_runtime (json_post "[1]") = inr r'
    /\ Http.Method r' = "POST"
    /\ Http.Body r' = inl "[1]".
Proof.
  destruct (Validation.Handler sample_unmarshal strict_validator sample_runtime (json_post "[1]"))
    as [w|r'] eqn:Hrun; [by vm_compute in Hrun|].
  exists r'. split; [done|].
  by destruct (Handler_keeps_request sample_unmarshal strict_validator sample_runtime
                 (json_post "[1]") r' Hrun) as (-> & _ & _ & _ & _ & -> & _).
Defined.

(** ** Sessions: lookup, creation and cleanup *)

Lemma NewClaudeMiddleware_keyed (cfg : Middleware.ClaudeConfig.t) :
  sessions_keyed (Claude.NewClaudeMiddleware cfg).
Proof. intros key session H. cbn in H. by rewrite lookup_empty in H. Qed.

Lemma getOrCreateSession_existing (c : Claude.ClaudeMiddleware) (rt : Runtime)
    (sessionID conversationID model : string) (session : Claude.ClaudeSession) :
  sessionID <> "" ->
  Claude.sessions c !! sessionID = Some session ->
  Claude.getOrCreateSession c rt sessionID conversationID model = (session, c).
Proof.
  intros Hne Hfound. unfold Claude.getOrCreateSession.
  rewrite bool_decide_eq_false_2 by done. by rewrite Hfound.
Qed.

Lemma getOrCreateSession_stores (c : Claude.ClaudeMiddleware) (rt : Runtime)
    (sessionID conversationID model : string) :
  sessions_keyed c ->
  let out := Claude.getOrCreateSession c rt sessionID conversationID model in
  Claude.sessions out.2 !! Claude.ID out.1 = Some out.1
  /\ (sessionID <> "" -> Claude.ID out.1 = sessionID)
  /\ (forall other, other <> Claude.ID out.1 ->
        Claude.sessions out.2 !! other = Claude.sessions c !! other)
  /\ Claude.config out.2 = Claude.config c
  /\ Claude.enabled out.2 = Claude.enabled c
  /\ sessions_keyed out.2.
Proof.
  intros Hkeyed. unfold Claude.getOrCreateSession.
  case_bool_decide as Hempty.
  - cbn. rewrite lookup_insert_eq. repeat split; try done.
    + intros other Hne. by rewrite lookup_insert_ne.
    + intros key session. cbn [Claude.sessions Claude.set_sessions].
      destruct (decide (key = "claude_session_" ++ fresh_id rt)) as [->|Hne].
      * rewrite lookup_insert_eq. by intros [= <-].
      * rewrite lookup_insert_ne by done. apply Hkeyed.
  - destruct (Claude.sessions c !! sessionID) as [existing|] eqn:Hfound.
    + cbn. pose proof (Hkeyed _ _ Hfound) as Hid. rewrite Hid. by repeat split.
    + cbn. rewrite lookup_insert_eq. repeat split; try done.
      * intros other Hne. by rewrite lookup_insert_ne.
      * intros key session. cbn [Claude.sessions Claude.set_sessions].
        destruct (decide (key = sessionID)) as [->|Hne].
        -- rewrite lookup_insert_eq. by intros [= <-].
        -- rewrite lookup_insert_ne by done. apply Hkeyed.
Qed.

(** X22: [getOrCreateSession], on a store in which every session is
    kept under its own identifier: the session it returns is in the store
    afterwards, under the requested identifier when one was given; no
    other entry changes; an existing session is returned as it is, the
    conversation and model arguments being ignored; a new one gets the
    default model and the clock as creation and activity time; and asking
    again for the same identifier returns the same session. *)
Theorem getOrCreateSession_finds_or_creates (c : Claude.ClaudeMiddleware) (rt : Runtime)
    (sessionID conversationID model : string) :
  sessions_keyed c ->
  let session := (Claude.getOrCreateSession c rt sessionID conversationID model).1 in
  let c' := (Claude.getOrCreateSession c rt sessionID conversationID model).2 in
  Claude.GetSession c' (Claude.ID session) = Some session
  /\ (sessionID <> "" -> Claude.ID session = sessionID)
  /\ (forall other, other <> Claude.ID session ->
        Claude.GetSession c' other = Claude.GetSession c other)
  /\ (forall existing,
        sessionID <> "" -> Claude.GetSession c sessionID = Some existing ->
        session = existing /\ c' = c)
  /\ (sessionID <> "" -> Claude.GetSession c sessionID = None ->
      session
      = {| Claude.ID := sessionID;
           Claude.ConversationID :=
             if bool_decide (conversationID = "") then "claude_conv_" ++ fresh_id rt
             else conversationID;
           Claude.Model := if bool_decide (model = "") then "claude-3-sonnet" else model;
           Claude.Tools := []; Claude.Context := ∅;
           Claude.CreatedAt := now rt; Claude.LastActivity := now rt;
           Claude.Status := "active" |}
      /\ Claude.GetSessionCount c' = S (Claude.GetSessionCount c))
  /\ (forall rt' conversationID' model',
        sessionID <> "" ->
        Claude.getOrCreateSession c' rt' sessionID conversationID' model' = (session, c'))
  /\ sessions_keyed c'.
Proof.
  intros Hkeyed session c'.
  destruct (getOrCreateSession_stores c rt sessionID conversationID model Hkeyed)
    as (Hstored & Hid & Hother & _ & _ & Hkeyed').
  fold session c' in Hstored, Hid, Hother, Hkeyed'. unfold Claude.GetSession.
  split; [done|]. split; [done|]. split; [done|]. split; [|split; [|split; [|done]]].
  - intros existing Hne Hfound. subst session c'.
    by rewrite (getOrCreateSession_existing c rt sessionID conversationID model existing).
  - intros Hne Hnone. subst session c'. unfold Claude.getOrCreateSession, Claude.GetSessionCount.
    rewrite bool_decide_eq_false_2 by done. rewrite Hnone. cbn.
    split; [done|]. by rewrite map_size_insert_None.
  - intros rt' conversationID' model' Hne.
    apply getOrCreateSession_existing; [done|]. by rewrite <- (Hid Hne).
Qed.

Lemma getOrCreateSession_finds_or_creates_witness :
  (Claude.getOrCreateSession default_claude sample_runtime "s1" "" "").1
  = {| Claude.ID := "s1"; Claude.ConversationID := "claude_conv_1700000000000000000";
       Claude.Model := "claude-3-sonnet"; Claude.Tools := []; Claude.Context := ∅;
       Claude.CreatedAt := now sample_runtime; Claude.LastActivity := now sample_runtime;
       Claude.Status := "active" |}.
Proof.
  by apply (getOrCreateSession_finds_or_creates default_claude sample_runtime "s1" "" "");
    [apply NewClaudeMiddleware_keyed| |].
Defined.

(** X23: [handleClaudeMessage], when max_retries is not negative: it
    does not panic; the session of the request is in the store afterwards
    whether the backend call succeeded or failed, with the string entries
    of the request context merged in; no other session changes; on
    success its activity time is the clock and its status that of the
    reply, so no cleanup within the next thirty minutes evicts it; on
    failure the answer is 500 with the code CLAUDE_ERROR. *)
Theorem handleClaudeMessage_keeps_session (decode : string -> option Claude.ClaudeResponse.t)
    (Marshal : Claude.Payload.t -> string + string) (ParseURL : string -> error)
    (c : Claude.ClaudeMiddleware) (rt : Runtime) (Do : Claude.Client)
    (req : Claude.ClaudeRequest.t) :
  sessions_keyed c ->
  (0 <= Middleware.ClaudeConfig.MaxRetries (Claude.config c))%Z ->
  exists reply c' session,
    (Claude.handleClaudeMessage decode Marshal ParseURL c rt Do (Some req)).1
    = Done (reply, c')
    /\ Claude.GetSession c' (Claude.ID session) = Some session
    /\ (Claude.ClaudeRequest.SessionID req <> "" ->
        Claude.ID session = Claude.ClaudeRequest.SessionID req)
    /\ (forall key value,
          Claude.ClaudeRequest.Context req !! key = Some value ->
          Claude.Context session !! key = Some value)
    /\ (forall other, other <> Claude.ID session ->
          Claude.GetSession c' other = Claude.GetSession c other)
    /\ sessions_keyed c'
    /\ (forall response,
          reply = Claude.Replied response ->
          Claude.LastActivity session = now rt
          /\ Claude.Status session = Claude.ClaudeResponse.Status response
          /\ forall rt',
               (now rt' - now rt <= Manager.idle_threshold)%Z ->
               Claude.GetSession (Claude.CleanupSessions c' rt' Manager.idle_threshold)
                 (Claude.ID session) = Some session)
    /\ (forall statusCode code message,
          reply = Claude.Failed statusCode code message ->
          statusCode = 500%Z /\ code = "CLAUDE_ERROR").
Proof.
  intros Hkeyed Hretries. unfold Claude.handleClaudeMessage.
  pose proof (getOrCreateSession_stores c rt (Claude.ClaudeRequest.SessionID req)
                (Claude.ClaudeRequest.ConversationID req) (Claude.ClaudeRequest.Model req)
                Hkeyed) as Hget.
  destruct (Claude.getOrCreateSession c rt _ _ _) as [s0 c1].
  cbn [fst snd] in Hget. destruct Hget as (Hstored & Hid & Hother & Hcfg & _ & Hkeyed1).
  cbn [Claude.ID].
  match goal with
  | |- context [Claude.forwardToClaudeCode _ _ _ ?c2 _ _ ?session _] =>
      destruct (forwardToClaudeCode_returns decode Marshal ParseURL c2 rt Do session req)
        as [res Hres]; [cbn [Claude.config Claude.set_sessions]; by rewrite Hcfg |];
      destruct (Claude.forwardToClaudeCode decode Marshal ParseURL c2 rt Do session req)
        as [result trace]
  end.
  cbn [fst] in Hres. subst result.
  cbn [fst run_bind]. unfold Claude.GetSession.
  assert (Hkeyed_insert : forall session,
            Claude.ID session = Claude.ID s0 ->
            forall m : gmap string Claude.ClaudeSession,
              (forall key s, m !! key = Some s -> Claude.ID s = key) ->
            forall key s, <[Claude.ID s0 := session]> m !! key = Some s -> Claude.ID s = key).
  { intros session Hsid m Hm key s. destruct (decide (key = Claude.ID s0)) as [->|Hne].
    - rewrite lookup_insert_eq. by intros [= <-].
    - rewrite lookup_insert_ne by done. apply Hm. }
  destruct res as [response|e].
  - eexists _, _,
      (Claude.mkClaudeSession (Claude.ID s0) (Claude.ConversationID s0) (Claude.Model s0)
         (Claude.Tools s0) (Claude.ClaudeRequest.Context req ∪ Claude.Context s0)
         (Claude.CreatedAt s0) (now rt) (Claude.ClaudeResponse.Status response)).
    split; [reflexivity|].
    cbn [Claude.sessions Claude.set_sessions Claude.ID Claude.Context Claude.LastActivity
         Claude.Status].
    split; [by rewrite lookup_insert_eq|]. split; [done|].
    split; [intros key value Hreq; by apply lookup_union_Some_l|].
    split; [intros other Hne; by rewrite !lookup_insert_ne, Hother by done|].
    split; [unfold sessions_keyed; cbn [Claude.sessions Claude.set_sessions];
            apply Hkeyed_insert; [done|]; apply Hkeyed_insert; [done|]; apply Hkeyed1|].
    split; [|done]. intros ? [= <-]. split; [done|]. split; [done|].
    intros rt' Hrecent. unfold Claude.GetSession. rewrite CleanupSessions_lookup.
    cbn [Claude.sessions Claude.set_sessions]. rewrite lookup_insert_eq.
    cbn [Claude.LastActivity].
    by destruct (Z.ltb_spec Manager.idle_threshold (now rt' - now rt)); [lia|].
  - eexists _, _,
      (Claude.mkClaudeSession (Claude.ID s0) (Claude.ConversationID s0) (Claude.Model s0)
         (Claude.Tools s0) (Claude.ClaudeRequest.Context req ∪ Claude.Context s0)
         (Claude.CreatedAt s0) (Claude.LastActivity s0) (Claude.Status s0)).
    split; [reflexivity|].
    cbn [Claude.sessions Claude.set_sessions Claude.ID Claude.Context].
    split; [by rewrite lookup_insert_eq|]. split; [done|].
    split; [intros key value Hreq; by apply lookup_union_Some_l|].
    split; [intros other Hne; by rewrite !lookup_insert_ne, Hother by done|].
    split; [unfold sessions_keyed; cbn [Claude.sessions Claude.set_sessions];
            apply Hkeyed_insert; [done|]; apply Hkeyed1|].
    split; [done|]. by intros ? ? ? [= <- <- _].
Qed.

Lemma handleClaudeMessage_keeps_session_witness :
  exists reply c' session,
    (Claude.handleClaudeMessage sample_decode sample_Marshal any_url default_claude
       sample_runtime (sending_client flaky_backend) (Some sample_message_request)).1
    = Done (reply, c')
    /\ Claude.GetSession c' "s1" = Some session
    /\ Claude.Context session !! "repo" = Some "agentapi".
Proof.
  destruct (handleClaudeMessage_keeps_session sample_decode sample_Marshal any_url
              default_claude sample_runtime (sending_client flaky_backend)
              sample_message_request)
    as (reply & c' & session & Hrun & Hstored & Hid & Hctx & _);
    [apply NewClaudeMiddleware_keyed|by vm_compute|].
  exists reply, c', session. split; [exact Hrun|].
  change "s1" with (Claude.ClaudeRequest.SessionID sample_message_request) at 1.
  rewrite <- (Hid ltac:(done)). split; [exact Hstored|].
  apply Hctx. reflexivity.
Defined.

(** X24: [CleanupSessions] only removes sessions, and cleanups
    compose: a cleanup followed by a later one with the same maximal age
    leaves what the later one alone would leave. *)
Theorem CleanupSessions_composes (c : Claude.ClaudeMiddleware) (rt rt' : Runtime) (maxAge : Z) :
  (now rt <= now rt')%Z ->
  Claude.CleanupSessions (Claude.CleanupSessions c rt maxAge) rt' maxAge
  = Claude.CleanupSessions c rt' maxAge
  /\ Claude.sessions (Claude.CleanupSessions c rt' maxAge)
     ⊆ Claude.sessions (Claude.CleanupSessions c rt maxAge)
  /\ Claude.sessions (Claude.CleanupSessions c rt maxAge) ⊆ Claude.sessions c
  /\ Claude.GetSessionCount (Claude.CleanupSessions c rt maxAge) <= Claude.GetSessionCount c.
Proof.
  intros Hlater.
  assert (Hsub : forall rt0, Claude.sessions (Claude.CleanupSessions c rt0 maxAge)
                             ⊆ Claude.sessions c).
  { intros rt0. apply map_subseteq_spec. intros key session.
    rewrite CleanupSessions_lookup. destruct (Claude.sessions c !! key) as [s|]; [|done].
    by destruct (maxAge <? now rt0 - Claude.LastActivity s)%Z. }
  split; [|split; [|split]].
  - assert (Hrecord : forall c1 c2,
              Claude.config c1 = Claude.config c2 -> Claude.enabled c1 = Claude.enabled c2 ->
              Claude.sessions c1 = Claude.sessions c2 -> c1 = c2).
    { intros [] []; cbn; by intros -> -> ->. }
    apply Hrecord; [done|done|]. apply map_eq. intros key.
    rewrite !CleanupSessions_lookup. destruct (Claude.sessions c !! key) as [s|]; [|done].
    destruct (Z.ltb_spec maxAge (now rt - Claude.LastActivity s));
      destruct (Z.ltb_spec maxAge (now rt' - Claude.LastActivity s)); try done; lia.
  - apply map_subseteq_spec. intros key session.
    rewrite !CleanupSessions_lookup. destruct (Claude.sessions c !! key) as [s|]; [|done].
    destruct (Z.ltb_spec maxAge (now rt - Claude.LastActivity s));
      destruct (Z.ltb_spec maxAge (now rt' - Claude.LastActivity s)); try done; lia.
  - apply Hsub.
  - unfold Claude.GetSessionCount. apply map_subseteq_size, Hsub.
Qed.

Lemma CleanupSessions_composes_witness :
  Claude.CleanupSessions
    (Claude.CleanupSessions (Manager.claude manager_with_sessions)
       (runtime_at (now sample_runtime - 10 * Middleware.minute) "") Manager.idle_threshold)
    sample_runtime Manager.idle_threshold
  = Claude.CleanupSessions (Manager.claude manager_with_sessions) sample_runtime
      Manager.idle_threshold.
Proof.
  destruct (CleanupSessions_composes (Manager.claude manager_with_sessions)
              (runtime_at (now sample_runtime - 10 * Middleware.minute) "") sample_runtime
              Manager.idle_threshold) as [Heq _]; [by vm_compute|].
  exact Heq.
Defined.

(** X25: with a negative max_retries, a payload that [json.Marshal]
    encodes and an endpoint that [http.NewRequest] accepts, the retry
    loop is not entered and [forwardToClaudeCode] dereferences the
    response it never received: every message request panics, without a
    call to the backend. [ValidateConfig] does not read max_retries, so
    it does not exclude such a configuration. *)
Theorem negative_MaxRetries_panics (decode : string -> option Claude.ClaudeResponse.t)
    (Marshal : Claude.Payload.t -> string + string) (ParseURL : string -> error)
    (parse : Http.Request -> option Claude.ClaudeRequest.t)
    (c : Claude.ClaudeMiddleware) (rt : Runtime) (Do : Claude.Client)
    (req : Claude.ClaudeRequest.t) (r : Http.Request) :
  (Middleware.ClaudeConfig.MaxRetries (Claude.config c) < 0)%Z ->
  (forall payload, exists jsonData, Marshal payload = inl jsonData) ->
  ParseURL (Middleware.ClaudeConfig.APIEndpoint (Claude.config c)) = None ->
  Claude.handleClaudeMessage decode Marshal ParseURL c rt Do (Some req)
  = (Panicked NilPointerDereference, [])
  /\ (Http.Method r = "POST" -> parse r = Some req ->
      Claude.handleClaudeRequest decode Marshal ParseURL parse c rt Do r
      = (Panicked NilPointerDereference, []))
  /\ (forall cfg n,
        Middleware.ValidateConfig (with_MaxRetries cfg n) = Middleware.ValidateConfig cfg).
Proof.
  intros Hneg Hmarshal Hurl.
  assert (Hmsg : Claude.handleClaudeMessage decode Marshal ParseURL c rt Do (Some req)
                 = (Panicked NilPointerDereference, [])).
  { unfold Claude.handleClaudeMessage.
    assert (Hcfg : Claude.config
                     (Claude.getOrCreateSession c rt (Claude.ClaudeRequest.SessionID req)
                        (Claude.ClaudeRequest.ConversationID req)
                        (Claude.ClaudeRequest.Model req)).2 = Claude.config c).
    { unfold Claude.getOrCreateSession.
      by destruct (if bool_decide _ then None else _). }
    destruct (Claude.getOrCreateSession c rt _ _ _) as [s0 c1]. cbn [snd] in Hcfg.
    match goal with
    | |- context [Claude.forwardToClaudeCode _ _ _ ?c2 _ _ ?session _] =>
        destruct (Hmarshal (payload_of session req)) as [jsonData Hjson];
        rewrite (forwardToClaudeCode_negative_retries decode Marshal ParseURL c2 rt Do
                   session req jsonData Hjson)
          by (cbn [Claude.config Claude.set_sessions]; by rewrite Hcfg)
    end.
    done. }
  split; [done|]. split; [|done].
  intros Hpost Hparse. unfold Claude.handleClaudeRequest.
  rewrite bool_decide_eq_true_2 by done. by rewrite Hparse, Hmsg.
Qed.

Lemma negative_MaxRetries_panics_witness :
  Middleware.ValidateConfig (with_MaxRetries Middleware.CreateDefaultConfig (-1)) = None
  /\ Claude.handleClaudeMessage sample_decode sample_Marshal any_url
       (Claude.NewClaudeMiddleware
          (Middleware.Claude (with_MaxRetries Middleware.CreateDefaultConfig (-1))))
       sample_runtime (sending_client flaky_backend) (Some sample_message_request)
     = (Panicked NilPointerDereference, []).
Proof.
  split; [reflexivity|].
  apply (negative_MaxRetries_panics sample_decode sample_Marshal any_url no_parse _
           sample_runtime (sending_client flaky_backend) sample_message_request
           sample_request).
  - by vm_compute.
  - intros payload. by eexists.
  - reflexivity.
Defined.

(** ** Sessions: the endpoints *)

Lemma HasPrefix_app (p s : string) : Strings.HasPrefix (p ++ s) p = true.
Proof.
  unfold Strings.HasPrefix. induction p as [|c p IH].
  - rewrite append_empty. by destruct s.
  - rewrite append_String. cbn [String.prefix]. by destruct (ascii_dec c c).
Qed.

Lemma drop_bytes_app (p s : string) : Strings.drop_bytes (String.length p) (p ++ s) = s.
Proof.
  induction p as [|c p IH].
  - by rewrite append_empty.
  - rewrite append_String. by cbn [String.length Strings.drop_bytes].
Qed.

Lemma TrimPrefix_app (p s : string) : Strings.TrimPrefix (p ++ s) p = s.
Proof. unfold Strings.TrimPrefix. by rewrite HasPrefix_app, drop_bytes_app. Qed.

Lemma Contains_of_HasPrefix (s sub : string) :
  Strings.HasPrefix s sub = true -> Strings.Contains s sub = true.
Proof. destruct s; cbn [Strings.Contains]; by intros ->. Qed.

Lemma Contains_app (a sub rest : string) : Strings.Contains (a ++ sub ++ rest) sub = true.
Proof.
  induction a as [|c a IH].
  - rewrite append_empty. apply Contains_of_HasPrefix, HasPrefix_app.
  - rewrite append_String. cbn [Strings.Contains]. rewrite IH. apply orb_true_r.
Qed.

Lemma deleted_session_id_of_path (r : Http.Request) (id : string) :
  Strings.HasPrefix id "/api/claude/session/" = false ->
  Http.Path r = "/claude/session/" ++ id \/ Http.Path r = "/api/claude/session/" ++ id ->
  Claude.deleted_session_id r = id
  /\ Strings.Contains (Http.Path r) "/session/" = true
  /\ Claude.isClaudeRequest r = true.
Proof.
  intros Hplain Hpath. unfold Claude.deleted_session_id, Claude.isClaudeRequest.
  destruct Hpath as [-> | ->].
  - rewrite TrimPrefix_app. split; [unfold Strings.TrimPrefix; by rewrite Hplain|].
    split; [apply (Contains_app "/claude" "/session/" id)|].
    change ("/claude/session/" ++ id) with ("/claude/" ++ "session/" ++ id).
    by rewrite HasPrefix_app.
  - assert (Hfirst : Strings.TrimPrefix ("/api/claude/session/" ++ id) "/claude/session/"
                     = "/api/claude/session/" ++ id) by reflexivity.
    rewrite Hfirst, TrimPrefix_app. split; [done|].
    split; [apply (Contains_app "/api/claude" "/session/" id)|].
    change ("/api/claude/session/" ++ id) with ("/api/claude/" ++ "session/" ++ id).
    rewrite HasPrefix_app. by rewrite orb_true_r.
Qed.

(** X26: the session endpoints: for a stored session whose identifier
    is not empty and does not itself begin with the API session path, GET
    on a path ending in /session answers the session; DELETE on either
    session path followed by the identifier answers no content and
    removes that session and no other; GET then answers 404. *)
Theorem session_endpoints_round_trip (decode : string -> option Claude.ClaudeResponse.t)
    (Marshal : Claude.Payload.t -> string + string) (ParseURL : string -> error)
    (parse : Http.Request -> option Claude.ClaudeRequest.t)
    (c : Claude.ClaudeMiddleware) (rt : Runtime) (Do : Claude.Client)
    (id : string) (session : Claude.ClaudeSession) :
  id <> "" ->
  Strings.HasPrefix id "/api/claude/session/" = false ->
  Claude.GetSession c id = Some session ->
  let c' := Claude.set_sessions c (delete id (Claude.sessions c)) in
  (forall r,
     Http.Method r = "GET" -> Strings.HasSuffix (Http.Path r) "/session" = true ->
     Http.QueryGet r "session_id" = id ->
     Claude.handleClaudeRequest decode Marshal ParseURL parse c rt Do r
     = (Done (Claude.AnswerSession session, c), []))
  /\ (forall r,
        Http.Method r = "DELETE" ->
        Http.Path r = "/claude/session/" ++ id \/ Http.Path r = "/api/claude/session/" ++ id ->
        Claude.isClaudeRequest r = true
        /\ Claude.handleClaudeRequest decode Marshal ParseURL parse c rt Do r
           = (Done (Claude.AnswerNoContent, c'), []))
  /\ (forall r,
        Http.Method r = "GET" -> Strings.HasSuffix (Http.Path r) "/session" = true ->
        Http.QueryGet r "session_id" = id ->
        Claude.handleClaudeRequest decode Marshal ParseURL parse c' rt Do r
        = (Done (Claude.AnswerError 404 "SESSION_NOT_FOUND" "Session not found", c'), []))
  /\ (forall other, other <> id -> Claude.GetSession c' other = Claude.GetSession c other).
Proof.
  intros Hne Hplain Hfound c'. unfold Claude.GetSession in *.
  assert (Hget : forall c0 r,
            Http.Method r = "GET" -> Strings.HasSuffix (Http.Path r) "/session" = true ->
            Http.QueryGet r "session_id" = id ->
            Claude.handleClaudeRequest decode Marshal ParseURL parse c0 rt Do r
            = (Done (match Claude.sessions c0 !! id with
                     | Some s => Claude.AnswerSession s
                     | None => Claude.AnswerError 404 "SESSION_NOT_FOUND" "Session not found"
                     end, c0), [])).
  { intros c0 r Hm Hs Hq. unfold Claude.handleClaudeRequest. rewrite Hm, Hs.
    rewrite (bool_decide_eq_false_2 ("GET" = "POST")) by done.
    rewrite (bool_decide_eq_true_2 ("GET" = "GET")) by done.
    unfold Claude.handleGetSession_answer. rewrite Hq.
    by rewrite bool_decide_eq_false_2. }
  split; [|split; [|split]].
  - intros r Hm Hs Hq. by rewrite Hget, Hfound.
  - intros r Hm Hpath.
    destruct (deleted_session_id_of_path r id Hplain Hpath) as (Hid & Hcontains & Hclaude).
    split; [done|]. unfold Claude.handleClaudeRequest. rewrite Hm, Hcontains.
    rewrite (bool_decide_eq_false_2 ("DELETE" = "POST")) by done.
    rewrite (bool_decide_eq_false_2 ("DELETE" = "GET")) by done.
    rewrite (bool_decide_eq_true_2 ("DELETE" = "DELETE")) by done.
    unfold Claude.handleDeleteSession_answer, Claude.handleDeleteSession. rewrite Hid.
    by rewrite bool_decide_eq_false_2.
  - intros r Hm Hs Hq. rewrite Hget by done. subst c'.
    cbn [Claude.sessions Claude.set_sessions]. by rewrite lookup_delete_eq.
  - intros other Hother. subst c'. cbn [Claude.sessions Claude.set_sessions].
    by rewrite lookup_delete_ne.
Qed.

Lemma session_endpoints_round_trip_witness :
  Claude.handleClaudeRequest sample_decode sample_Marshal any_url no_parse
    (Manager.claude manager_with_sessions) sample_runtime (sending_client flaky_backend)
    (request_to "DELETE" "/api/claude/session/old" ∅)
  = (Done (Claude.AnswerNoContent,
           Claude.set_sessions (Manager.claude manager_with_sessions)
             (delete "old" (Claude.sessions (Manager.claude manager_with_sessions)))), []).
Proof.
  pose proof (session_endpoints_round_trip sample_decode sample_Marshal any_url no_parse
                (Manager.claude manager_with_sessions) sample_runtime
                (sending_client flaky_backend) "old"
                (idle_session (now sample_runtime - 31 * Middleware.minute))
                ltac:(done) eq_refl) as Hround.
  destruct Hround as (_ & Hdelete & _); [vm_compute; reflexivity|].
  by destruct (Hdelete (request_to "DELETE" "/api/claude/session/old" ∅)) as [_ ->];
    [done|right|].
Defined.

(** ** Response formatting *)

Lemma append_assoc (a b c : string) : (a ++ b) ++ c = a ++ b ++ c.
Proof.
  induction a as [|x a IH]; [by rewrite !append_empty|].
  by rewrite !append_String, IH.
Qed.

Lemma append_empty_r (a : string) : a ++ "" = a.
Proof. induction a as [|x a IH]; [done|]. by rewrite append_String, IH. Qed.

Lemma response_writer_fold (calls : list Errors.WriterCall) (rw : Response.ResponseWriter.t)
    (out : list Errors.WriterCall) :
  Response.ResponseWriter.body (foldl Response.call (rw, out) calls).1
  = Response.ResponseWriter.body rw ++ written_bytes calls
  /\ (foldl Response.call (rw, out) calls).2 = (out ++ calls)%list.
Proof.
  induction calls as [|c calls IH] in rw, out |- *.
  - cbn. by rewrite append_empty_r, app_nil_r.
  - cbn [foldl]. destruct c as [statusCode|data].
    + change (Response.call (rw, out) (Errors.CallWriteHeader statusCode))
        with ({| Response.ResponseWriter.statusCode := statusCode;
                 Response.ResponseWriter.body := Response.ResponseWriter.body rw |},
              (out ++ [Errors.CallWriteHeader statusCode])%list).
      destruct (IH {| Response.ResponseWriter.statusCode := statusCode;
                      Response.ResponseWriter.body := Response.ResponseWriter.body rw |}
                  (out ++ [Errors.CallWriteHeader statusCode])%list) as [Hb Ho].
      rewrite Hb, Ho. cbn [Response.ResponseWriter.body written_bytes].
      by rewrite <- app_assoc.
    + change (Response.call (rw, out) (Errors.CallWrite data))
        with ({| Response.ResponseWriter.statusCode := Response.ResponseWriter.statusCode rw;
                 Response.ResponseWriter.body := Response.ResponseWriter.body rw ++ data |},
              (out ++ [Errors.CallWrite data])%list).
      destruct (IH {| Response.ResponseWriter.statusCode := Response.ResponseWriter.statusCode rw;
                      Response.ResponseWriter.body := Response.ResponseWriter.body rw ++ data |}
                  (out ++ [Errors.CallWrite data])%list) as [Hb Ho].
      rewrite Hb, Ho. cbn [Response.ResponseWriter.body written_bytes].
      by rewrite append_assoc, <- app_assoc.
Qed.

Lemma setStandardHeaders_encoding (r : Response.ResponseMiddleware) (req : Http.Request)
    (header : gmap string string) :
  Response.supportsCompression req = true ->
  (0 < Middleware.ResponseConfig.CompressionLevel (Response.config r))%Z ->
  Response.setStandardHeaders r req header !! "Content-Encoding" = Some "gzip".
Proof.
  intros Hgzip Hlevel. unfold Response.setStandardHeaders. rewrite Hgzip.
  destruct (Z.ltb_spec 0 (Middleware.ResponseConfig.CompressionLevel (Response.config r)));
    [|lia].
  cbn [andb]. destruct (Http.Context req); by simplify_map_eq.
Qed.

(** X27: the response layer never changes the bytes: the calls of the
    next handler reach the wrapped writer as they were made, also when
    the client accepts gzip and compression is configured, in which case
    the response has been labelled gzip before the handler ran and the
    length of the compressed copy is put in the header map afterwards. *)
Theorem Response_Handler_passes_bytes (gzip : Z -> string -> option string)
    (r : Response.ResponseMiddleware) (req : Http.Request) (elapsed : string)
    (header : gmap string string) (calls : list Errors.WriterCall) (compressed : string) :
  Response.enabled r = true ->
  Response.supportsCompression req = true ->
  (0 < Middleware.ResponseConfig.CompressionLevel (Response.config r))%Z ->
  written_bytes calls <> "" ->
  gzip (Middleware.ResponseConfig.CompressionLevel (Response.config r)) (written_bytes calls)
  = Some compressed ->
  Response.header_before (Response.Handler gzip r req elapsed header calls)
    !! "Content-Encoding" = Some "gzip"
  /\ Response.to_writer (Response.Handler gzip r req elapsed header calls) = calls
  /\ Response.header_after (Response.Handler gzip r req elapsed header calls)
       !! "Content-Length" = Some (pretty (String.length compressed)).
Proof.
  intros Hen Hgzip Hlevel Hbody Hcompress. unfold Response.Handler. rewrite Hen. cbn [negb].
  destruct (response_writer_fold calls Response.NewResponseWriter []) as [Hb Ho].
  destruct (foldl Response.call _ calls) as [rw out]. cbn [fst snd] in Hb, Ho.
  cbn [Response.header_before Response.to_writer Response.header_after].
  rewrite app_nil_l in Ho. subst out.
  change (Response.ResponseWriter.body Response.NewResponseWriter) with "" in Hb.
  rewrite append_empty in Hb.
  split; [by apply setStandardHeaders_encoding|]. split; [done|].
  unfold Response.postProcessResponse. rewrite Hgzip.
  destruct (Z.ltb_spec 0 (Middleware.ResponseConfig.CompressionLevel (Response.config r)));
    [|lia].
  cbn [andb]. unfold Response.compressResponse. rewrite Hb.
  destruct (Nat.eqb_spec (String.length (written_bytes calls)) 0) as [Hzero|_].
  { by destruct (written_bytes calls). }
  rewrite Hcompress. by rewrite lookup_insert_eq.
Qed.

Lemma Response_Handler_passes_bytes_witness :
  let out :=
    Response.Handler sample_gzip
      (Response.NewResponseMiddleware (Middleware.Response Middleware.CreateDefaultConfig))
      gzip_request "1ms" ∅ [Errors.CallWriteHeader 200; Errors.CallWrite "{}"] in
  Response.header_before out !! "Content-Encoding" = Some "gzip"
  /\ Response.to_writer out = [Errors.CallWriteHeader 200; Errors.CallWrite "{}"]
  /\ Response.header_after out !! "Content-Length" = Some "7".
Proof.
  destruct (Response_Handler_passes_bytes sample_gzip
              (Response.NewResponseMiddleware (Middleware.Response Middleware.CreateDefaultConfig))
              gzip_request "1ms" ∅ [Errors.CallWriteHeader 200; Errors.CallWrite "{}"]
              "gzipped") as (Henc & Hout & Hlen);
    [done|by vm_compute|by vm_compute|done|done|].
  cbv zeta. by rewrite Henc, Hout, Hlen.
Defined.

(** ** Configuration updates: what survives *)

Lemma chain_of_flags (e r a v s cl : bool) :
  let l := ((if e then ["errors"] else []) ++ (if r then ["response"] else [])
            ++ (if a then ["auth"] else []) ++ (if v then ["validation"] else [])
            ++ (if s then ["sync"] else []) ++ (if cl then ["claude"] else []))%list in
  sublist l ["errors"; "response"; "auth"; "validation"; "sync"; "claude"]
  /\ ("errors" ∈ l <-> e = true)
  /\ ("response" ∈ l <-> r = true)
  /\ ("auth" ∈ l <-> a = true)
  /\ ("validation" ∈ l <-> v = true)
  /\ ("sync" ∈ l <-> s = true)
  /\ ("claude" ∈ l <-> cl = true).
Proof.
  destruct e, r, a, v, s, cl; cbn [app]; (split; [repeat constructor|]);
    repeat split; intros H; try done;
    try (apply list_elem_of_In; cbn; tauto);
    apply list_elem_of_In in H; cbn in H; intuition discriminate.
Qed.

(** X28: [UpdateConfig] cannot fail: it stores the configuration it is
    given and reconfigures every component, keeping the API keys, the
    sessions and the connected clients; the chain it rebuilds lists the
    components the new configuration enables, in the fixed order; a
    second update overrides the first; and [handleUpdateMiddlewareConfig]
    answers every decodable body with success. *)
Theorem UpdateConfig_keeps_state (m : Manager.Manager) (c : Middleware.MiddlewareConfig) :
  exists m',
    Manager.UpdateConfig m c = (m', None)
    /\ Manager.GetConfig m' = c
    /\ Auth.apiKeys (Manager.auth m') = Auth.apiKeys (Manager.auth m)
    /\ Claude.sessions (Manager.claude m') = Claude.sessions (Manager.claude m)
    /\ Sync.clients (Manager.sync m') = Sync.clients (Manager.sync m)
    /\ Sync.heap (Manager.sync m') = Sync.heap (Manager.sync m)
    /\ Sync.broadcast (Manager.sync m') = Sync.broadcast (Manager.sync m)
    /\ sublist (Manager.chain m') ["errors"; "response"; "auth"; "validation"; "sync"; "claude"]
    /\ ("errors" ∈ Manager.chain m'
        <-> Middleware.ErrorConfig.Enabled (Middleware.Errors c) = true)
    /\ ("response" ∈ Manager.chain m'
        <-> Middleware.ResponseConfig.Enabled (Middleware.Response c) = true)
    /\ ("auth" ∈ Manager.chain m'
        <-> Middleware.AuthConfig.Enabled (Middleware.Auth c) = true)
    /\ ("validation" ∈ Manager.chain m'
        <-> Middleware.ValidationConfig.Enabled (Middleware.Validation c) = true)
    /\ ("sync" ∈ Manager.chain m'
        <-> Middleware.SyncConfig.Enabled (Middleware.Sync c) = true)
    /\ ("claude" ∈ Manager.chain m'
        <-> Middleware.ClaudeConfig.Enabled (Middleware.Claude c) = true)
    /\ (forall c2, (Manager.UpdateConfig m' c2).1 = (Manager.UpdateConfig m c2).1)
    /\ (forall rt r,
          Manager.handleUpdateMiddlewareConfig m rt r (inl c)
          = (Manager.Updated "Configuration updated successfully", m')).
Proof.
  eexists. split; [reflexivity|].
  do 6 (split; [reflexivity|]).
  cbn [Manager.chain Manager.buildChain Manager.errors Manager.response Manager.auth
       Manager.validation Manager.sync Manager.claude Errors.enabled Response.enabled
       Auth.enabled Validation.enabled Sync.enabled Claude.enabled fst snd
       Errors.Configure Response.Configure Auth.Configure Validation.Configure
       Sync.Configure Claude.Configure].
  destruct (chain_of_flags (Middleware.ErrorConfig.Enabled (Middleware.Errors c))
              (Middleware.ResponseConfig.Enabled (Middleware.Response c))
              (Middleware.AuthConfig.Enabled (Middleware.Auth c))
              (Middleware.ValidationConfig.Enabled (Middleware.Validation c))
              (Middleware.SyncConfig.Enabled (Middleware.Sync c))
              (Middleware.ClaudeConfig.Enabled (Middleware.Claude c)))
    as (Hsub & He & Hr & Ha & Hv & Hs & Hc).
  do 7 (split; [assumption|]).
  split; [intros c2|intros rt r]; reflexivity.
Qed.

(** ** The hub: heartbeats *)

(** A message for everyone, broadcast in a state where a registered
    client has a closed queue: the loop of [broadcastMessage] sends on
    the closed channel. *)
Lemma broadcast_on_closed_queue (message : Sync.SyncMessage) (s0 : Sync.SyncMiddleware) :
  Sync.SyncMessage.UserID message = "" ->
  Sync.SyncMessage.AgentID message = "" ->
  (forall id p, Sync.clients s0 !! id = Some p -> is_Some (Sync.heap s0 !! p)) ->
  (exists id p client,
     Sync.clients s0 !! id = Some p /\ Sync.heap s0 !! p = Some client
     /\ Sync.closed (Sync.Client.Send client) = true) ->
  Sync.broadcastMessage s0 message = Panicked SendOnClosedChannel.
Proof.
  intros Huser Hagent Hvalid (id0 & p0 & client0 & Hreg0 & Hheap0 & Hclosed0).
  assert (Hsel : forall client, Sync.shouldReceiveMessage client message = true).
  { intros client. unfold Sync.shouldReceiveMessage. by rewrite Huser, Hagent. }
  pose proof (map_fold_weak_ind
    (fun r vis =>
       (forall id p, vis !! id = Some p -> is_Some (Sync.heap s0 !! p)) ->
       match r with
       | Panicked k => k = SendOnClosedChannel
       | Done s' =>
           (forall p client,
              Sync.heap s0 !! p = Some client ->
              exists client',
                Sync.heap s' !! p = Some client'
                /\ (Sync.closed (Sync.Client.Send client) = true ->
                    Sync.closed (Sync.Client.Send client') = true))
           /\ (forall id p client,
                 vis !! id = Some p -> Sync.heap s0 !! p = Some client ->
                 Sync.closed (Sync.Client.Send client) = false)
       end)
    (Sync.broadcast_step message) (Done s0)) as Hind.
  specialize (Hind ltac:(intros _; split; [intros p client Hp; by exists client | done])).
  unfold Sync.broadcastMessage.
  assert (Hstep : forall (i : string) (x : Sync.loc) (m : gmap string Sync.loc)
                    (r : Run Sync.SyncMiddleware),
            m !! i = None ->
            ((forall id p, m !! id = Some p -> is_Some (Sync.heap s0 !! p)) ->
             match r with
             | Panicked k => k = SendOnClosedChannel
             | Done s' =>
                 (forall p client,
                    Sync.heap s0 !! p = Some client ->
                    exists client',
                      Sync.heap s' !! p = Some client'
                      /\ (Sync.closed (Sync.Client.Send client) = true ->
                          Sync.closed (Sync.Client.Send client') = true))
                 /\ (forall id p client,
                       m !! id = Some p -> Sync.heap s0 !! p = Some client ->
                       Sync.closed (Sync.Client.Send client) = false)
             end) ->
            (forall id p, <[i := x]> m !! id = Some p -> is_Some (Sync.heap s0 !! p)) ->
            match Sync.broadcast_step message i x r with
            | Panicked k => k = SendOnClosedChannel
            | Done s' =>
                (forall p client,
                   Sync.heap s0 !! p = Some client ->
                   exists client',
                     Sync.heap s' !! p = Some client'
                     /\ (Sync.closed (Sync.Client.Send client) = true ->
                         Sync.closed (Sync.Client.Send client') = true))
                /\ (forall id p client,
                      <[i := x]> m !! id = Some p -> Sync.heap s0 !! p = Some client ->
                      Sync.closed (Sync.Client.Send client) = false)
            end).
  { intros i x m r Hfresh IH Hval.
    assert (Hval_m : forall id p, m !! id = Some p -> is_Some (Sync.heap s0 !! p)).
    { intros id p Hidp. apply (Hval id). rewrite lookup_insert_ne; [done |].
      by intros ->; rewrite Hfresh in Hidp. }
    specialize (IH Hval_m).
    destruct r as [s' | k]; [| exact IH].
    destruct IH as [Hmono Hopen].
    destruct (Hval i x) as [client Hclient]; [by rewrite lookup_insert_eq |].
    destruct (Hmono x client Hclient) as (client' & Hcur & Hkeep).
    unfold Sync.broadcast_step. cbn [run_bind]. unfold Sync.deref. rewrite Hcur.
    cbn [run_bind]. rewrite Hsel. unfold Sync.send_or_drop, Sync.try_send, Sync.close_chan.
    destruct (Sync.closed (Sync.Client.Send client')) eqn:Hc'; [done |].
    assert (Hinit : Sync.closed (Sync.Client.Send client) = false).
    { apply not_true_iff_false. intros Hc. apply Hkeep in Hc. congruence. }
    assert (Hentries : forall id p c,
              <[i := x]> m !! id = Some p -> Sync.heap s0 !! p = Some c ->
              Sync.closed (Sync.Client.Send c) = false).
    { intros id p c Hidp Hp. destruct (decide (id = i)) as [-> | Hne].
      - rewrite lookup_insert_eq in Hidp. injection Hidp as <-.
        rewrite Hclient in Hp. by injection Hp as <-.
      - rewrite lookup_insert_ne in Hidp by done. by apply (Hopen id p c). }
    destruct (decide _) as [Hroom | Hfull]; cbn [run_bind].
    - split; [| exact Hentries]. intros p c Hp.
      cbn [Sync.heap Sync.set_client]. destruct (decide (p = x)) as [-> | Hne].
      + rewrite lookup_insert_eq. eexists. split; [done |].
        rewrite Hclient in Hp. injection Hp as <-. by rewrite Hinit.
      + rewrite lookup_insert_ne by done. by apply Hmono.
    - cbn [run_bind].
      split; [| exact Hentries]. intros p c Hp.
      cbn [Sync.heap Sync.set_client Sync.set_clients].
      destruct (decide (p = x)) as [-> | Hne].
      + rewrite lookup_insert_eq. eexists. by split.
      + rewrite lookup_insert_ne by done. by apply Hmono. }
  specialize (Hind Hstep (Sync.clients s0) Hvalid).
  destruct (map_fold (Sync.broadcast_step message) (Done s0) (Sync.clients s0))
    as [s' | k]; [| by rewrite Hind].
  destruct Hind as [_ Hopen]. by rewrite (Hopen id0 p0 client0 Hreg0 Hheap0) in Hclosed0.
Qed.

(** X29: the hub taking a heartbeat off the broadcast channel. In a
    state where every registered client is stored under its own
    identifier with an open queue, the heartbeat is queued for every
    registered client whose queue has room, and every registered client
    whose queue is full is removed from the registry and its queue
    closed. The code does not keep that condition (a ping on a full
    queue closes the queue of a client that stays registered): in a
    state where some registered client has a closed queue the hub
    panics with a send on a closed channel. *)
Theorem heartbeat_delivers_or_drops (rt : Runtime) (s : Sync.SyncMiddleware) :
  Sync.broadcast s = [] ->
  (registry_ok s ->
   exists s' beat,
     Sync.runHub_broadcast (Sync.sendHeartbeat rt s) = Done s'
     /\ Sync.SyncMessage.Type_ beat = "heartbeat"
     /\ Sync.broadcast s' = []
     /\ forall id p client,
          Sync.clients s !! id = Some p ->
          Sync.heap s !! p = Some client ->
          (length (Sync.buf (Sync.Client.Send client)) < Sync.cap (Sync.Client.Send client) ->
           Sync.clients s' !! id = Some p
           /\ Sync.heap s' !! p
              = Some (Sync.with_Send client
                        {| Sync.buf := Sync.buf (Sync.Client.Send client) ++ [beat];
                           Sync.cap := Sync.cap (Sync.Client.Send client);
                           Sync.closed := false |}))
          /\ (Sync.cap (Sync.Client.Send client) <= length (Sync.buf (Sync.Client.Send client)) ->
              Sync.clients s' !! id = None
              /\ Sync.heap s' !! p
                 = Some (Sync.with_Send client
                           {| Sync.buf := Sync.buf (Sync.Client.Send client);
                              Sync.cap := Sync.cap (Sync.Client.Send client);
                              Sync.closed := true |})))
  /\ ((forall id p, Sync.clients s !! id = Some p -> is_Some (Sync.heap s !! p)) ->
      (exists id p client,
         Sync.clients s !! id = Some p /\ Sync.heap s !! p = Some client
         /\ Sync.closed (Sync.Client.Send client) = true) ->
      Sync.runHub_broadcast (Sync.sendHeartbeat rt s) = Panicked SendOnClosedChannel).
Proof.
  intros Hempty.
  unfold Sync.runHub_broadcast, Sync.sendHeartbeat, Sync.push_broadcast.
  cbn [Sync.broadcast Sync.config Sync.enabled Sync.heap Sync.clients].
  rewrite Hempty. cbn [app].
  set (beat := {| Sync.SyncMessage.Type_ := "heartbeat";
                  Sync.SyncMessage.Data := _; Sync.SyncMessage.Timestamp := now rt;
                  Sync.SyncMessage.ClientID := ""; Sync.SyncMessage.UserID := "";
                  Sync.SyncMessage.AgentID := "" |}).
  set (s0 := {| Sync.config := Sync.config s; Sync.enabled := Sync.enabled s;
                Sync.heap := Sync.heap s; Sync.clients := Sync.clients s;
                Sync.broadcast := [] |}).
  split.
  - intros Hok.
    assert (Hok0 : registry_ok s0) by exact Hok.
    destruct (broadcast_fold beat s0 (Sync.clients s0)) as (s' & Hrun & _ & _ & Hb & _);
      [exact Hok0|].
    destruct (broadcastMessage_spec s0 beat Hok0) as (s'' & Hrun' & Hspec).
    unfold Sync.broadcastMessage in Hrun'. rewrite Hrun in Hrun'. injection Hrun' as <-.
    exists s', beat. split; [exact Hrun|]. split; [done|]. split; [exact Hb|].
    intros id p client Hreg Hheap.
    destruct (Hspec id p client Hreg Hheap) as [Hh Hc].
    rewrite Hh, Hc. unfold delivered, dropped.
    assert (Hsel : Sync.shouldReceiveMessage client beat = true) by done.
    rewrite Hsel. cbn [andb]. split; intros Hroom.
    + destruct (decide _) as [_|]; [|done]. by rewrite bool_decide_eq_true_2.
    + destruct (decide _) as [?|_]; [lia|]. rewrite bool_decide_eq_false_2 by lia. done.
  - intros Hvalid Hclosed.
    by apply (broadcast_on_closed_queue beat s0).
Qed.

(** Two subscribers with room in their queues: the heartbeat is
    delivered. One subscriber that sent a ping on a full queue: the
    heartbeat makes the hub panic. *)
Lemma heartbeat_delivers_or_drops_witness :
  (exists s',
     Sync.runHub_broadcast (Sync.sendHeartbeat (runtime_at 9 "") hub_with_A_and_B) = Done s'
     /\ Sync.broadcast s' = [])
  /\ Sync.runHub_broadcast
       (Sync.sendHeartbeat (runtime_at 9 "") (run_result hub_of_capacity_1 after_ping))
     = Panicked SendOnClosedChannel.
Proof.
  split.
  - destruct (heartbeat_delivers_or_drops (runtime_at 9 "") hub_with_A_and_B)
      as [Hopen _]; [vm_compute; reflexivity|].
    destruct (Hopen hub_with_A_and_B_ok) as (s' & beat & Hrun & _ & Hempty & _).
    exists s'. split; [exact Hrun|exact Hempty].
  - destruct (heartbeat_delivers_or_drops (runtime_at 9 "")
                (run_result hub_of_capacity_1 after_ping)) as [_ Hclosed];
      [vm_compute; reflexivity|].
    apply Hclosed.
    + intros id p Hreg.
      assert (Hclients : Sync.clients (run_result hub_of_capacity_1 after_ping)
                         = {[ "client_A" := 1 ]}) by (vm_compute; reflexivity).
      rewrite Hclients in Hreg. apply lookup_singleton_Some in Hreg as [_ <-].
      vm_compute. by eexists.
    + exists "client_A", 1. eexists. split; [vm_compute; reflexivity |].
      split; [vm_compute; reflexivity | reflexivity].
Defined.
